(** * The auto-close scheduler of the Telegram business bot

    A shallow embedding of [services/auto_close_scheduler.py]: the class
    [AutoCloseScheduler] with its three coroutines [start_scheduler],
    [check_auto_close_shifts] and [_send_shift_summary], the coroutine
    [stop_scheduler] that another task calls, and the Python text
    operations the summary message is built with.

    Conventions of the embedding.
    - A Python [str] is a [string] holding its UTF-8 bytes.
    - A Python [dict] read by key is a [gmap]; a [dict] that is iterated is an
      association list in insertion order.
    - A coroutine is a function of the world (state passing); it returns an
      outcome and the world it leaves.  An outcome is a value or a raised
      instance of [Exception], the class both [except] clauses name.
    - Every [await] is a suspension point: other tasks run there, and one of
      them may call [stop_scheduler].

    The module [Dynamic] embeds the three coroutines a second time, with the
    checks Python makes at run time written out: which raised objects an
    [except Exception] catches, which keys the summary has, which number an
    amount is, and whether the bot service has a [send_message]. *)

From Stdlib Require Import ZArith QArith String Ascii List Bool Lia DecimalString.
From stdpp Require Import base option list gmap strings.

Local Open Scope Z_scope.

(** ** Python text operations *)

Module Py.

(** [str(n)] for an [int]. *)
Definition str_int (n : Z) : string := NilZero.string_of_int (Z.to_int n).

(** [sep.join(parts)]. *)
Fixpoint join (sep : string) (parts : list string) : string :=
  match parts with
  | [] => ""
  | [p] => p
  | p :: rest => p +:+ sep +:+ join sep rest
  end.

(** [repr] of a list of [int]s, as an f-string renders [[a, b, c]]. *)
Definition repr_int_list (l : list Z) : string :=
  "[" +:+ join ", " (map str_int l) +:+ "]".

(** [c.isspace()] on the one-byte characters: tab, line feed, vertical tab,
    form feed, carriage return, the four separators 0x1c-0x1f and the space. *)
Definition isspace (c : ascii) : bool :=
  let n := nat_of_ascii c in
  ((9 <=? n)%nat && (n <=? 13)%nat) || ((28 <=? n)%nat && (n <=? 32)%nat).

Fixpoint lstrip (s : string) : string :=
  match s with
  | EmptyString => EmptyString
  | String c s' => if isspace c then lstrip s' else s
  end.

Fixpoint rstrip (s : string) : string :=
  match s with
  | EmptyString => EmptyString
  | String c s' =>
      match rstrip s' with
      | EmptyString => if isspace c then EmptyString else String c EmptyString
      | r => String c r
      end
  end.

(** [s.strip()]. *)
Definition strip (s : string) : string := rstrip (lstrip s).

(** The line feed of a triple-quoted literal. *)
Definition nl : string := String (ascii_of_nat 10) EmptyString.

(** *** [format(x, ',.2f')]

    An amount is a [float] or a [Decimal]; both denote a rational number,
    and the format rounds its exact value to two decimals, ties to even,
    groups the integer digits by three and keeps the sign of the value. *)

(** The magnitude of [q] in hundredths, rounded half to even. *)
Definition round_hundredths (q : Q) : Z :=
  let a := Z.abs (Qnum q) * 100 in
  let b := Z.pos (Qden q) in
  let k := a / b in
  let r := a mod b in
  if 2 * r <? b then k
  else if b <? 2 * r then k + 1
  else if Z.even k then k else k + 1.

(** Digits, least significant first, with a comma before every fourth. *)
Fixpoint group_rev (digits : list ascii) (k : nat) : list ascii :=
  match digits with
  | [] => []
  | d :: rest =>
      match k with
      | 3%nat => ","%char :: d :: group_rev rest 1
      | _ => d :: group_rev rest (S k)
      end
  end.

Definition group_thousands (digits : string) : string :=
  string_of_list_ascii
    (rev (group_rev (rev (list_ascii_of_string digits)) 0)).

Definition two_digits (n : Z) : string :=
  if n <? 10 then "0" +:+ str_int n else str_int n.

Definition format_comma_2f (q : Q) : string :=
  let h := round_hundredths q in
  (if Qnum q <? 0 then "-" else "")
    +:+ group_thousands (str_int (h / 100)) +:+ "." +:+ two_digits (h mod 100).

(** [sub in s] for two strings. *)
Fixpoint contains_b (s sub : string) : bool :=
  String.prefix sub s ||
  match s with
  | EmptyString => false
  | String _ s' => contains_b s' sub
  end.

Definition contains (s sub : string) : Prop :=
  exists pre post, s = pre +:+ sub +:+ post.

End Py.

(** ** Values, exceptions and outcomes *)

(** An instance of [Exception]: its class and what [str(e)] gives. *)
Record Exception := mkException { exc_class : string; exc_str : string }.

Definition KeyError (key : string) : Exception :=
  mkException "KeyError" ("'" +:+ key +:+ "'").

Definition AttributeError (message : string) : Exception :=
  mkException "AttributeError" message.

Inductive Outcome (A : Type) : Type :=
| Returned (a : A)
| Raised (e : Exception).
Arguments Returned {A} a.
Arguments Raised {A} e.

(** The record the close operation returns for a shift, a [dict] with the
    keys [id], [chat_id] and [number]. *)
Abbreviation ShiftInfo := (gmap string Z).

Definition is_closed_shift_record (shift : ShiftInfo) : bool :=
  bool_decide (is_Some (shift !! "id"))
  && bool_decide (is_Some (shift !! "chat_id"))
  && bool_decide (is_Some (shift !! "number")).

(** One entry of [summary["currencies"]]. *)
Record CurrencyData := mkCurrencyData { amount : Q; count : Z }.

(** What [get_shift_income_summary] returns. *)
Record IncomeSummary := mkIncomeSummary {
  transaction_count : Z;
  total_amount : Q;
  currencies : list (string * CurrencyData)
}.

(** ** The summary message (lines 80-113) *)

(** [f"{currency}"] for a [str]. *)
Definition fstring_str (s : string) : string := s.

Definition currency_symbol (currency : string) : string :=
  if existsb (String.eqb currency) ["$"; "៛"] then currency
  else fstring_str currency.

Definition currency_line (entry : string * CurrencyData) : string :=
  let (currency, data) := entry in
  "• " +:+ currency_symbol currency +:+ Py.format_comma_2f (amount data)
    +:+ " (" +:+ Py.str_int (count data) +:+ " transactions)".

Definition currency_details (summary : IncomeSummary) : list string :=
  map currency_line (currencies summary).

Definition title_line (shift_number : Z) : string :=
  "🔒 **វេន #" +:+ Py.str_int shift_number +:+ " បានបិទដោយស្វ័យប្រវត្តិ**".

Definition income_heading : string := "📊 **សរុបចំណូល:**".
Definition details_heading : string := "📝 **ព័ត៌មានលម្អិត:**".
Definition no_transactions_line : string := "• មិនមានប្រតិបត្តិការ".
Definition footer_line : string := "⚡ បិទដោយ: ការកំណត់ពេលវេលាស្វ័យប្រវត្តិ".

Definition total_count_line (summary : IncomeSummary) : string :=
  "• ចំនួនប្រតិបត្តិការសរុប: " +:+ Py.str_int (transaction_count summary).

Definition total_amount_line (summary : IncomeSummary) : string :=
  "• តម្លៃសរុប: " +:+ Py.format_comma_2f (total_amount summary).

(** The closing line of both literals: sixteen spaces before the quotes. *)
Definition closing_indent : string := "                ".

Definition summary_message (shift_number : Z) (summary : IncomeSummary) : string :=
  if 0 <? transaction_count summary then
    let currency_text := Py.join Py.nl (currency_details summary) in
    Py.strip
      (Py.nl +:+ title_line shift_number +:+ Py.nl
       +:+ Py.nl
       +:+ income_heading +:+ Py.nl
       +:+ currency_text +:+ Py.nl
       +:+ Py.nl
       +:+ details_heading +:+ Py.nl
       +:+ total_count_line summary +:+ Py.nl
       +:+ total_amount_line summary +:+ Py.nl
       +:+ Py.nl
       +:+ footer_line +:+ Py.nl
       +:+ closing_indent)
  else
    Py.strip
      (Py.nl +:+ title_line shift_number +:+ Py.nl
       +:+ Py.nl
       +:+ income_heading +:+ Py.nl
       +:+ no_transactions_line +:+ Py.nl
       +:+ Py.nl
       +:+ footer_line +:+ Py.nl
       +:+ closing_indent).

(** The message for a summary with transactions, and the message for one
    without: the text of the literal between its first and its last line. *)
Definition message_with_transactions (shift_number : Z) (summary : IncomeSummary)
    : string :=
  title_line shift_number +:+ Py.nl
    +:+ Py.nl
    +:+ income_heading +:+ Py.nl
    +:+ Py.join Py.nl (currency_details summary) +:+ Py.nl
    +:+ Py.nl
    +:+ details_heading +:+ Py.nl
    +:+ total_count_line summary +:+ Py.nl
    +:+ total_amount_line summary +:+ Py.nl
    +:+ Py.nl
    +:+ footer_line.

Definition message_without_transactions (shift_number : Z) : string :=
  title_line shift_number +:+ Py.nl
    +:+ Py.nl
    +:+ income_heading +:+ Py.nl
    +:+ no_transactions_line +:+ Py.nl
    +:+ Py.nl
    +:+ footer_line.

(** ** Collaborators *)

(** [services.ShiftService], over the state [Store] of the shift store.
    Each method returns or raises, and leaves a store. *)
Record ShiftService (Store : Type) := mkShiftService {
  check_and_auto_close_shifts : Store -> Outcome (list ShiftInfo) * Store;
  get_shift_income_summary : Z -> Z -> Store -> Outcome IncomeSummary * Store
}.
Arguments check_and_auto_close_shifts {Store} _ _.
Arguments get_shift_income_summary {Store} _ _ _ _.

(** The bot service, over the state [Net] of the chats it delivers to. *)
Record AutosumBusinessBot (Net : Type) := mkAutosumBusinessBot {
  send_message : Z -> string -> Net -> Outcome bool * Net
}.
Arguments send_message {Net} _ _ _ _.

(** What [__init__] stores in the scheduler: the shift service and the bot
    service it is given, [None] when there is none. *)
Record AutoCloseScheduler (Store Net : Type) := mkAutoCloseScheduler {
  shift_service : ShiftService Store;
  bot_service : option (AutosumBusinessBot Net)
}.
Arguments shift_service {Store Net} _.
Arguments bot_service {Store Net} _.

(** ** The world a coroutine runs in *)

(** What happens during a run, in the order it happens: the scheduler's
    calls, and [stop_scheduler] run by another task. *)
Inductive Event : Type :=
| ev_check_auto_close_shifts
| ev_check_and_auto_close_shifts
| ev_send_shift_summary (shift_info : ShiftInfo)
| ev_get_shift_income_summary (shift_id chat_id : Z)
| ev_send_message (chat_id : Z) (message : string)
| ev_sleep (seconds : Z)
| ev_stop_scheduler.

Record World (Store Net : Type) := mkWorld {
  store : Store;            (* the shift store *)
  net : Net;                (* the chats *)
  is_running : bool;        (* self.is_running *)
  log : list string;        (* the lines given to force_log, oldest first *)
  events : list Event;      (* oldest first *)
  awaits : nat              (* suspension points passed so far *)
}.
Arguments mkWorld {Store Net}.
Arguments store {Store Net}.
Arguments net {Store Net}.
Arguments is_running {Store Net}.
Arguments log {Store Net}.
Arguments events {Store Net}.
Arguments awaits {Store Net}.

(** ** Coroutines as state passing

    A computation over a state [S] returns an outcome and the state it
    leaves; a raised exception keeps the state reached when it was raised. *)

Definition M (S A : Type) : Type := S -> Outcome A * S.

Definition ret {S A} (a : A) : M S A := fun w => (Returned a, w).

Definition raise {S A} (e : Exception) : M S A := fun w => (Raised e, w).

Definition bind {S A B} (m : M S A) (k : A -> M S B) : M S B :=
  fun w =>
    match m w with
    | (Returned a, w') => k a w'
    | (Raised e, w') => (Raised e, w')
    end.

Notation "x <- m ;; k" := (bind m (fun x => k))
  (at level 100, m at next level, right associativity).
Notation "m ;; k" := (bind m (fun _ => k))
  (at level 100, right associativity).

(** [try: body except Exception as e: handler]. *)
Definition try_except {S A} (body : M S A) (handler : Exception -> M S A) : M S A :=
  fun w =>
    match body w with
    | (Returned a, w') => (Returned a, w')
    | (Raised e, w') => handler e w'
    end.

(** [for x in l: body]. *)
Fixpoint for_each {S A} (l : list A) (body : A -> M S unit) : M S unit :=
  match l with
  | [] => ret tt
  | x :: rest => body x ;; for_each rest body
  end.

(** [[f(x) for x in l]]. *)
Fixpoint comprehension {S A B} (l : list A) (f : A -> M S B) : M S (list B) :=
  match l with
  | [] => ret []
  | x :: rest => y <- f x ;; ys <- comprehension rest f ;; ret (y :: ys)
  end.

Section Scheduler.

Context {Store Net : Type}.

Abbreviation W := (World Store Net).
Abbreviation Co := (M (World Store Net)).

(** The scheduler object [self] (its flag [self.is_running] is in the world),
    and [traceback.format_exc] for the exception being handled. *)
Variable self : AutoCloseScheduler Store Net.
Variable format_exc : Exception -> string.

(** Whether another task calls [stop_scheduler] while this one is suspended
    at its [n]-th await. *)
Variable stop_requested : nat -> bool.

(** [d[key]]. *)
Definition getitem (d : ShiftInfo) (key : string) : Co Z :=
  match d !! key with
  | Some v => ret v
  | None => raise (KeyError key)
  end.

(** [f"{d.get(key, default)}"]. *)
Definition get_or (d : ShiftInfo) (key default : string) : string :=
  match d !! key with
  | Some v => Py.str_int v
  | None => default
  end.

Definition emit (e : Event) : Co unit :=
  fun w => (Returned tt,
            mkWorld (store w) (net w) (is_running w) (log w) (events w ++ [e]) (awaits w)).

(** Modelled from the spec: [helper.logger_utils.force_log] is not among the
    sources; the spec has it log the line, so it appends the line to the log. *)
Definition force_log (line : string) : Co unit :=
  fun w => (Returned tt,
            mkWorld (store w) (net w) (is_running w) (log w ++ [line]) (events w) (awaits w)).

Definition set_is_running (b : bool) : Co unit :=
  fun w => (Returned tt,
            mkWorld (store w) (net w) b (log w) (events w) (awaits w)).

(** *** [stop_scheduler] (lines 31-34) *)

Definition stop_scheduler : Co unit :=
  set_is_running false ;;
  force_log "Auto-close scheduler stopped".

(** The task is suspended: the await is counted, and another task runs
    [stop_scheduler] if the schedule says so. *)
Definition suspend : Co unit :=
  fun w =>
    let w' := mkWorld (store w) (net w) (is_running w) (log w) (events w)
                      (S (awaits w)) in
    if stop_requested (awaits w)
    then (emit ev_stop_scheduler ;; stop_scheduler) w'
    else (Returned tt, w').

(** [await op]: the operation runs, the task is suspended meanwhile, and the
    outcome of the operation is what the await gives. *)
Definition await {A} (op : Co A) : Co A :=
  fun w =>
    let (r, w1) := op w in
    let (_, w2) := suspend w1 in
    (r, w2).

(** [asyncio.sleep(seconds)]. *)
Definition asyncio_sleep (seconds : Z) : Co unit :=
  emit (ev_sleep seconds) ;; await (ret tt).

(** *** Calls into the collaborators *)

(** The collaborators' methods, acting on their part of the world. *)
Definition shift_service_close : Co (list ShiftInfo) :=
  fun w =>
    let (r, s) := check_and_auto_close_shifts (shift_service self) (store w) in
    (r, mkWorld s (net w) (is_running w) (log w) (events w) (awaits w)).

Definition shift_service_summary (shift_id chat_id : Z) : Co IncomeSummary :=
  fun w =>
    let (r, s) :=
      get_shift_income_summary (shift_service self) shift_id chat_id (store w) in
    (r, mkWorld s (net w) (is_running w) (log w) (events w) (awaits w)).

Definition bot_send (bot : AutosumBusinessBot Net) (chat_id : Z) (message : string)
    : Co bool :=
  fun w =>
    let (r, n) := send_message bot chat_id message (net w) in
    (r, mkWorld (store w) n (is_running w) (log w) (events w) (awaits w)).

(** [await self.shift_service.check_and_auto_close_shifts()]. *)
Definition call_check_and_auto_close_shifts : Co (list ShiftInfo) :=
  emit ev_check_and_auto_close_shifts ;;
  await shift_service_close.

(** [await self.shift_service.get_shift_income_summary(shift_id, chat_id)]. *)
Definition call_get_shift_income_summary (shift_id chat_id : Z) : Co IncomeSummary :=
  emit (ev_get_shift_income_summary shift_id chat_id) ;;
  await (shift_service_summary shift_id chat_id).

(** [await self.bot_service.send_message(chat_id, message)]; the attribute
    lookup fails on [None]. *)
Definition call_send_message (chat_id : Z) (message : string) : Co bool :=
  match bot_service self with
  | None =>
      raise (AttributeError "'NoneType' object has no attribute 'send_message'")
  | Some bot =>
      emit (ev_send_message chat_id message) ;;
      await (bot_send bot chat_id message)
  end.

(** *** [_send_shift_summary] (lines 67-130) *)

(** The body of the coroutine. *)
Definition send_shift_summary_body (shift_info : ShiftInfo) : Co unit :=
  try_except
    (chat_id <- getitem shift_info "chat_id" ;;
     shift_id <- getitem shift_info "id" ;;
     shift_number <- getitem shift_info "number" ;;
     summary <- call_get_shift_income_summary shift_id chat_id ;;
     let message := summary_message shift_number summary in
     success <- call_send_message chat_id message ;;
     if success : bool then
       force_log ("Sent shift summary for shift " +:+ Py.str_int shift_id
                  +:+ " to chat " +:+ Py.str_int chat_id)
     else
       force_log ("Failed to send shift summary for shift " +:+ Py.str_int shift_id
                  +:+ " to chat " +:+ Py.str_int chat_id))
    (fun e =>
       force_log ("Error sending shift summary for shift "
                  +:+ get_or shift_info "id" "unknown" +:+ ": " +:+ exc_str e) ;;
       force_log ("Shift summary error traceback: " +:+ format_exc e)).

(** The call: it is entered, then its body runs. *)
Definition _send_shift_summary (shift_info : ShiftInfo) : Co unit :=
  emit (ev_send_shift_summary shift_info) ;;
  send_shift_summary_body shift_info.

(** *** [check_auto_close_shifts] (lines 36-65) *)

Definition notify_closed_shift (shift : ShiftInfo) : Co unit :=
  shift_id <- getitem shift "id" ;;
  chat_id <- getitem shift "chat_id" ;;
  force_log ("Auto-closed shift " +:+ Py.str_int shift_id
             +:+ " for chat " +:+ Py.str_int chat_id) ;;
  match bot_service self with
  | Some _ => _send_shift_summary shift
  | None => ret tt
  end.

Definition check_auto_close_shifts_body : Co unit :=
  force_log "Starting auto-close shift check..." ;;
  try_except
    (closed_shifts <- call_check_and_auto_close_shifts ;;
     match closed_shifts with
     | _ :: _ =>
         ids <- comprehension closed_shifts (fun shift => getitem shift "id") ;;
         force_log ("Auto-closed " +:+ Py.str_int (Z.of_nat (length closed_shifts))
                    +:+ " shifts: " +:+ Py.repr_int_list ids) ;;
         for_each closed_shifts notify_closed_shift
     | [] => force_log "No shifts needed auto-closing"
     end)
    (fun e =>
       force_log ("Error in auto-close shift check: " +:+ exc_str e) ;;
       force_log ("Traceback: " +:+ format_exc e)).

Definition check_auto_close_shifts : Co unit :=
  emit ev_check_auto_close_shifts ;;
  check_auto_close_shifts_body.

(** *** [start_scheduler] (lines 16-29) *)

(** One turn of the [while] body, as a function of the coroutine it awaits
    first; the loop awaits [self.check_auto_close_shifts()]. *)
Definition loop_turn (cycle : Co unit) : Co unit :=
  try_except
    (cycle ;; asyncio_sleep 60)
    (fun e =>
       force_log ("Error in auto-close scheduler loop: " +:+ exc_str e) ;;
       asyncio_sleep 60).

Definition loop_body : Co unit := loop_turn check_auto_close_shifts.

(** [while self.is_running: ...], for at most [fuel] turns: [None] when the
    loop is still running after them. *)
Fixpoint while_is_running (fuel : nat) (w : W) : option (Outcome unit * W) :=
  match fuel with
  | O => None
  | S fuel' =>
      if is_running w then
        match loop_body w with
        | (Returned _, w') => while_is_running fuel' w'
        | (Raised e, w') => Some (Raised e, w')
        end
      else Some (Returned tt, w)
  end.

Definition start_scheduler (fuel : nat) (w : W) : option (Outcome unit * W) :=
  match (set_is_running true ;;
         force_log "Auto-close scheduler started - will run every minute") w with
  | (Returned _, w') => while_is_running fuel w'
  | (Raised e, w') => Some (Raised e, w')
  end.

End Scheduler.

(** ** Observations on a run *)

Global Instance Event_eq_dec : EqDecision Event.
Proof. solve_decision. Defined.

(** The notification attempts in a trace: the calls of [_send_shift_summary],
    with the record each was given. *)
Fixpoint attempts (es : list Event) : list ShiftInfo :=
  match es with
  | [] => []
  | ev_send_shift_summary s :: rest => s :: attempts rest
  | _ :: rest => attempts rest
  end.

(** The summary fetches in a trace. *)
Fixpoint fetches (es : list Event) : list (Z * Z) :=
  match es with
  | [] => []
  | ev_get_shift_income_summary i c :: rest => (i, c) :: fetches rest
  | _ :: rest => fetches rest
  end.

(** The messages handed to [send_message] in a trace. *)
Fixpoint sends (es : list Event) : list (Z * string) :=
  match es with
  | [] => []
  | ev_send_message c m :: rest => (c, m) :: sends rest
  | _ :: rest => sends rest
  end.

(** The calls of the close operation in a trace. *)
Fixpoint closes (es : list Event) : nat :=
  match es with
  | [] => 0
  | ev_check_and_auto_close_shifts :: rest => S (closes rest)
  | _ :: rest => closes rest
  end.

(** The check cycles started in a trace. *)
Fixpoint cycles (es : list Event) : nat :=
  match es with
  | [] => 0
  | ev_check_auto_close_shifts :: rest => S (cycles rest)
  | _ :: rest => cycles rest
  end.


(** No stop is requested at the awaits [from], ..., [from + n - 1]. *)
Definition undisturbed (stop_requested : nat -> bool) (from n : nat) : bool :=
  forallb (fun t => negb (stop_requested t)) (seq from n).

(** The stop lines and stop events of a suspension. *)
Definition stop_lines (requested : bool) : list string :=
  if requested then ["Auto-close scheduler stopped"] else [].

Definition stop_events (requested : bool) : list Event :=
  if requested then [ev_stop_scheduler] else [].


(** The trace grows by events that all satisfy [P]. *)
Definition emits_only {Store Net} (P : Event -> Prop) : relation (World Store Net) :=
  fun w w' => exists es, events w' = events w ++ es /\ Forall P es.

(** The log grows. *)
Definition log_grows {Store Net} : relation (World Store Net) :=
  fun w w' => exists lines, log w' = log w ++ lines.

(** The shift store is as it was. *)
Definition same_store {Store Net} : relation (World Store Net) :=
  fun w w' => store w' = store w.

(** The flag follows the stop requests: it is cleared exactly when a stop
    was requested at one of the awaits passed, and then the stop is in the
    trace; no check cycle starts meanwhile. *)
Definition follows_stops {Store Net} (stop_requested : nat -> bool)
    : relation (World Store Net) :=
  fun w w' =>
    (awaits w <= awaits w')%nat /\
    is_running w' =
      is_running w && undisturbed stop_requested (awaits w) (awaits w' - awaits w) /\
    exists es,
      events w' = events w ++ es /\
      (ev_check_auto_close_shifts ∉ es) /\
      (ev_stop_scheduler ∈ es <->
       undisturbed stop_requested (awaits w) (awaits w' - awaits w) = false).

(** A coroutine that returns from every world. *)
Definition returns {S A} (m : M S A) : Prop :=
  forall w, exists a w', m w = (Returned a, w').

(** A coroutine that keeps the relation [R] between the world it starts in
    and the world it leaves, whether it returns or raises. *)
Definition respects {S A} (R : relation S) (m : M S A) : Prop :=
  forall w, R w (m w).2.

(** How one notification ends: with the message sent, with [send_message]
    returning [False], or with an exception of the fetch or of the send. *)
Inductive Notified : Type :=
| sent
| not_sent
| failed (e : Exception).

Definition notification {Store Net} (self : AutoCloseScheduler Store Net)
    (bot : AutosumBusinessBot Net) (shift_id chat_id shift_number : Z)
    (w : World Store Net) : Notified :=
  match get_shift_income_summary (shift_service self) shift_id chat_id (store w) with
  | (Raised e, _) => failed e
  | (Returned summary, _) =>
      match send_message bot chat_id (summary_message shift_number summary) (net w) with
      | (Raised e, _) => failed e
      | (Returned true, _) => sent
      | (Returned false, _) => not_sent
      end
  end.

(** The line that reports it, with the shift id. *)
Definition report_line (shift_id chat_id : Z) (r : Notified) : string :=
  match r with
  | sent =>
      "Sent shift summary for shift " +:+ Py.str_int shift_id
        +:+ " to chat " +:+ Py.str_int chat_id
  | not_sent =>
      "Failed to send shift summary for shift " +:+ Py.str_int shift_id
        +:+ " to chat " +:+ Py.str_int chat_id
  | failed e =>
      "Error sending shift summary for shift " +:+ Py.str_int shift_id
        +:+ ": " +:+ exc_str e
  end.

(** The lines of a cycle that closed shifts: the count with the ids, and one
    line for each record. *)
Definition ids_of (shifts : list ShiftInfo) : list Z :=
  omap (fun shift : ShiftInfo => shift !! "id") shifts.

Definition closed_line (shifts : list ShiftInfo) : string :=
  "Auto-closed " +:+ Py.str_int (Z.of_nat (length shifts))
    +:+ " shifts: " +:+ Py.repr_int_list (ids_of shifts).

Definition closure_line (shift : ShiftInfo) : string :=
  "Auto-closed shift " +:+ Py.str_int (default 0 (shift !! "id"))
    +:+ " for chat " +:+ Py.str_int (default 0 (shift !! "chat_id")).

(** The summary fetch reads the store and leaves it as it was. *)
Definition read_only_summary {Store} (service : ShiftService Store) : Prop :=
  forall shift_id chat_id s,
    (get_shift_income_summary service shift_id chat_id s).2 = s.

(** A relation on worlds that every step of the scheduler keeps: the events
    in [allowed], the log lines, the suspensions, and the calls of the summary
    fetch and of the send. *)
Class Frame {Store Net} (self : AutoCloseScheduler Store Net)
    (stop_requested : nat -> bool)
    (R : relation (World Store Net)) (allowed : Event -> Prop) : Prop := {
  frame_preorder :: PreOrder R;
  frame_emit e : allowed e -> respects R (emit e);
  frame_log line : respects R (force_log line);
  frame_suspend : respects R (suspend stop_requested);
  frame_summary shift_id chat_id :
    respects R (shift_service_summary self shift_id chat_id);
  frame_send bot chat_id message : respects R (bot_send bot chat_id message)
}.


(** The sleeps in a trace, with their seconds. *)
Fixpoint sleeps (es : list Event) : list Z :=
  match es with
  | [] => []
  | ev_sleep seconds :: rest => seconds :: sleeps rest
  | _ :: rest => sleeps rest
  end.

(** The first key [_send_shift_summary] reads and does not find, in the
    order of its three lookups (lines 70-72). *)
Definition first_missing_key (shift_info : ShiftInfo) : option string :=
  match shift_info !! "chat_id", shift_info !! "id", shift_info !! "number" with
  | None, _, _ => Some "chat_id"
  | Some _, None, _ => Some "id"
  | Some _, Some _, None => Some "number"
  | Some _, Some _, Some _ => None
  end.


(** The events of the notifications: neither the start of a cycle, nor a
    call of the close operation, nor a sleep. *)
Definition quiet (e : Event) : Prop :=
  match e with
  | ev_check_auto_close_shifts | ev_check_and_auto_close_shifts | ev_sleep _ => False
  | _ => True
  end.

(** ** A small deployment

    A store that holds the overdue shifts, a bot that keeps what it is given
    to send, and schedulers built from them. *)

Module Demo.

Definition shift (shift_id chat_id number : Z) : ShiftInfo :=
  <["id" := shift_id]> (<["chat_id" := chat_id]> (<["number" := number]> ∅)).

Definition summary : IncomeSummary :=
  mkIncomeSummary 3 (1045.5)%Q
    [("$", mkCurrencyData (45.5)%Q 2); ("៛", mkCurrencyData 1000%Q 1)].

(** Closing returns the overdue shifts and leaves none; the summary of
    shift 1 cannot be computed. *)
Definition service : ShiftService (list ShiftInfo) :=
  mkShiftService (list ShiftInfo)
    (fun overdue => (Returned overdue, []))
    (fun shift_id chat_id overdue =>
       if shift_id =? 1
       then (Raised (mkException "ValueError" "no transactions table"), overdue)
       else (Returned summary, overdue)).


Definition bot : AutosumBusinessBot (list (Z * string)) :=
  mkAutosumBusinessBot (list (Z * string))
    (fun chat_id message delivered => (Returned true, delivered ++ [(chat_id, message)])).

Definition scheduler : AutoCloseScheduler (list ShiftInfo) (list (Z * string)) :=
  mkAutoCloseScheduler _ _ service (Some bot).

Definition scheduler_without_bot
    : AutoCloseScheduler (list ShiftInfo) (list (Z * string)) :=
  mkAutoCloseScheduler _ _ service None.


Definition format_exc (e : Exception) : string :=
  "Traceback (most recent call last): " +:+ exc_class e +:+ ": " +:+ exc_str e.

Definition never : nat -> bool := fun _ => false.

Definition at_await (n : nat) : nat -> bool := Nat.eqb n.

(** The world before the scheduler starts, with the given overdue shifts. *)
Definition world (overdue : list ShiftInfo) : World (list ShiftInfo) (list (Z * string)) :=
  mkWorld overdue [] false [] [] 0.

End Demo.

(** * The business bot

    A shallow embedding of [services/autosum_business_bot_service.py]: the
    class [AutosumBusinessBot].  The objects of python-telegram-bot are
    records of what the class reads from them, and an attribute that may be
    [None] is an [option]; the calls into the library and into the event
    handler are collaborators that return or raise. *)

Module BusinessBot.

(** ** Conversation states (lines 19-24) *)

Definition BUSINESS_MENU_CODE : Z := 2001.
Definition BUSINESS_SUMMARY_CODE : Z := 2002.
Definition BUSINESS_ANALYTICS_CODE : Z := 2003.
Definition BUSINESS_SETTINGS_CODE : Z := 2004.
Definition BUSINESS_CALLBACK_CODE : Z := 2005.

(** [ConversationHandler.END] of python-telegram-bot. *)
Definition END : Z := -1.

(** ** Keyboards (lines 39-53) *)

(** An entry of a row of [buttons]: a tuple, of strings, or a value that is
    not a tuple. *)
Inductive Entry : Type :=
| a_tuple (items : list string)
| not_a_tuple.

Record InlineKeyboardButton := mkInlineKeyboardButton {
  text : string;
  callback_data : string
}.

Record InlineKeyboardMarkup := mkInlineKeyboardMarkup {
  inline_keyboard : list (list InlineKeyboardButton)
}.

(** The argument [buttons]: [None], or a list of rows. *)
Abbreviation Buttons := (option (list (list Entry))).

(** [not buttons]. *)
Definition falsy (buttons : Buttons) : bool :=
  match buttons with
  | None | Some [] => true
  | Some (_ :: _) => false
  end.

Definition _convert_buttons_to_keyboard (buttons : Buttons)
    : option InlineKeyboardMarkup :=
  if falsy buttons then None
  else
    let keyboard_buttons :=
      foldl
        (fun keyboard_buttons row =>
           let button_row :=
             foldl
               (fun button_row button =>
                  match button with
                  | a_tuple [text; callback_data] =>
                      button_row ++ [mkInlineKeyboardButton text callback_data]
                  | _ => button_row
                  end)
               [] row in
           keyboard_buttons ++ [button_row])
        [] (default [] buttons) in
    Some (mkInlineKeyboardMarkup keyboard_buttons).

(** The entries [_convert_buttons_to_keyboard] turns into buttons. *)
Definition well_formed (button : Entry) : bool :=
  match button with
  | a_tuple [_; _] => true
  | _ => false
  end.

(** The tuple a button was made from. *)
Definition as_tuple (button : InlineKeyboardButton) : Entry :=
  a_tuple [text button; callback_data button].

(** The button of an entry, when it gives one. *)
Definition button_of (button : Entry) : option InlineKeyboardButton :=
  match button with
  | a_tuple [text; callback_data] => Some (mkInlineKeyboardButton text callback_data)
  | _ => None
  end.

(** ** The objects of python-telegram-bot the class reads *)

Record Chat := mkChat { chat_ident : Z }.          (* [chat.id] *)
Record User := mkUser { user_ident : Z }.
Record Message := mkMessage { message_chat_id : Z }.

Record CallbackQuery := mkCallbackQuery {
  query_message : option Message;                  (* [query.message] *)
  query_data : option string                       (* [query.data] *)
}.

Record Update := mkUpdate {
  message : option Message;
  effective_chat : option Chat;
  effective_user : option User;
  effective_message : option Message;
  callback_query : option CallbackQuery
}.

(** The calls into the library that reach Telegram, over the state [Ext] of
    everything outside the bot.  Each returns or raises. *)
Record Telegram (Ext : Type) := mkTelegram {
  reply_text :
    Message -> string -> option InlineKeyboardMarkup -> Ext -> Outcome unit * Ext;
  answer : CallbackQuery -> Ext -> Outcome unit * Ext;
  edit_message_text :
    CallbackQuery -> string -> option InlineKeyboardMarkup -> Ext -> Outcome unit * Ext
}.
Arguments reply_text {Ext} _ _ _ _ _.
Arguments answer {Ext} _ _ _.
Arguments edit_message_text {Ext} _ _ _ _ _.

(** The methods of [Application] and of its updater that [start_polling] and
    [stop] await. *)
Inductive RuntimeOp : Type :=
| op_initialize
| op_start
| op_updater_start_polling
| op_updater_idle
| op_updater_stop
| op_stop
| op_shutdown.

(** ** The handlers [setup] registers *)

(** The bound methods given to the handlers. *)
Inductive Callback : Type :=
| business_start_cb
| business_help_cb
| business_support_cb
| business_menu_cb
| handle_business_callback_cb
| error_handler_cb.

Inductive Handler : Type :=
| CommandHandler (command : string) (callback : Callback)
| CallbackQueryHandler (callback : Callback)
| ConversationHandler (entry_points : list Handler)
    (states : list (Z * list Handler)) (fallbacks : list Handler)
    (per_message : bool).

(** What [ApplicationBuilder().token(t).build()] gives and [add_handler] and
    [add_error_handler] extend. *)
Record Application := mkApplication {
  token : string;
  handlers : list Handler;
  error_handlers : list Callback
}.

(** ** The world of the bot *)

Inductive Level : Type := INFO | ERROR.

(** The calls made, oldest first. *)
Inductive Call : Type :=
| call_reply_text (m : Message) (text : string)
    (reply_markup : option InlineKeyboardMarkup)
| call_answer (query : CallbackQuery)
| call_edit_message_text (query : CallbackQuery) (text : string)
    (reply_markup : option InlineKeyboardMarkup)
| call_runtime (op : RuntimeOp)
| call_sleep (seconds : Z).

Record BotWorld (Ext : Type) := mkBotWorld {
  ext : Ext;                          (* everything outside the bot *)
  app : option Application;           (* self.app *)
  records : list (Level * string);    (* what the logger was given *)
  calls : list Call
}.
Arguments mkBotWorld {Ext}.
Arguments ext {Ext}.
Arguments app {Ext}.
Arguments records {Ext}.
Arguments calls {Ext}.

(** The mock events handed to the event handler; their attribute [parent]
    is the bot, which they use for the keyboards. *)
Record MockEvent (Ext : Type) := mkMockEvent {
  chat_id : Z;
  chat : Chat;
  respond : string -> Buttons -> M (BotWorld Ext) unit;
  get_sender : M (BotWorld Ext) (option User)
}.
Arguments chat_id {Ext}.
Arguments chat {Ext}.
Arguments respond {Ext}.
Arguments get_sender {Ext}.

Record MockCallbackEvent (Ext : Type) := mkMockCallbackEvent {
  callback_chat_id : Z;
  data : string;
  query : CallbackQuery;
  edit : string -> Buttons -> M (BotWorld Ext) unit
}.
Arguments callback_chat_id {Ext}.
Arguments data {Ext}.
Arguments query {Ext}.
Arguments edit {Ext}.

(** [handlers.business_event_handler.BusinessEventHandler], which is not
    among the sources: its two methods are taken as they come. *)
Record BusinessEventHandler (Ext : Type) := mkBusinessEventHandler {
  menu : MockEvent Ext -> M (BotWorld Ext) unit;
  handler_handle_business_callback : MockCallbackEvent Ext -> M (BotWorld Ext) unit
}.
Arguments menu {Ext}.
Arguments handler_handle_business_callback {Ext}.

(** The bot object: its token and its event handler; [self.app] is in the
    world. *)
Record AutosumBusinessBot (Ext : Type) := mkAutosumBusinessBot {
  bot_token : string;
  event_handler : BusinessEventHandler Ext
}.
Arguments bot_token {Ext}.
Arguments event_handler {Ext}.

Definition ValueError (message : string) : Exception :=
  mkException "ValueError" message.

(** How a coroutine stands when it is watched for a while: it has ended,
    with an outcome and a world, or it is still running, in the world it
    has reached. *)
Inductive Watched (Ext : Type) : Type :=
| ended (r : Outcome unit * BotWorld Ext)
| still_sleeping (w : BotWorld Ext).
Arguments ended {Ext} r.
Arguments still_sleeping {Ext} w.

Section Bot.

Context {Ext : Type}.

Abbreviation W := (BotWorld Ext).
Abbreviation Co := (M (BotWorld Ext)).

Variable telegram : Telegram Ext.
Variable runtime : RuntimeOp -> Ext -> Outcome unit * Ext.
Variable format_exc : Exception -> string.
Variable self : AutosumBusinessBot Ext.

Definition logger_info (line : string) : Co unit :=
  fun w => (Returned tt,
            mkBotWorld (ext w) (app w) (records w ++ [(INFO, line)]) (calls w)).

Definition logger_error (line : string) : Co unit :=
  fun w => (Returned tt,
            mkBotWorld (ext w) (app w) (records w ++ [(ERROR, line)]) (calls w)).

(** A call that reaches outside: it is recorded, then it runs. *)
Definition call {A} (c : Call) (op : Ext -> Outcome A * Ext) : Co A :=
  fun w =>
    let (r, x) := op (ext w) in
    (r, mkBotWorld x (app w) (records w) (calls w ++ [c])).

(** [o.name] for an [o] that may be [None]. *)
Definition attr {A} (o : option A) (name : string) : Co A :=
  match o with
  | Some a => ret a
  | None =>
      raise (AttributeError
               ("'NoneType' object has no attribute '" +:+ name +:+ "'"))
  end.

(** [self.parent._convert_buttons_to_keyboard(buttons) if buttons else None]. *)
Definition keyboard_of (buttons : Buttons) : option InlineKeyboardMarkup :=
  if negb (falsy buttons) then _convert_buttons_to_keyboard buttons else None.

(** *** [business_menu] (lines 79-105) *)

(** [MockEvent.respond] (lines 88-90). *)
Definition MockEvent_respond (update : Update) (text : string) (buttons : Buttons)
    : Co unit :=
  let keyboard := keyboard_of buttons in
  m <- attr (message update) "reply_text" ;;
  call (call_reply_text m text keyboard) (reply_text telegram m text keyboard).

(** [MockEvent(update, self)] (lines 83-86), for the chat of the update. *)
Definition menu_event (update : Update) (c : Chat) : MockEvent Ext :=
  mkMockEvent Ext (chat_ident c) c (MockEvent_respond update)
    (ret (effective_user update)).

Definition MockEvent_init (update : Update) : Co (MockEvent Ext) :=
  c <- attr (effective_chat update) "id" ;;
  ret (menu_event update c).

Definition business_menu (update : Update) : Co Z :=
  mock_event <- MockEvent_init update ;;
  try_except
    (menu (event_handler self) mock_event ;;
     ret BUSINESS_MENU_CODE)
    (fun e =>
       logger_error ("Error in business menu: " +:+ exc_str e) ;;
       logger_error ("Full traceback: " +:+ format_exc e) ;;
       m <- attr (message update) "reply_text" ;;
       call (call_reply_text m "❌ Error loading business menu. Please try again." None)
         (reply_text telegram m "❌ Error loading business menu. Please try again."
            None) ;;
       ret END).

(** *** [handle_business_callback] (lines 107-137) *)

(** [MockCallbackEvent.edit] (lines 120-122). *)
Definition MockCallbackEvent_edit (q : CallbackQuery) (text : string)
    (buttons : Buttons) : Co unit :=
  let keyboard := keyboard_of buttons in
  call (call_edit_message_text q text keyboard)
    (edit_message_text telegram q text keyboard).

(** [MockCallbackEvent(query, self)] (lines 114-118); [encode('utf-8')] of a
    string held as its UTF-8 bytes gives these bytes. *)
Definition callback_event (q : CallbackQuery) (m : Message) (d : string)
    : MockCallbackEvent Ext :=
  mkMockCallbackEvent Ext (message_chat_id m) d q (MockCallbackEvent_edit q).

Definition MockCallbackEvent_init (q : CallbackQuery) : Co (MockCallbackEvent Ext) :=
  m <- attr (query_message q) "chat_id" ;;
  d <- attr (query_data q) "encode" ;;
  ret (callback_event q m d).

(** [query.data == s]. *)
Definition data_equals (q : CallbackQuery) (s : string) : bool :=
  match query_data q with
  | Some d => String.eqb d s
  | None => false
  end.

Definition handle_business_callback (update : Update) : Co Z :=
  q <- attr (callback_query update) "answer" ;;
  call (call_answer q) (answer telegram q) ;;
  mock_event <- MockCallbackEvent_init q ;;
  try_except
    (if data_equals q "back_to_menu" then
       business_menu update ;;
       ret BUSINESS_MENU_CODE
     else
       handler_handle_business_callback (event_handler self) mock_event ;;
       ret BUSINESS_CALLBACK_CODE)
    (fun e =>
       logger_error ("Error handling business callback: " +:+ exc_str e) ;;
       call (call_edit_message_text q "❌ Error processing request. Please try again."
               None)
         (edit_message_text telegram q
            "❌ Error processing request. Please try again." None) ;;
       ret END).

(** *** [error_handler] (lines 235-242)

    [update] is an [Update] or some other object; [error] is
    [context.error]. *)
Definition error_handler (update : option Update) (error : Exception) : Co unit :=
  logger_error ("Business bot error: " +:+ exc_str error) ;;
  match update with
  | Some u =>
      match effective_message u with
      | Some m =>
          call (call_reply_text m
                  "❌ An error occurred in the business bot. Please try again or contact support."
                  None)
            (reply_text telegram m
               "❌ An error occurred in the business bot. Please try again or contact support."
               None)
      | None => ret tt
      end
  | None => ret tt
  end.

(** *** [setup] (lines 201-233) *)

Definition set_app (a : option Application) : Co unit :=
  fun w => (Returned tt, mkBotWorld (ext w) a (records w) (calls w)).

(** [self.app.add_handler(h)]. *)
Definition add_handler (h : Handler) : Co unit :=
  fun w =>
    match app w with
    | Some a =>
        set_app (Some (mkApplication (token a) (handlers a ++ [h]) (error_handlers a))) w
    | None =>
        raise (AttributeError "'NoneType' object has no attribute 'add_handler'") w
    end.

(** [self.app.add_error_handler(c)]. *)
Definition add_error_handler (c : Callback) : Co unit :=
  fun w =>
    match app w with
    | Some a =>
        set_app (Some (mkApplication (token a) (handlers a) (error_handlers a ++ [c]))) w
    | None =>
        raise (AttributeError "'NoneType' object has no attribute 'add_error_handler'") w
    end.

Definition business_menu_handler : Handler :=
  ConversationHandler
    [CommandHandler "menu" business_menu_cb]
    [(BUSINESS_MENU_CODE, [CallbackQueryHandler handle_business_callback_cb]);
     (BUSINESS_CALLBACK_CODE, [CallbackQueryHandler handle_business_callback_cb])]
    [CommandHandler "menu" business_menu_cb]
    false.

Definition setup : Co unit :=
  if String.eqb (bot_token self) "" then
    raise (ValueError "Business bot token is required")
  else
    set_app (Some (mkApplication (bot_token self) [] [])) ;;
    add_handler (CommandHandler "start" business_start_cb) ;;
    add_handler (CommandHandler "help" business_help_cb) ;;
    add_handler (CommandHandler "support" business_support_cb) ;;
    add_handler business_menu_handler ;;
    add_error_handler error_handler_cb ;;
    logger_info "AutosumBusinessBot setup completed".

(** The application [setup] leaves. *)
Definition fresh_application : Application :=
  mkApplication (bot_token self)
    [CommandHandler "start" business_start_cb;
     CommandHandler "help" business_help_cb;
     CommandHandler "support" business_support_cb;
     business_menu_handler]
    [error_handler_cb].

(** *** [start_polling] (lines 244-267) *)

Definition run (op : RuntimeOp) : Co unit :=
  call (call_runtime op) (runtime op).

(** [while True: await asyncio.sleep(3600)]: the loop has no exit; the world
    after its first [turns] turns. *)
Fixpoint sleep_forever (turns : nat) (w : W) : W :=
  match turns with
  | O => w
  | S turns' =>
      sleep_forever turns'
        (mkBotWorld (ext w) (app w) (records w) (calls w ++ [call_sleep 3600]))
  end.

(** The steps of the outer [try] before the bot idles. *)
Definition startup : Co unit :=
  setup ;;
  logger_info "Starting AutosumBusinessBot polling..." ;;
  run op_initialize ;;
  run op_start ;;
  run op_updater_start_polling ;;
  logger_info "AutosumBusinessBot is running and polling for updates...".

(** The coroutine, watched until it ends or has made [turns] turns of the
    loop that has no exit. *)
Definition start_polling_watched (turns : nat) (w : W) : Watched Ext :=
  match startup w with
  | (Returned _, w1) =>
      match run op_updater_idle w1 with
      | (Returned _, w2) => ended (Returned tt, w2)
      | (Raised _, w2) => still_sleeping (sleep_forever turns w2)
      end
  | (Raised e, w1) =>
      ended ((logger_error ("Error starting AutosumBusinessBot: " +:+ exc_str e) ;;
              raise e) w1)
  end.

(** What the coroutine ends with: [None] when it is still in the loop after
    [fuel] turns. *)
Definition start_polling (fuel : nat) (w : W) : option (Outcome unit * W) :=
  match start_polling_watched fuel w with
  | ended r => Some r
  | still_sleeping _ => None
  end.

(** *** [stop] (lines 269-278) *)


(** ** The conversation *)

(** What the callback of a handler of the conversation returns: the next
    state, for the two callbacks the conversation is built with. *)
Definition run_callback (c : Callback) (update : Update) : option (Co Z) :=
  match c with
  | business_menu_cb => Some (business_menu update)
  | handle_business_callback_cb => Some (handle_business_callback update)
  | _ => None
  end.

End Bot.

(** The callbacks of the handlers of a conversation: of its entry points,
    of its states and of its fallbacks. *)
Definition callbacks_of (hs : list Handler) : list Callback :=
  flat_map
    (fun h =>
       match h with
       | CommandHandler _ c => [c]
       | CallbackQueryHandler c => [c]
       | ConversationHandler _ _ _ _ => []
       end)
    hs.

Definition conversation_callbacks (h : Handler) : list Callback :=
  match h with
  | ConversationHandler entry_points states fallbacks _ =>
      callbacks_of entry_points
        ++ flat_map (fun state => callbacks_of state.2) states
        ++ callbacks_of fallbacks
  | _ => []
  end.

Definition conversation_states (h : Handler) : list Z :=
  match h with
  | ConversationHandler _ states _ _ => map fst states
  | _ => []
  end.

End BusinessBot.

(** * The feature flags of a package

    A shallow embedding of [setup_package_features] of
    [examples/feature_flags_usage.py]. *)

Module FeatureFlagsUsage.

(** The members of [common.enums.FeatureFlags] the file names.  The enum is
    not among the sources: the string each member stands for, its [value],
    is a parameter. *)
Inductive FeatureFlags : Type :=
| TRANSACTION_ANNOTATION
| DAILY_BUSINESS_REPORTS
| ADVANCED_ANALYTICS
| CUSTOM_EXPORT
| MULTI_CURRENCY
| PREMIUM_SUPPORT
| SHIFT_MANAGEMENT
| API_ACCESS.

(** A [dict] from strings to booleans, in insertion order. *)
Abbreviation Dict := (list (string * bool)).

(** [d[k] = v]: the value of a key that is there is replaced where it is, a
    new key goes last. *)
Fixpoint dict_set (d : Dict) (k : string) (v : bool) : Dict :=
  match d with
  | [] => [(k, v)]
  | (k', v') :: rest =>
      if String.eqb k' k then (k', v) :: rest else (k', v') :: dict_set rest k v
  end.

(** [{k1: v1, k2: v2, ...}]. *)
Definition dict_literal (items : list (string * bool)) : Dict :=
  foldl (fun d item => dict_set d item.1 item.2) [] items.

(** [d.get(k)]. *)
Fixpoint dict_get (d : Dict) (k : string) : option bool :=
  match d with
  | [] => None
  | (k', v) :: rest => if String.eqb k' k then Some v else dict_get rest k
  end.

Record UsageWorld (Ext : Type) := mkUsageWorld {
  service_state : Ext;          (* what [GroupPackageService] works on *)
  stdout : list string          (* the lines printed *)
}.
Arguments mkUsageWorld {Ext}.
Arguments service_state {Ext}.
Arguments stdout {Ext}.

Section Usage.

Context {Ext : Type}.

(** [FeatureFlags.X.value]. *)
Variable value : FeatureFlags -> string.

(** [GroupPackageService.update_feature_flags], which is not among the
    sources: it returns or raises. *)
Variable update_feature_flags : Z -> Dict -> Ext -> Outcome unit * Ext.

(** [str] of a [dict], as an f-string renders it. *)
Variable str_dict : Dict -> string.

(** The [features] of lines 119-143. *)
Definition features_of (package_type : string) : Dict :=
  if String.eqb package_type "TRIAL" then
    dict_literal
      [(value TRANSACTION_ANNOTATION, false);
       (value DAILY_BUSINESS_REPORTS, false);
       (value ADVANCED_ANALYTICS, false);
       (value CUSTOM_EXPORT, false)]
  else if String.eqb package_type "STANDARD" then
    dict_literal
      [(value TRANSACTION_ANNOTATION, true);
       (value DAILY_BUSINESS_REPORTS, true);
       (value ADVANCED_ANALYTICS, false);
       (value CUSTOM_EXPORT, false)]
  else if String.eqb package_type "BUSINESS" then
    dict_literal
      [(value TRANSACTION_ANNOTATION, true);
       (value DAILY_BUSINESS_REPORTS, true);
       (value ADVANCED_ANALYTICS, true);
       (value CUSTOM_EXPORT, true);
       (value SHIFT_MANAGEMENT, true);
       (value API_ACCESS, true)]
  else [].

Definition print (line : string) : M (UsageWorld Ext) unit :=
  fun w => (Returned tt, mkUsageWorld (service_state w) (stdout w ++ [line])).

Definition setup_package_features (chat_id : Z) (package_type : string)
    : M (UsageWorld Ext) unit :=
  let features := features_of package_type in
  (fun w =>
     let (r, x) := update_feature_flags chat_id features (service_state w) in
     (r, mkUsageWorld x (stdout w))) ;;
  print ("Setup features for " +:+ package_type +:+ " package: "
         +:+ str_dict features).

End Usage.

End FeatureFlagsUsage.

(** ** Small deployments of the bot and of the packages *)

Module BotDemo.

Import BusinessBot.

(** Outside the bot: the texts sent, with the chat each went to. *)
Definition telegram : Telegram (list (Z * string)) :=
  mkTelegram (list (Z * string))
    (fun m text keyboard sent => (Returned tt, sent ++ [(message_chat_id m, text)]))
    (fun q sent => (Returned tt, sent))
    (fun q text keyboard sent =>
       (Returned tt,
        sent ++ [(match query_message q with
                  | Some m => message_chat_id m
                  | None => 0
                  end, text)])).

(** An event handler whose methods raise. *)
Definition failing_handler : BusinessEventHandler (list (Z * string)) :=
  mkBusinessEventHandler (list (Z * string))
    (fun _ => raise (mkException "RuntimeError" "no menu"))
    (fun _ => raise (mkException "RuntimeError" "no handler")).

Definition bot : AutosumBusinessBot (list (Z * string)) :=
  mkAutosumBusinessBot (list (Z * string)) "123:abc" failing_handler.

Definition bot_without_token : AutosumBusinessBot (list (Z * string)) :=
  mkAutosumBusinessBot (list (Z * string)) "" failing_handler.

(** An updater without [idle]: every other call returns. *)
Definition runtime (op : RuntimeOp) (sent : list (Z * string))
    : Outcome unit * list (Z * string) :=
  match op with
  | op_updater_idle =>
      (Raised (AttributeError "'Updater' object has no attribute 'idle'"), sent)
  | _ => (Returned tt, sent)
  end.

Definition format_exc (e : Exception) : string :=
  "Traceback (most recent call last): " +:+ exc_class e +:+ ": " +:+ exc_str e.



(** An update that carries a callback query with the given data. *)
Definition callback_update (d : string) : Update :=
  mkUpdate (Some (mkMessage 5)) (Some (mkChat 5)) (Some (mkUser 9))
    (Some (mkMessage 5)) (Some (mkCallbackQuery (Some (mkMessage 5)) (Some d))).

Definition world : BotWorld (list (Z * string)) := mkBotWorld [] None [] [].

End BotDemo.

Module FlagsDemo.

Import FeatureFlagsUsage.

Definition value (flag : FeatureFlags) : string :=
  match flag with
  | TRANSACTION_ANNOTATION => "transaction_annotation"
  | DAILY_BUSINESS_REPORTS => "daily_business_reports"
  | ADVANCED_ANALYTICS => "advanced_analytics"
  | CUSTOM_EXPORT => "custom_export"
  | MULTI_CURRENCY => "multi_currency"
  | PREMIUM_SUPPORT => "premium_support"
  | SHIFT_MANAGEMENT => "shift_management"
  | API_ACCESS => "api_access"
  end.

(** A service that keeps the dicts it is given. *)
Definition update_feature_flags (chat_id : Z) (flags : Dict)
    (kept : list (Z * Dict)) : Outcome unit * list (Z * Dict) :=
  (Returned tt, kept ++ [(chat_id, flags)]).

Definition str_dict (d : Dict) : string :=
  match d with
  | [] => "{}"
  | _ => "{...}"
  end.

End FlagsDemo.

(** * The scheduler under Python's run-time checks

    The embedding of the scheduler above takes every raised object for an
    instance of [Exception], the income summary for a record with all its
    fields, an amount for a rational number, and the bot service for an
    object that has a [send_message].  Python decides each of these while the
    code runs.  This module embeds the three coroutines once more, with the
    run-time checks written out:
    - [except Exception] catches the instances of [Exception] and lets every
      other instance of [BaseException] pass; [asyncio.CancelledError] is
      under [BaseException] only;
    - the summary is a [dict] read by key, inside the [try] of
      [_send_shift_summary] (lines 80-101): a missing key raises [KeyError];
    - an amount is a Python number, with its negative zero and its values
      that are not finite;
    - [send_message] is looked up on the bot service when line 116 runs.
    The world, the events, the log and the suspensions are those of the
    embedding above. *)

Module Dynamic.

(** ** What [except Exception] catches *)

(** In this module a raised object is any instance of [BaseException].
    The classes of the standard library that are under [BaseException] and
    not under [Exception]. *)
Definition outside_Exception : list string :=
  ["BaseException"; "BaseExceptionGroup"; "GeneratorExit"; "KeyboardInterrupt";
   "SystemExit"; "CancelledError"].

(** [isinstance(e, Exception)]. *)
Definition is_Exception (e : Exception) : bool :=
  negb (existsb (String.eqb (exc_class e)) outside_Exception).

(** [asyncio.CancelledError()], raised at an await of a task that is
    cancelled; [str] of it is empty. *)
Definition CancelledError : Exception := mkException "CancelledError" "".

(** [try: body except Exception as e: handler]. *)
Definition except_Exception {S A} (body : M S A) (handler : Exception -> M S A)
    : M S A :=
  fun w =>
    match body w with
    | (Returned a, w') => (Returned a, w')
    | (Raised e, w') => if is_Exception e then handler e w' else (Raised e, w')
    end.

(** ** Amounts *)

Inductive NumberType : Type := a_float | a_Decimal.

(** A number as [format(x, ',.2f')] tells them apart: a finite value other
    than a negative zero ([int], [float] or [Decimal]), the negative zero of
    [float] and of [Decimal], an infinity, a NaN. *)
Inductive Amount : Type :=
| finite (q : Q)
| negative_zero
| infinity (t : NumberType) (negative : bool)
| nan (t : NumberType) (negative : bool).

Definition sign_text (negative : bool) : string :=
  if negative then "-" else "".

(** [format(x, ',.2f')]. *)
Definition format_comma_2f (x : Amount) : string :=
  match x with
  | finite q => Py.format_comma_2f q
  | negative_zero => "-0.00"
  | infinity a_float negative => sign_text negative +:+ "inf"
  | infinity a_Decimal negative => sign_text negative +:+ "Infinity"
  | nan a_float _ => "nan"
  | nan a_Decimal negative => sign_text negative +:+ "NaN"
  end.

(** ** The income summary as a dict *)

(** One value of [summary["currencies"]]: a field is [None] when the dict
    has no such key. *)
Record CurrencyData := mkCurrencyData {
  amount : option Amount;
  count : option Z
}.

(** What [get_shift_income_summary] returns. *)
Record IncomeSummary := mkIncomeSummary {
  transaction_count : option Z;
  total_amount : option Amount;
  currencies : option (list (string * CurrencyData))
}.

(** [d[key]], for the value the dict holds under the key, if any. *)
Definition subscript {S A} (value : option A) (key : string) : M S A :=
  match value with
  | Some v => ret v
  | None => raise (KeyError key)
  end.

(** ** The summary message (lines 80-113)

    Formatting reads the summary and touches nothing else: it runs in the
    monad over the state [unit]. *)

(** What one turn of the loop of line 83 appends. *)
Definition currency_line (entry : string * CurrencyData) : M unit string :=
  let (currency, data) := entry in
  let currency_symbol :=
    if existsb (String.eqb currency) ["$"; "៛"] then currency
    else fstring_str currency in
  amount_value <- subscript (amount data) "amount" ;;
  count_value <- subscript (count data) "count" ;;
  ret ("• " +:+ currency_symbol +:+ format_comma_2f amount_value
         +:+ " (" +:+ Py.str_int count_value +:+ " transactions)").

Definition summary_message (shift_number : Z) (summary : IncomeSummary)
    : M unit string :=
  transaction_count_value <- subscript (transaction_count summary) "transaction_count" ;;
  if 0 <? transaction_count_value then
    items <- subscript (currencies summary) "currencies" ;;
    currency_details <- comprehension items currency_line ;;
    let currency_text := Py.join Py.nl currency_details in
    transaction_count_shown <-
      subscript (transaction_count summary) "transaction_count" ;;
    total_amount_value <- subscript (total_amount summary) "total_amount" ;;
    ret (Py.strip ("
🔒 **វេន #" +:+ Py.str_int shift_number +:+ " បានបិទដោយស្វ័យប្រវត្តិ**

📊 **សរុបចំណូល:**
" +:+ currency_text +:+ "

📝 **ព័ត៌មានលម្អិត:**
• ចំនួនប្រតិបត្តិការសរុប: " +:+ Py.str_int transaction_count_shown +:+ "
• តម្លៃសរុប: " +:+ format_comma_2f total_amount_value +:+ "

⚡ បិទដោយ: ការកំណត់ពេលវេលាស្វ័យប្រវត្តិ
                "))
  else
    ret (Py.strip ("
🔒 **វេន #" +:+ Py.str_int shift_number +:+ " បានបិទដោយស្វ័យប្រវត្តិ**

📊 **សរុបចំណូល:**
• មិនមានប្រតិបត្តិការ

⚡ បិទដោយ: ការកំណត់ពេលវេលាស្វ័យប្រវត្តិ
                ")).

(** ** Collaborators *)

Record ShiftService (Store : Type) := mkShiftService {
  check_and_auto_close_shifts : Store -> Outcome (list ShiftInfo) * Store;
  get_shift_income_summary : Z -> Z -> Store -> Outcome IncomeSummary * Store
}.
Arguments check_and_auto_close_shifts {Store} _ _.
Arguments get_shift_income_summary {Store} _ _ _ _.

(** The object given as bot service: the name of its class, and its
    attribute [send_message] if it has one. *)
Record AutosumBusinessBot (Net : Type) := mkAutosumBusinessBot {
  class_name : string;
  send_message : option (Z -> string -> Net -> Outcome bool * Net)
}.
Arguments class_name {Net} _.
Arguments send_message {Net} _.

Record AutoCloseScheduler (Store Net : Type) := mkAutoCloseScheduler {
  shift_service : ShiftService Store;
  bot_service : option (AutosumBusinessBot Net)
}.
Arguments shift_service {Store Net} _.
Arguments bot_service {Store Net} _.

Section Scheduler.

Context {Store Net : Type}.

Abbreviation W := (World Store Net).
Abbreviation Co := (M (World Store Net)).

Variable self : AutoCloseScheduler Store Net.
Variable format_exc : Exception -> string.
Variable stop_requested : nat -> bool.

(** A method of the shift service, and a method of the bot service, acting
    on their part of the world. *)
Definition on_store {A} (method : Store -> Outcome A * Store) : Co A :=
  fun w =>
    let (r, s) := method (store w) in
    (r, mkWorld s (net w) (is_running w) (log w) (events w) (awaits w)).

Definition on_net {A} (method : Net -> Outcome A * Net) : Co A :=
  fun w =>
    let (r, n) := method (net w) in
    (r, mkWorld (store w) n (is_running w) (log w) (events w) (awaits w)).

(** An outcome computed without the world. *)
Definition pure {A} (m : M unit A) : Co A :=
  fun w => ((m tt).1, w).

(** [await self.shift_service.check_and_auto_close_shifts()]. *)
Definition call_check_and_auto_close_shifts : Co (list ShiftInfo) :=
  emit ev_check_and_auto_close_shifts ;;
  await stop_requested (on_store (check_and_auto_close_shifts (shift_service self))).

(** [await self.shift_service.get_shift_income_summary(shift_id, chat_id)]. *)
Definition call_get_shift_income_summary (shift_id chat_id : Z) : Co IncomeSummary :=
  emit (ev_get_shift_income_summary shift_id chat_id) ;;
  await stop_requested
    (on_store (get_shift_income_summary (shift_service self) shift_id chat_id)).

(** [self.bot_service.send_message]: the attribute lookup. *)
Definition getattr_send_message : Co (Z -> string -> Net -> Outcome bool * Net) :=
  match bot_service self with
  | None =>
      raise (AttributeError "'NoneType' object has no attribute 'send_message'")
  | Some bot =>
      match send_message bot with
      | Some method => ret method
      | None =>
          raise (AttributeError ("'" +:+ class_name bot
                                 +:+ "' object has no attribute 'send_message'"))
      end
  end.

(** [await self.bot_service.send_message(chat_id, message)]. *)
Definition call_send_message (chat_id : Z) (message : string) : Co bool :=
  method <- getattr_send_message ;;
  emit (ev_send_message chat_id message) ;;
  await stop_requested (on_net (method chat_id message)).

(** *** [_send_shift_summary] (lines 67-130) *)

Definition send_shift_summary_body (shift_info : ShiftInfo) : Co unit :=
  except_Exception
    (chat_id <- getitem shift_info "chat_id" ;;
     shift_id <- getitem shift_info "id" ;;
     shift_number <- getitem shift_info "number" ;;
     summary <- call_get_shift_income_summary shift_id chat_id ;;
     message <- pure (summary_message shift_number summary) ;;
     success <- call_send_message chat_id message ;;
     if success : bool then
       force_log ("Sent shift summary for shift " +:+ Py.str_int shift_id
                  +:+ " to chat " +:+ Py.str_int chat_id)
     else
       force_log ("Failed to send shift summary for shift " +:+ Py.str_int shift_id
                  +:+ " to chat " +:+ Py.str_int chat_id))
    (fun e =>
       force_log ("Error sending shift summary for shift "
                  +:+ get_or shift_info "id" "unknown" +:+ ": " +:+ exc_str e) ;;
       force_log ("Shift summary error traceback: " +:+ format_exc e)).

Definition _send_shift_summary (shift_info : ShiftInfo) : Co unit :=
  emit (ev_send_shift_summary shift_info) ;;
  send_shift_summary_body shift_info.

(** *** [check_auto_close_shifts] (lines 36-65) *)

Definition notify_closed_shift (shift : ShiftInfo) : Co unit :=
  shift_id <- getitem shift "id" ;;
  chat_id <- getitem shift "chat_id" ;;
  force_log ("Auto-closed shift " +:+ Py.str_int shift_id
             +:+ " for chat " +:+ Py.str_int chat_id) ;;
  match bot_service self with
  | Some _ => _send_shift_summary shift
  | None => ret tt
  end.

Definition check_auto_close_shifts_body : Co unit :=
  force_log "Starting auto-close shift check..." ;;
  except_Exception
    (closed_shifts <- call_check_and_auto_close_shifts ;;
     match closed_shifts with
     | _ :: _ =>
         ids <- comprehension closed_shifts (fun shift => getitem shift "id") ;;
         force_log ("Auto-closed " +:+ Py.str_int (Z.of_nat (length closed_shifts))
                    +:+ " shifts: " +:+ Py.repr_int_list ids) ;;
         for_each closed_shifts notify_closed_shift
     | [] => force_log "No shifts needed auto-closing"
     end)
    (fun e =>
       force_log ("Error in auto-close shift check: " +:+ exc_str e) ;;
       force_log ("Traceback: " +:+ format_exc e)).

Definition check_auto_close_shifts : Co unit :=
  emit ev_check_auto_close_shifts ;;
  check_auto_close_shifts_body.

(** *** [start_scheduler] (lines 16-29) *)

Definition loop_body : Co unit :=
  except_Exception
    (check_auto_close_shifts ;; asyncio_sleep stop_requested 60)
    (fun e =>
       force_log ("Error in auto-close scheduler loop: " +:+ exc_str e) ;;
       asyncio_sleep stop_requested 60).

(** [while self.is_running: ...], for at most [fuel] turns: [None] when the
    loop is still running after them. *)
Fixpoint while_is_running (fuel : nat) (w : W) : option (Outcome unit * W) :=
  match fuel with
  | O => None
  | S fuel' =>
      if is_running w then
        match loop_body w with
        | (Returned _, w') => while_is_running fuel' w'
        | (Raised e, w') => Some (Raised e, w')
        end
      else Some (Returned tt, w)
  end.

Definition start_scheduler (fuel : nat) (w : W) : option (Outcome unit * W) :=
  match (set_is_running true ;;
         force_log "Auto-close scheduler started - will run every minute") w with
  | (Returned _, w') => while_is_running fuel w'
  | (Raised e, w') => Some (Raised e, w')
  end.

End Scheduler.

(** ** Observations on a run *)

(** A computation that raises only objects that satisfy [P]. *)
Definition raises_only {S A} (P : Exception -> Prop) (m : M S A) : Prop :=
  forall w e w', m w = (Raised e, w') -> P e.

(** Collaborators whose methods raise instances of [Exception] only: the
    close operation, the summary fetch, and [send_message] when the bot
    service has one. *)
Definition errors_only {Store Net} (self : AutoCloseScheduler Store Net) : Prop :=
  raises_only (fun e => is_Exception e = true)
    (check_and_auto_close_shifts (shift_service self)) /\
  (forall shift_id chat_id,
     raises_only (fun e => is_Exception e = true)
       (get_shift_income_summary (shift_service self) shift_id chat_id)) /\
  (forall bot method chat_id message,
     bot_service self = Some bot -> send_message bot = Some method ->
     raises_only (fun e => is_Exception e = true) (method chat_id message)).

(** The claim that nothing a collaborator raises leaves a turn of the loop. *)
Definition no_exception_propagates {Store Net} (self : AutoCloseScheduler Store Net)
    (format_exc : Exception -> string) (stop_requested : nat -> bool) : Prop :=
  forall w : World Store Net,
    exists w', loop_body self format_exc stop_requested w = (Returned tt, w').

(** How the notification that starts in [w] ends: the fetch, the formatting,
    the lookup of [send_message] and the send, in this order; the first that
    raises decides. *)
Definition notification {Store Net} (self : AutoCloseScheduler Store Net)
    (shift_id chat_id shift_number : Z) (w : World Store Net) : Notified :=
  match get_shift_income_summary (shift_service self) shift_id chat_id (store w) with
  | (Raised e, _) => failed e
  | (Returned summary, _) =>
      match summary_message shift_number summary tt with
      | (Raised e, _) => failed e
      | (Returned message, _) =>
          match bot_service self with
          | None =>
              failed (AttributeError
                        "'NoneType' object has no attribute 'send_message'")
          | Some bot =>
              match send_message bot with
              | None =>
                  failed (AttributeError
                            ("'" +:+ class_name bot
                             +:+ "' object has no attribute 'send_message'"))
              | Some method =>
                  match method chat_id message (net w) with
                  | (Raised e, _) => failed e
                  | (Returned true, _) => sent
                  | (Returned false, _) => not_sent
                  end
              end
          end
      end
  end.

(** A relation on worlds that every step of the scheduler keeps: the events
    in [allowed], the log lines, the suspensions, and the methods of the
    collaborators. *)
Class Frame {Store Net} (stop_requested : nat -> bool)
    (R : relation (World Store Net)) (allowed : Event -> Prop) : Prop := {
  frame_preorder :: PreOrder R;
  frame_emit e : allowed e -> respects R (emit e);
  frame_log line : respects R (force_log line);
  frame_suspend : respects R (suspend stop_requested);
  frame_on_store A (method : Store -> Outcome A * Store) : respects R (on_store method);
  frame_on_net A (method : Net -> Outcome A * Net) : respects R (on_net method)
}.

(** A summary with all its keys, and entries with both of theirs. *)
Definition complete_entry (entry : string * CurrencyData) : bool :=
  match amount entry.2, count entry.2 with
  | Some _, Some _ => true
  | _, _ => false
  end.

Definition complete (summary : IncomeSummary) : bool :=
  match transaction_count summary, total_amount summary, currencies summary with
  | Some _, Some _, Some items => forallb complete_entry items
  | _, _, _ => false
  end.

(** *** The text the message is to be

    The message as the claim on its format describes it, from the values
    of a summary: the line of a currency, the lines joined by line feeds,
    and the two variants of the text. *)

Definition line_feed : string := String "010"%char EmptyString.

Definition expected_currency_line (currency amount_text count_text : string) : string :=
  "• " +:+ currency +:+ amount_text +:+ " (" +:+ count_text +:+ " transactions)".

Fixpoint expected_lines (lines : list string) : string :=
  match lines with
  | [] => ""
  | [line] => line
  | line :: rest => line +:+ line_feed +:+ expected_lines rest
  end.

Definition expected_title (shift_number : Z) : string :=
  "🔒 **វេន #" +:+ Py.str_int shift_number +:+ " បានបិទដោយស្វ័យប្រវត្តិ**".

Definition expected_footer : string := "⚡ បិទដោយ: ការកំណត់ពេលវេលាស្វ័យប្រវត្តិ".

Definition expected_with_transactions (shift_number : Z) (lines : list string)
    (count_text amount_text : string) : string :=
  expected_title shift_number +:+ line_feed
    +:+ line_feed
    +:+ "📊 **សរុបចំណូល:**" +:+ line_feed
    +:+ expected_lines lines +:+ line_feed
    +:+ line_feed
    +:+ "📝 **ព័ត៌មានលម្អិត:**" +:+ line_feed
    +:+ "• ចំនួនប្រតិបត្តិការសរុប: " +:+ count_text +:+ line_feed
    +:+ "• តម្លៃសរុប: " +:+ amount_text +:+ line_feed
    +:+ line_feed
    +:+ expected_footer.

Definition expected_without_transactions (shift_number : Z) : string :=
  expected_title shift_number +:+ line_feed
    +:+ line_feed
    +:+ "📊 **សរុបចំណូល:**" +:+ line_feed
    +:+ "• មិនមានប្រតិបត្តិការ" +:+ line_feed
    +:+ line_feed
    +:+ expected_footer.

(** The line expected for an entry that has its amount and its count. *)
Definition expected_entry_line (entry : string * CurrencyData) : string :=
  expected_currency_line entry.1
    (from_option format_comma_2f "" (amount entry.2))
    (from_option Py.str_int "" (count entry.2)).

(** ** The class of the bot service

    An instance of [AutosumBusinessBot] as
    [services/autosum_business_bot_service.py] defines the class, seen from
    the scheduler: the class defines [__init__],
    [_convert_buttons_to_keyboard], the command callbacks, [setup],
    [error_handler], [start_polling] and [stop]; it defines no
    [send_message] and no [__getattr__], and neither [__bool__] nor
    [__len__], so an instance is truthy. *)
Definition instance_of_the_class {Net : Type} : AutosumBusinessBot Net :=
  mkAutosumBusinessBot Net "AutosumBusinessBot" None.

End Dynamic.

(** ** A small deployment with run-time checks *)

Module DynamicDemo.

Import Dynamic.

Definition entries : list (string * CurrencyData) :=
  [("$", mkCurrencyData (Some (finite (45.5)%Q)) (Some 2));
   ("៛", mkCurrencyData (Some (finite 1000%Q)) (Some 1))].

Definition summary : IncomeSummary :=
  mkIncomeSummary (Some 3) (Some (finite (1045.5)%Q)) (Some entries).

(** A summary whose dict has no total. *)
Definition summary_without_total : IncomeSummary :=
  mkIncomeSummary (Some 3) None (Some entries).

(** Closing returns the overdue shifts and leaves none; the summary of
    shift 1 cannot be computed, the summary of shift 2 has no total. *)
Definition service : ShiftService (list ShiftInfo) :=
  mkShiftService (list ShiftInfo)
    (fun overdue => (Returned overdue, []))
    (fun shift_id chat_id overdue =>
       if shift_id =? 1
       then (Raised (mkException "ValueError" "no transactions table"), overdue)
       else if shift_id =? 2 then (Returned summary_without_total, overdue)
       else (Returned summary, overdue)).

(** A shift service whose close operation is cancelled at its await. *)
Definition cancelled_service : ShiftService (list ShiftInfo) :=
  mkShiftService (list ShiftInfo)
    (fun overdue => (Raised CancelledError, overdue))
    (fun shift_id chat_id overdue => (Returned summary, overdue)).

(** A bot service that keeps what it is given to send. *)
Definition bot : AutosumBusinessBot (list (Z * string)) :=
  mkAutosumBusinessBot (list (Z * string)) "NotifyingBot"
    (Some (fun chat_id message delivered =>
             (Returned true, delivered ++ [(chat_id, message)]))).

Definition scheduler : AutoCloseScheduler (list ShiftInfo) (list (Z * string)) :=
  mkAutoCloseScheduler _ _ service (Some bot).

Definition cancelled_scheduler
    : AutoCloseScheduler (list ShiftInfo) (list (Z * string)) :=
  mkAutoCloseScheduler _ _ cancelled_service (Some bot).

(** The scheduler given an instance of the class [AutosumBusinessBot]. *)
Definition scheduler_with_the_class
    : AutoCloseScheduler (list ShiftInfo) (list (Z * string)) :=
  mkAutoCloseScheduler _ _ service (Some instance_of_the_class).

End DynamicDemo.

(** * Properties *)

(** ** Python text, on examples *)

Example str_int_neg : Py.str_int (-42) = "-42". Proof. reflexivity. Qed.
Example repr_ids : Py.repr_int_list [3; 14; 15] = "[3, 14, 15]". Proof. reflexivity. Qed.
Example fmt_45_5 : Py.format_comma_2f (45.5)%Q = "45.50". Proof. reflexivity. Qed.
Example fmt_1000 : Py.format_comma_2f (1000)%Q = "1,000.00". Proof. reflexivity. Qed.
Example fmt_big : Py.format_comma_2f (1234567.891)%Q = "1,234,567.89". Proof. reflexivity. Qed.
Example fmt_tie_even : Py.format_comma_2f (0.125)%Q = "0.12". Proof. reflexivity. Qed.
Example fmt_tie_odd : Py.format_comma_2f (0.375)%Q = "0.38". Proof. reflexivity. Qed.
Example fmt_neg : Py.format_comma_2f (-1234.5)%Q = "-1,234.50". Proof. reflexivity. Qed.
Example strip_ex : Py.strip (Py.nl +:+ "a b" +:+ Py.nl +:+ "   ") = "a b". Proof. reflexivity. Qed.

Local Arguments String.append : simpl never.
Local Arguments summary_message : simpl never.
Local Arguments Py.str_int : simpl never.
Local Arguments Py.repr_int_list : simpl never.

(** ** Running a coroutine *)

Lemma run_bind {S A B} (m : M S A) (k : A -> M S B) w :
  (x <- m ;; k x) w =
  match m w with
  | (Returned a, w') => k a w'
  | (Raised e, w') => (Raised e, w')
  end.
Proof. reflexivity. Qed.

Lemma run_bind_returned {S A B} (m : M S A) (k : A -> M S B) w a w' :
  m w = (Returned a, w') -> (x <- m ;; k x) w = k a w'.
Proof. intros H. unfold bind. now rewrite H. Qed.

Lemma run_bind_raised {S A B} (m : M S A) (k : A -> M S B) w e w' :
  m w = (Raised e, w') -> (x <- m ;; k x) w = (Raised e, w').
Proof. intros H. unfold bind. now rewrite H. Qed.

Lemma run_for_each_app {S A} (l1 l2 : list A) (body : A -> M S unit) w :
  for_each (l1 ++ l2) body w = (for_each l1 body ;; for_each l2 body) w.
Proof.
  revert w. induction l1 as [|x l1 IH]; intros w; simpl.
  - reflexivity.
  - rewrite !run_bind. destruct (body x w) as [[[]|e] w1]; [|reflexivity].
    now rewrite IH, run_bind.
Qed.

(** ** Coroutines that return *)

Lemma returns_ret {S A} (a : A) : returns (@ret S A a).
Proof. intros w. now exists a, w. Qed.

Lemma returns_bind {S A B} (m : M S A) (k : A -> M S B) :
  returns m -> (forall a, returns (k a)) -> returns (x <- m ;; k x).
Proof.
  intros Hm Hk w. destruct (Hm w) as (a & w1 & E).
  rewrite (run_bind_returned _ _ _ _ _ E). apply Hk.
Qed.

(** A handler that returns makes the whole [try] return, whatever the body does. *)
Lemma returns_try_except {S A} (body : M S A) (handler : Exception -> M S A) :
  (forall e, returns (handler e)) -> returns (try_except body handler).
Proof.
  intros Hh w. unfold try_except.
  destruct (body w) as [[a|e] w1]; [now exists a, w1 | apply Hh].
Qed.

Lemma returns_for_each {S A} (l : list A) (body : A -> M S unit) :
  (forall x, returns (body x)) -> returns (for_each l body).
Proof.
  intros Hb. induction l as [|x l IH]; simpl.
  - apply returns_ret.
  - apply returns_bind; [apply Hb | intros _; apply IH].
Qed.

(** ** Relations kept along a run *)

Section Respects.

Context {S : Type} (R : relation S) `{!PreOrder R}.

Lemma respects_ret {A} (a : A) : respects R (@ret S A a).
Proof. intros w. simpl. reflexivity. Qed.

Lemma respects_raise {A} e : respects R (@raise S A e).
Proof. intros w. simpl. reflexivity. Qed.

Lemma respects_bind {A B} (m : M S A) (k : A -> M S B) :
  respects R m -> (forall a, respects R (k a)) -> respects R (x <- m ;; k x).
Proof.
  intros Hm Hk w. specialize (Hm w). unfold bind.
  destruct (m w) as [[a|e] w1]; simpl in *; [|assumption].
  etransitivity; [eassumption | apply Hk].
Qed.

Lemma respects_try_except {A} (body : M S A) (handler : Exception -> M S A) :
  respects R body -> (forall e, respects R (handler e)) ->
  respects R (try_except body handler).
Proof.
  intros Hb Hh w. specialize (Hb w). unfold try_except.
  destruct (body w) as [[a|e] w1]; simpl in *; [assumption|].
  etransitivity; [eassumption | apply Hh].
Qed.

Lemma respects_for_each {A} (l : list A) (body : A -> M S unit) :
  (forall x, respects R (body x)) -> respects R (for_each l body).
Proof.
  intros Hb. induction l as [|x l IH]; simpl.
  - apply respects_ret.
  - apply respects_bind; [apply Hb | intros _; apply IH].
Qed.

Lemma respects_comprehension {A B} (l : list A) (f : A -> M S B) :
  (forall x, respects R (f x)) -> respects R (comprehension l f).
Proof.
  intros Hf. induction l as [|x l IH]; simpl.
  - apply respects_ret.
  - apply respects_bind; [apply Hf | intros y].
    apply respects_bind; [apply IH | intros ys; apply respects_ret].
Qed.

End Respects.

(** ** The steps of the scheduler *)

Section Steps.

Context {Store Net : Type}.
Variable self : AutoCloseScheduler Store Net.
Variable format_exc : Exception -> string.
Variable stop_requested : nat -> bool.

Lemma returns_emit e : returns (@emit Store Net e).
Proof. intros w. now eexists _, _. Qed.

Lemma returns_force_log line : returns (@force_log Store Net line).
Proof. intros w. now eexists _, _. Qed.

Lemma returns_stop_scheduler : returns (@stop_scheduler Store Net).
Proof. intros w. now eexists _, _. Qed.

Lemma returns_suspend : returns (@suspend Store Net stop_requested).
Proof.
  intros w. unfold suspend. destruct (stop_requested (awaits w)); now eexists _, _.
Qed.

Lemma returns_await {A} (op : M (World Store Net) A) :
  returns op -> returns (await stop_requested op).
Proof.
  intros Hop w. unfold await. destruct (Hop w) as (a & w1 & ->).
  destruct (suspend stop_requested w1). now eexists _, _.
Qed.

Lemma returns_asyncio_sleep seconds :
  returns (@asyncio_sleep Store Net stop_requested seconds).
Proof.
  apply returns_bind; [apply returns_emit | intros _].
  apply returns_await, returns_ret.
Qed.

(** What a suspension does to the world. *)
Lemma run_suspend (w : World Store Net) :
  suspend stop_requested w =
  (Returned tt,
   mkWorld (store w) (net w)
           (is_running w && negb (stop_requested (awaits w)))
           (log w ++ stop_lines (stop_requested (awaits w)))
           (events w ++ stop_events (stop_requested (awaits w)))
           (S (awaits w))).
Proof.
  unfold suspend. destruct (stop_requested (awaits w)); simpl.
  - now rewrite andb_false_r.
  - now rewrite andb_true_r, !app_nil_r.
Qed.

Section WithFrame.

Context (R : relation (World Store Net)) (allowed : Event -> Prop).
Context `{!Frame self stop_requested R allowed}.

Lemma frame_getitem d key : respects R (@getitem Store Net d key).
Proof.
  unfold getitem. destruct (d !! key); [apply respects_ret | apply respects_raise]; apply _.
Qed.

Lemma frame_await {A} (op : M (World Store Net) A) :
  respects R op -> respects R (await stop_requested op).
Proof.
  intros Hop w. unfold await. specialize (Hop w).
  destruct (op w) as [r w1]. pose proof (frame_suspend w1) as Hs.
  destruct (suspend stop_requested w1) as [u w2]. simpl in *.
  etransitivity; eassumption.
Qed.


Lemma frame_call_get_shift_income_summary shift_id chat_id :
  allowed (ev_get_shift_income_summary shift_id chat_id) ->
  respects R (call_get_shift_income_summary self stop_requested shift_id chat_id).
Proof.
  intros He. apply respects_bind; [apply _ | now apply frame_emit | intros _].
  apply frame_await, frame_summary.
Qed.

Lemma frame_call_send_message chat_id message :
  allowed (ev_send_message chat_id message) ->
  respects R (call_send_message self stop_requested chat_id message).
Proof.
  intros He. unfold call_send_message. destruct (bot_service self) as [bot|].
  - apply respects_bind; [apply _ | now apply frame_emit | intros _].
    apply frame_await, frame_send.
  - apply respects_raise, _.
Qed.

Hypothesis allowed_fetch : forall i c, allowed (ev_get_shift_income_summary i c).
Hypothesis allowed_send : forall c m, allowed (ev_send_message c m).

Lemma frame_send_shift_summary_body shift_info :
  respects R (send_shift_summary_body self format_exc stop_requested shift_info).
Proof using Type*.
  unfold send_shift_summary_body.
  apply respects_try_except; [apply _ | |].
  - apply respects_bind; [apply _ | apply frame_getitem | intros chat_id].
    apply respects_bind; [apply _ | apply frame_getitem | intros shift_id].
    apply respects_bind; [apply _ | apply frame_getitem | intros shift_number].
    apply respects_bind;
      [apply _ | now apply frame_call_get_shift_income_summary | intros summary].
    apply respects_bind; [apply _ | now apply frame_call_send_message | intros success].
    destruct success; apply frame_log.
  - intros e. apply respects_bind; [apply _ | apply frame_log | intros _; apply frame_log].
Qed.

Hypothesis allowed_attempt : forall s, allowed (ev_send_shift_summary s).

Lemma frame_send_shift_summary shift_info :
  respects R (_send_shift_summary self format_exc stop_requested shift_info).
Proof using Type*.
  apply respects_bind; [apply _ | now apply frame_emit | intros _].
  apply frame_send_shift_summary_body.
Qed.

Lemma frame_notify_closed_shift shift :
  respects R (notify_closed_shift self format_exc stop_requested shift).
Proof using Type*.
  unfold notify_closed_shift.
  apply respects_bind; [apply _ | apply frame_getitem | intros shift_id].
  apply respects_bind; [apply _ | apply frame_getitem | intros chat_id].
  apply respects_bind; [apply _ | apply frame_log | intros _].
  destruct (bot_service self); [apply frame_send_shift_summary | apply respects_ret, _].
Qed.

Hypothesis allowed_close : allowed ev_check_and_auto_close_shifts.
Hypothesis frame_close : respects R (shift_service_close self).


End WithFrame.

End Steps.

(** ** Relations the scheduler keeps *)

Lemma undisturbed_app stop_requested from n m :
  undisturbed stop_requested from (n + m) =
  undisturbed stop_requested from n && undisturbed stop_requested (from + n) m.
Proof. unfold undisturbed. now rewrite seq_app, forallb_app. Qed.




Section Frames.

Context {Store Net : Type}.
Variable self : AutoCloseScheduler Store Net.
Variable stop_requested : nat -> bool.

Global Instance emits_only_preorder (P : Event -> Prop) :
  PreOrder (@emits_only Store Net P).
Proof.
  split.
  - intros w. exists []. now rewrite app_nil_r.
  - intros w1 w2 w3 (es1 & E1 & F1) (es2 & E2 & F2).
    exists (es1 ++ es2). rewrite E2, E1, app_assoc. split; [reflexivity|].
    now apply Forall_app.
Qed.

Global Instance emits_only_frame (P : Event -> Prop) :
  P ev_stop_scheduler -> Frame self stop_requested (emits_only P) P.
Proof.
  intros Hstop. split.
  - apply _.
  - intros e He w. exists [e]. split; [reflexivity | now constructor].
  - intros line w. exists []. simpl. now rewrite app_nil_r.
  - intros w. rewrite run_suspend. simpl. eexists. split; [reflexivity|].
    destruct (stop_requested (awaits w)); simpl; repeat constructor. exact Hstop.
  - intros i c w. exists []. unfold shift_service_summary.
    destruct (get_shift_income_summary _ _ _ _). simpl. now rewrite app_nil_r.
  - intros bot c m w. exists []. unfold bot_send.
    destruct (send_message _ _ _ _). simpl. now rewrite app_nil_r.
Qed.

Global Instance log_grows_preorder : PreOrder (@log_grows Store Net).
Proof.
  split.
  - intros w. exists []. now rewrite app_nil_r.
  - intros w1 w2 w3 (l1 & E1) (l2 & E2).
    exists (l1 ++ l2). now rewrite E2, E1, app_assoc.
Qed.

Global Instance log_grows_frame :
  Frame self stop_requested log_grows (fun _ => True).
Proof.
  split.
  - apply _.
  - intros e _ w. exists []. simpl. now rewrite app_nil_r.
  - intros line w. now exists [line].
  - intros w. rewrite run_suspend. simpl. now eexists.
  - intros i c w. exists []. unfold shift_service_summary.
    destruct (get_shift_income_summary _ _ _ _). simpl. now rewrite app_nil_r.
  - intros bot c m w. exists []. unfold bot_send.
    destruct (send_message _ _ _ _). simpl. now rewrite app_nil_r.
Qed.

Global Instance same_store_preorder : PreOrder (@same_store Store Net).
Proof.
  split.
  - intros w. reflexivity.
  - intros w1 w2 w3 E1 E2. unfold same_store in *. congruence.
Qed.

(** A read-only fetch makes the notification steps keep the store. *)
Lemma same_store_frame :
  read_only_summary (shift_service self) ->
  Frame self stop_requested same_store (fun _ => True).
Proof.
  intros Hro. split.
  - apply _.
  - intros e _ w. reflexivity.
  - intros line w. reflexivity.
  - intros w. rewrite run_suspend. reflexivity.
  - intros i c w. unfold same_store, shift_service_summary.
    specialize (Hro i c (store w)).
    destruct (get_shift_income_summary _ _ _ _). exact Hro.
  - intros bot c m w. unfold same_store, bot_send.
    destruct (send_message _ _ _ _). reflexivity.
Qed.

(** A step that leaves the flag, the trace and the count of awaits alone. *)
Lemma follows_stops_still (w w' : World Store Net) :
  awaits w' = awaits w -> is_running w' = is_running w -> events w' = events w ->
  follows_stops stop_requested w w'.
Proof.
  intros Ea Er Ee. unfold follows_stops. rewrite Ea, Er, Ee, Nat.sub_diag. simpl.
  split; [lia|]. split; [now rewrite andb_true_r|].
  exists []. rewrite app_nil_r. split; [reflexivity|].
  split; [apply not_elem_of_nil|]. split; [intros H; inversion H | discriminate].
Qed.

Global Instance follows_stops_preorder :
  PreOrder (@follows_stops Store Net stop_requested).
Proof.
  split.
  - intros w. now apply follows_stops_still.
  - intros w1 w2 w3 (L1 & F1 & es1 & E1 & C1 & S1) (L2 & F2 & es2 & E2 & C2 & S2).
    assert (Hsplit : undisturbed stop_requested (awaits w1) (awaits w3 - awaits w1) =
                     undisturbed stop_requested (awaits w1) (awaits w2 - awaits w1)
                     && undisturbed stop_requested (awaits w2) (awaits w3 - awaits w2)).
    { replace (awaits w3 - awaits w1)%nat
        with ((awaits w2 - awaits w1) + (awaits w3 - awaits w2))%nat by lia.
      rewrite undisturbed_app. do 2 f_equal. lia. }
    split; [lia|]. split.
    + rewrite F2, F1, Hsplit. now rewrite andb_assoc.
    + exists (es1 ++ es2). rewrite E2, E1, app_assoc. split; [reflexivity|].
      split.
      * rewrite elem_of_app. tauto.
      * rewrite elem_of_app, Hsplit, andb_false_iff. tauto.
Qed.



End Frames.

(** ** The coroutines return *)

Section Coroutines.

Context {Store Net : Type}.
Variable self : AutoCloseScheduler Store Net.
Variable format_exc : Exception -> string.
Variable stop_requested : nat -> bool.

Lemma send_shift_summary_returns shift_info :
  returns (_send_shift_summary self format_exc stop_requested shift_info).
Proof.
  apply returns_bind; [apply returns_emit | intros _].
  apply returns_try_except. intros e.
  apply returns_bind; [apply returns_force_log | intros _; apply returns_force_log].
Qed.

Lemma check_auto_close_shifts_returns :
  returns (check_auto_close_shifts self format_exc stop_requested).
Proof.
  apply returns_bind; [apply returns_emit | intros _].
  apply returns_bind; [apply returns_force_log | intros _].
  apply returns_try_except. intros e.
  apply returns_bind; [apply returns_force_log | intros _; apply returns_force_log].
Qed.

Lemma loop_body_returns : returns (loop_body self format_exc stop_requested).
Proof.
  apply returns_try_except. intros e.
  apply returns_bind; [apply returns_force_log | intros _; apply returns_asyncio_sleep].
Qed.

Lemma run_asyncio_sleep seconds (w : World Store Net) :
  asyncio_sleep stop_requested seconds w =
  (Returned tt,
   mkWorld (store w) (net w)
           (is_running w && negb (stop_requested (awaits w)))
           (log w ++ stop_lines (stop_requested (awaits w)))
           (events w ++ ev_sleep seconds :: stop_events (stop_requested (awaits w)))
           (S (awaits w))).
Proof.
  unfold asyncio_sleep, await. rewrite run_bind. simpl.
  rewrite run_suspend. simpl. now rewrite <- app_assoc.
Qed.



Lemma while_is_running_step fuel (w w' : World Store Net) :
  is_running w = true ->
  loop_body self format_exc stop_requested w = (Returned tt, w') ->
  while_is_running self format_exc stop_requested (S fuel) w =
  while_is_running self format_exc stop_requested fuel w'.
Proof. intros Hr E. simpl. now rewrite Hr, E. Qed.

Lemma while_is_running_never_raises fuel (w : World Store Net) e w' :
  while_is_running self format_exc stop_requested fuel w <> Some (Raised e, w').
Proof.
  revert w. induction fuel as [|fuel IH]; intros w; [discriminate|].
  destruct (is_running w) eqn:Hr.
  - destruct (loop_body_returns w) as ([] & w1 & E).
    rewrite (while_is_running_step _ _ _ Hr E). apply IH.
  - simpl. rewrite Hr. discriminate.
Qed.


End Coroutines.

(** ** Exact runs *)

Section Runs.

Context {Store Net : Type}.
Variable self : AutoCloseScheduler Store Net.
Variable format_exc : Exception -> string.
Variable stop_requested : nat -> bool.

Lemma run_emit e (w : World Store Net) :
  emit e w =
  (Returned tt,
   mkWorld (store w) (net w) (is_running w) (log w) (events w ++ [e]) (awaits w)).
Proof. reflexivity. Qed.

Lemma run_force_log line (w : World Store Net) :
  force_log line w =
  (Returned tt,
   mkWorld (store w) (net w) (is_running w) (log w ++ [line]) (events w) (awaits w)).
Proof. reflexivity. Qed.

Lemma run_call_check_and_auto_close_shifts (w : World Store Net) :
  call_check_and_auto_close_shifts self stop_requested w =
  let (r, s) := check_and_auto_close_shifts (shift_service self) (store w) in
  let b := stop_requested (awaits w) in
  (r, mkWorld s (net w) (is_running w && negb b) (log w ++ stop_lines b)
              (events w ++ ev_check_and_auto_close_shifts :: stop_events b)
              (S (awaits w))).
Proof.
  unfold call_check_and_auto_close_shifts, await, shift_service_close.
  rewrite run_bind, run_emit. cbn [store net is_running log events awaits].
  destruct (check_and_auto_close_shifts _ _) as [r s].
  rewrite run_suspend. cbn [store net is_running log events awaits].
  now rewrite <- app_assoc.
Qed.

Lemma run_call_get_shift_income_summary shift_id chat_id (w : World Store Net) :
  call_get_shift_income_summary self stop_requested shift_id chat_id w =
  let (r, s) :=
    get_shift_income_summary (shift_service self) shift_id chat_id (store w) in
  let b := stop_requested (awaits w) in
  (r, mkWorld s (net w) (is_running w && negb b) (log w ++ stop_lines b)
              (events w ++ ev_get_shift_income_summary shift_id chat_id
                 :: stop_events b)
              (S (awaits w))).
Proof.
  unfold call_get_shift_income_summary, await, shift_service_summary.
  rewrite run_bind, run_emit. cbn [store net is_running log events awaits].
  destruct (get_shift_income_summary _ _ _ _) as [r s].
  rewrite run_suspend. cbn [store net is_running log events awaits].
  now rewrite <- app_assoc.
Qed.

Lemma run_call_send_message bot chat_id message (w : World Store Net) :
  bot_service self = Some bot ->
  call_send_message self stop_requested chat_id message w =
  let (r, n) := send_message bot chat_id message (net w) in
  let b := stop_requested (awaits w) in
  (r, mkWorld (store w) n (is_running w && negb b) (log w ++ stop_lines b)
              (events w ++ ev_send_message chat_id message :: stop_events b)
              (S (awaits w))).
Proof.
  intros Hbot. unfold call_send_message, await, bot_send. rewrite Hbot.
  rewrite run_bind, run_emit. cbn [store net is_running log events awaits].
  destruct (send_message _ _ _ _) as [r n].
  rewrite run_suspend. cbn [store net is_running log events awaits].
  now rewrite <- app_assoc.
Qed.

Lemma run_getitem (d : ShiftInfo) key v (w : World Store Net) :
  d !! key = Some v -> getitem d key w = (Returned v, w).
Proof. intros H. unfold getitem. now rewrite H. Qed.


(** A cycle whose close operation finds nothing to close. *)
Lemma run_check_nothing_closed (w : World Store Net) s :
  check_and_auto_close_shifts (shift_service self) (store w) = (Returned [], s) ->
  check_auto_close_shifts self format_exc stop_requested w =
  let b := stop_requested (awaits w) in
  (Returned tt,
   mkWorld s (net w) (is_running w && negb b)
           (log w ++ ["Starting auto-close shift check..."] ++ stop_lines b
              ++ ["No shifts needed auto-closing"])
           (events w ++ [ev_check_auto_close_shifts; ev_check_and_auto_close_shifts]
              ++ stop_events b)
           (S (awaits w))).
Proof.
  intros Hclose.
  unfold check_auto_close_shifts, check_auto_close_shifts_body, try_except.
  rewrite run_bind, run_emit, run_bind, run_force_log, run_bind.
  rewrite run_call_check_and_auto_close_shifts.
  cbn [store net is_running log events awaits]. rewrite Hclose.
  rewrite run_force_log. cbn [store net is_running log events awaits].
  now rewrite <- !app_assoc.
Qed.

End Runs.

(** ** Traces *)

Lemma attempts_app es1 es2 : attempts (es1 ++ es2) = attempts es1 ++ attempts es2.
Proof.
  induction es1 as [|e es1 IH]; [reflexivity|].
  destruct e; simpl; now rewrite ?IH.
Qed.



Lemma closes_app es1 es2 : closes (es1 ++ es2) = (closes es1 + closes es2)%nat.
Proof.
  induction es1 as [|e es1 IH]; [reflexivity|].
  destruct e; simpl; now rewrite ?IH.
Qed.

Lemma cycles_app es1 es2 : cycles (es1 ++ es2) = (cycles es1 + cycles es2)%nat.
Proof.
  induction es1 as [|e es1 IH]; [reflexivity|].
  destruct e; simpl; now rewrite ?IH.
Qed.

Lemma closed_shift_record_keys (shift : ShiftInfo) :
  is_closed_shift_record shift = true ->
  exists i c n,
    shift !! "id" = Some i /\ shift !! "chat_id" = Some c /\ shift !! "number" = Some n.
Proof.
  unfold is_closed_shift_record. rewrite !andb_true_iff, !bool_decide_eq_true.
  intros [[[i Hi] [c Hc]] [n Hn]]. now exists i, c, n.
Qed.

(** ** One notification *)

Section Notifications.

Context {Store Net : Type}.
Variable self : AutoCloseScheduler Store Net.
Variable format_exc : Exception -> string.
Variable stop_requested : nat -> bool.

Ltac proj := cbn [store net is_running log events awaits fst snd].

Ltac trace_facts :=
  repeat match goal with
         | |- context [stop_events (stop_requested ?n)] =>
             destruct (stop_requested n)
         end;
  cbn [stop_events app attempts fetches sends closes cycles length fst];
  repeat split; repeat constructor; try easy.

(** The notification of a well-formed record by a scheduler that has a bot:
    it returns, it logs the line that reports how it ended, and after the
    fetch its trace holds at most one send, to the chat of the record; the
    network is as it was unless that send was made. *)
Lemma send_shift_summary_run bot shift i c n (w : World Store Net) :
  bot_service self = Some bot ->
  shift !! "id" = Some i -> shift !! "chat_id" = Some c -> shift !! "number" = Some n ->
  exists w' lines es,
    _send_shift_summary self format_exc stop_requested shift w = (Returned tt, w') /\
    log w' = log w ++ lines /\
    In (report_line i c (notification self bot i c n w)) lines /\
    events w' =
      events w ++ ev_send_shift_summary shift :: ev_get_shift_income_summary i c :: es /\
    attempts es = [] /\ fetches es = [] /\ (length (sends es) <= 1)%nat /\
    Forall (fun x => x.1 = c) (sends es) /\ closes es = 0%nat /\ cycles es = 0%nat /\
    (sends es = [] -> net w' = net w).
Proof.
  intros Hbot Hi Hc Hn.
  unfold _send_shift_summary, send_shift_summary_body, try_except, notification.
  rewrite run_bind, run_emit.
  rewrite (run_bind_returned _ _ _ _ _ (run_getitem _ _ _ _ Hc)).
  rewrite (run_bind_returned _ _ _ _ _ (run_getitem _ _ _ _ Hi)).
  rewrite (run_bind_returned _ _ _ _ _ (run_getitem _ _ _ _ Hn)).
  rewrite run_bind, run_call_get_shift_income_summary. proj.
  pose (b1 := stop_requested (awaits w)). pose (b2 := stop_requested (S (awaits w))).
  destruct (get_shift_income_summary _ _ _ _) as [[summary|e] s].
  - rewrite run_bind, (run_call_send_message _ _ _ _ _ _ Hbot). proj.
    set (message := summary_message n summary).
    destruct (send_message _ _ _ _) as [[[]|e] n'].
    + rewrite run_force_log. proj.
      eexists _, (stop_lines b1 ++ stop_lines b2 ++ [_]),
        (stop_events b1 ++ ev_send_message c message :: stop_events b2).
      split; [reflexivity|]. proj. subst b1 b2.
      split; [now rewrite <- !app_assoc|].
      split; [rewrite !in_app_iff; right; right; now left|].
      split; [now rewrite <- !app_assoc|]. trace_facts.
    + rewrite run_force_log. proj.
      eexists _, (stop_lines b1 ++ stop_lines b2 ++ [_]),
        (stop_events b1 ++ ev_send_message c message :: stop_events b2).
      split; [reflexivity|]. proj. subst b1 b2.
      split; [now rewrite <- !app_assoc|].
      split; [rewrite !in_app_iff; right; right; now left|].
      split; [now rewrite <- !app_assoc|]. trace_facts.
    + rewrite run_bind, !run_force_log. proj.
      eexists _, (stop_lines b1 ++ stop_lines b2 ++ [_; _]),
        (stop_events b1 ++ ev_send_message c message :: stop_events b2).
      split; [reflexivity|]. proj. subst b1 b2.
      split; [now rewrite <- !app_assoc|].
      split.
      { rewrite !in_app_iff. right; right. left.
        unfold report_line, get_or. now rewrite Hi. }
      split; [now rewrite <- !app_assoc|]. trace_facts.
  - rewrite run_bind, !run_force_log. proj.
    eexists _, (stop_lines b1 ++ [_; _]), (stop_events b1).
    split; [reflexivity|]. proj. subst b1 b2.
    split; [now rewrite <- !app_assoc|].
    split.
    { rewrite !in_app_iff. right. left.
      unfold report_line, get_or. now rewrite Hi. }
    split; [now rewrite <- !app_assoc|]. trace_facts.
Qed.

(** Any notification, of any record and with or without a bot: it returns,
    and after its entry its trace holds no attempt, no close, no check, at
    most one fetch and at most one send; the network is as it was unless
    that send was made, and the send is to the chat of the record. *)
Lemma send_shift_summary_shape shift (w : World Store Net) :
  exists w' es,
    _send_shift_summary self format_exc stop_requested shift w = (Returned tt, w') /\
    events w' = events w ++ ev_send_shift_summary shift :: es /\
    attempts es = [] /\ (length (fetches es) <= 1)%nat /\
    (length (sends es) <= 1)%nat /\ closes es = 0%nat /\ cycles es = 0%nat /\
    (sends es = [] -> net w' = net w) /\
    (forall c, shift !! "chat_id" = Some c -> Forall (fun x => x.1 = c) (sends es)).
Proof.
  destruct (shift !! "chat_id") as [c|] eqn:Hc;
    [destruct (shift !! "id") as [i|] eqn:Hi;
     [destruct (shift !! "number") as [n|] eqn:Hn|]|].
  - destruct (bot_service self) as [bot|] eqn:Hbot.
    + destruct (send_shift_summary_run bot shift i c n w Hbot Hi Hc Hn)
        as (w' & lines & es & E & _ & _ & Ee & Ha & Hf & Hs & Hto & Hcl & Hcy & Hnet).
      exists w', (ev_get_shift_income_summary i c :: es).
      split; [exact E|]. split; [exact Ee|]. simpl. rewrite Hf. simpl.
      repeat split; auto. intros c' [= <-]. exact Hto.
    + unfold _send_shift_summary, send_shift_summary_body, try_except.
      rewrite run_bind, run_emit.
      rewrite (run_bind_returned _ _ _ _ _ (run_getitem _ _ _ _ Hc)).
      rewrite (run_bind_returned _ _ _ _ _ (run_getitem _ _ _ _ Hi)).
      rewrite (run_bind_returned _ _ _ _ _ (run_getitem _ _ _ _ Hn)).
      rewrite run_bind, run_call_get_shift_income_summary. proj.
      unfold call_send_message. rewrite Hbot.
      destruct (get_shift_income_summary _ _ _ _) as [[summary|e] s].
      * rewrite run_bind. unfold raise at 1. rewrite run_bind, !run_force_log. proj.
        eexists _, (ev_get_shift_income_summary i c
                      :: stop_events (stop_requested (awaits w))).
        split; [reflexivity|]. proj.
        split; [now rewrite <- !app_assoc|]. trace_facts.
      * rewrite run_bind, !run_force_log. proj.
        eexists _, (ev_get_shift_income_summary i c
                      :: stop_events (stop_requested (awaits w))).
        split; [reflexivity|]. proj.
        split; [now rewrite <- !app_assoc|]. trace_facts.
  - unfold _send_shift_summary, send_shift_summary_body, try_except.
    rewrite run_bind, run_emit.
    rewrite (run_bind_returned _ _ _ _ _ (run_getitem _ _ _ _ Hc)).
    rewrite (run_bind_returned _ _ _ _ _ (run_getitem _ _ _ _ Hi)).
    unfold getitem at 1. rewrite Hn, run_bind. unfold raise at 1.
    rewrite run_bind, !run_force_log. proj.
    eexists _, []. split; [reflexivity|]. proj. trace_facts.
  - unfold _send_shift_summary, send_shift_summary_body, try_except.
    rewrite run_bind, run_emit.
    rewrite (run_bind_returned _ _ _ _ _ (run_getitem _ _ _ _ Hc)).
    unfold getitem at 1. rewrite Hi, run_bind. unfold raise at 1.
    rewrite run_bind, !run_force_log. proj.
    eexists _, []. split; [reflexivity|]. proj. trace_facts.
  - unfold _send_shift_summary, send_shift_summary_body, try_except.
    rewrite run_bind, run_emit.
    unfold getitem at 1. rewrite Hc, run_bind. unfold raise at 1.
    rewrite run_bind, !run_force_log. proj.
    eexists _, []. split; [reflexivity|]. proj. trace_facts.
Qed.

End Notifications.

(** ** One cycle *)

Section Cycles.

Context {Store Net : Type}.
Variable self : AutoCloseScheduler Store Net.
Variable format_exc : Exception -> string.
Variable stop_requested : nat -> bool.

Ltac proj := cbn [store net is_running log events awaits fst snd].

Lemma run_comprehension_ids shifts (w : World Store Net) :
  Forall (fun shift => is_closed_shift_record shift = true) shifts ->
  comprehension shifts (fun shift : ShiftInfo => getitem shift "id") w =
  (Returned (ids_of shifts), w).
Proof.
  induction 1 as [|shift shifts Hrec _ IH]; [reflexivity|].
  destruct (closed_shift_record_keys shift Hrec) as (i & c & n & Hi & Hc & Hn).
  cbn [comprehension].
  rewrite (run_bind_returned _ _ _ _ _ (run_getitem _ _ _ _ Hi)).
  rewrite (run_bind_returned _ _ _ _ _ IH).
  unfold ids_of. simpl. now rewrite Hi.
Qed.

(** The steps for one closed record, up to the notification. *)
Lemma run_notify_closed_shift shift (w : World Store Net) :
  is_closed_shift_record shift = true ->
  notify_closed_shift self format_exc stop_requested shift w =
  let w1 := mkWorld (store w) (net w) (is_running w)
                    (log w ++ [closure_line shift]) (events w) (awaits w) in
  match bot_service self with
  | Some _ => _send_shift_summary self format_exc stop_requested shift w1
  | None => (Returned tt, w1)
  end.
Proof.
  intros Hrec.
  destruct (closed_shift_record_keys shift Hrec) as (i & c & n & Hi & Hc & Hn).
  unfold notify_closed_shift.
  rewrite (run_bind_returned _ _ _ _ _ (run_getitem _ _ _ _ Hi)).
  rewrite (run_bind_returned _ _ _ _ _ (run_getitem _ _ _ _ Hc)).
  rewrite run_bind, run_force_log. unfold closure_line. rewrite Hi, Hc.
  now destruct (bot_service self).
Qed.

(** The loop over the closed records, without a bot: one line each. *)
Lemma run_notify_all_without_bot shifts (w : World Store Net) :
  bot_service self = None ->
  Forall (fun shift => is_closed_shift_record shift = true) shifts ->
  for_each shifts (notify_closed_shift self format_exc stop_requested) w =
  (Returned tt,
   mkWorld (store w) (net w) (is_running w)
           (log w ++ map closure_line shifts) (events w) (awaits w)).
Proof.
  intros Hbot Hall. revert w.
  induction Hall as [|shift shifts Hrec _ IH]; intros w.
  - simpl. rewrite app_nil_r. now destruct w.
  - cbn [for_each]. rewrite run_bind, (run_notify_closed_shift _ _ Hrec), Hbot.
    cbv beta iota zeta. rewrite IH. proj. now rewrite <- app_assoc.
Qed.


(** A cycle whose close operation returns records: the world in which the
    loop over them starts. *)
Lemma run_check_closed shift shifts s (w w' : World Store Net) :
  check_and_auto_close_shifts (shift_service self) (store w)
    = (Returned (shift :: shifts), s) ->
  Forall (fun shift => is_closed_shift_record shift = true) (shift :: shifts) ->
  let b := stop_requested (awaits w) in
  for_each (shift :: shifts) (notify_closed_shift self format_exc stop_requested)
    (mkWorld s (net w) (is_running w && negb b)
       (log w ++ ["Starting auto-close shift check..."] ++ stop_lines b
          ++ [closed_line (shift :: shifts)])
       (events w ++ [ev_check_auto_close_shifts; ev_check_and_auto_close_shifts]
          ++ stop_events b)
       (S (awaits w)))
    = (Returned tt, w') ->
  check_auto_close_shifts self format_exc stop_requested w = (Returned tt, w').
Proof.
  intros Hclose Hall b Hloop.
  unfold check_auto_close_shifts, check_auto_close_shifts_body, try_except.
  rewrite run_bind, run_emit, run_bind, run_force_log, run_bind.
  rewrite run_call_check_and_auto_close_shifts. proj. rewrite Hclose.
  rewrite run_bind, (run_comprehension_ids _ _ Hall).
  rewrite run_bind, run_force_log. proj. fold b.
  unfold closed_line in Hloop. rewrite <- !app_assoc. simpl app.
  simpl app in Hloop. now rewrite Hloop.
Qed.

End Cycles.

(** * The claims *)

Section Claims.

Context {Store Net : Type}.
Variable self : AutoCloseScheduler Store Net.
Variable format_exc : Exception -> string.
Variable stop_requested : nat -> bool.

Ltac proj := cbn [store net is_running log events awaits fst snd].


(** C6: when the close operation returns the empty list, the cycle makes no
    notification attempt, no summary fetch and no send, and it logs that no
    shift needed closing. *)
Theorem nothing_closed_nothing_sent (w : World Store Net) s :
  check_and_auto_close_shifts (shift_service self) (store w) = (Returned [], s) ->
  exists w' es lines,
    check_auto_close_shifts self format_exc stop_requested w = (Returned tt, w') /\
    events w' = events w ++ es /\
    attempts es = [] /\ fetches es = [] /\ sends es = [] /\
    log w' = log w ++ lines /\
    In "No shifts needed auto-closing" lines /\
    net w' = net w.
Proof.
  intros Hclose. rewrite (run_check_nothing_closed _ _ _ _ _ Hclose). cbv zeta.
  eexists _, _, _. split; [reflexivity|]. proj. split; [reflexivity|].
  split; [now destruct (stop_requested (awaits w))|].
  split; [now destruct (stop_requested (awaits w))|].
  split; [now destruct (stop_requested (awaits w))|].
  split; [reflexivity|]. split; [|reflexivity].
  rewrite !in_app_iff. right. right. now left.
Qed.

(** C9: a scheduler built without a bot service makes no notification attempt
    for the records the close operation returns: no attempt, no summary fetch
    and no send; the count line and the closure line of every record are
    still logged. *)
Theorem without_bot_no_attempt (w : World Store Net) shift shifts s :
  bot_service self = None ->
  check_and_auto_close_shifts (shift_service self) (store w)
    = (Returned (shift :: shifts), s) ->
  Forall (fun shift => is_closed_shift_record shift = true) (shift :: shifts) ->
  exists w' es,
    check_auto_close_shifts self format_exc stop_requested w = (Returned tt, w') /\
    events w' = events w ++ es /\
    attempts es = [] /\ fetches es = [] /\ sends es = [] /\
    log w' =
      log w ++ ["Starting auto-close shift check..."]
        ++ stop_lines (stop_requested (awaits w))
        ++ closed_line (shift :: shifts) :: map closure_line (shift :: shifts) /\
    net w' = net w.
Proof.
  intros Hbot Hclose Hall. set (b := stop_requested (awaits w)).
  eexists _, _. split.
  - apply (run_check_closed _ _ _ _ _ _ _ _ Hclose Hall).
    apply (run_notify_all_without_bot _ _ _ _ _ Hbot Hall).
  - proj. fold b. split; [reflexivity|].
    split; [now destruct b|]. split; [now destruct b|]. split; [now destruct b|].
    split; [|reflexivity]. now rewrite <- !app_assoc.
Qed.

End Claims.

(** ** The loop *)



Section Loop.

Context {Store Net : Type}.
Variable self : AutoCloseScheduler Store Net.
Variable format_exc : Exception -> string.
Variable stop_requested : nat -> bool.

Ltac proj := cbn [store net is_running log events awaits fst snd].




End Loop.

(** ** Notifications within a cycle *)

Lemma report_line_names_the_shift shift_id chat_id r :
  Py.contains (report_line shift_id chat_id r) (Py.str_int shift_id).
Proof.
  destruct r as [| |e]; unfold report_line.
  - now exists "Sent shift summary for shift ",
               (" to chat " +:+ Py.str_int chat_id).
  - now exists "Failed to send shift summary for shift ",
               (" to chat " +:+ Py.str_int chat_id).
  - now exists "Error sending shift summary for shift ", (": " +:+ exc_str e).
Qed.

Section Notifying.

Context {Store Net : Type}.
Variable self : AutoCloseScheduler Store Net.
Variable format_exc : Exception -> string.
Variable stop_requested : nat -> bool.

Ltac proj := cbn [store net is_running log events awaits fst snd].

(** A cycle whose close operation returns a list that is not empty. *)
Lemma run_check_some_closed shifts s (w w' : World Store Net) :
  shifts <> [] ->
  check_and_auto_close_shifts (shift_service self) (store w) = (Returned shifts, s) ->
  Forall (fun shift => is_closed_shift_record shift = true) shifts ->
  let b := stop_requested (awaits w) in
  for_each shifts (notify_closed_shift self format_exc stop_requested)
    (mkWorld s (net w) (is_running w && negb b)
       (log w ++ ["Starting auto-close shift check..."] ++ stop_lines b
          ++ [closed_line shifts])
       (events w ++ [ev_check_auto_close_shifts; ev_check_and_auto_close_shifts]
          ++ stop_events b)
       (S (awaits w)))
    = (Returned tt, w') ->
  check_auto_close_shifts self format_exc stop_requested w = (Returned tt, w').
Proof.
  destruct shifts as [|shift shifts]; [congruence|].
  intros _. apply run_check_closed.
Qed.

(** C8: a notification, whether it succeeds or fails, leaves the shift store
    as it was when the summary fetch only reads it: the notification
    returns, it calls no close operation and starts no cycle, it makes at
    most one summary fetch and at most one send, the send goes to the chat
    of the record, and the network is as it was unless that send was made. *)
Theorem notification_leaves_the_store shift (w : World Store Net) :
  read_only_summary (shift_service self) ->
  exists w' es,
    _send_shift_summary self format_exc stop_requested shift w = (Returned tt, w') /\
    store w' = store w /\
    events w' = events w ++ ev_send_shift_summary shift :: es /\
    attempts es = [] /\ closes es = 0%nat /\ cycles es = 0%nat /\
    (length (fetches es) <= 1)%nat /\
    (length (sends es) <= 1)%nat /\
    (forall c, shift !! "chat_id" = Some c -> Forall (fun x => x.1 = c) (sends es)) /\
    (sends es = [] -> net w' = net w).
Proof.
  intros Hro.
  destruct (send_shift_summary_shape self format_exc stop_requested shift w)
    as (w' & es & E & Ee & Ha & Hf & Hs & Hc & Hy & Hnet & Hto).
  pose proof (@frame_send_shift_summary _ _ self format_exc stop_requested
                same_store (fun _ => True) (same_store_frame self stop_requested Hro)
                (fun _ _ => I) (fun _ _ => I) (fun _ => I) shift w) as Hstore.
  rewrite E in Hstore.
  exists w', es. repeat split; auto.
Qed.

End Notifying.

(** ** The message *)

(** C10: the symbol chosen for a currency is the currency itself, whichever
    string it is, so a line of the breakdown starts with the key of its
    entry. *)
Theorem currency_symbol_is_the_currency currency data :
  currency_symbol currency = currency /\
  currency_line (currency, data) =
    "• " +:+ currency +:+ Py.format_comma_2f (amount data)
      +:+ " (" +:+ Py.str_int (count data) +:+ " transactions)".
Proof.
  assert (H : currency_symbol currency = currency).
  { unfold currency_symbol. now destruct (existsb _ _). }
  split; [exact H|]. unfold currency_line. now rewrite H.
Qed.

(** *** Text *)

Lemma append_assoc (s t u : string) : (s +:+ t) +:+ u = s +:+ t +:+ u.
Proof. induction s as [|c s IH]; [reflexivity|]. exact (f_equal (String c) IH). Qed.

Lemma append_nil_r (s : string) : s +:+ "" = s.
Proof. induction s as [|c s IH]; [reflexivity|]. exact (f_equal (String c) IH). Qed.

Lemma append_nonempty (s t : string) : t <> "" -> s +:+ t <> "".
Proof. destruct s; [trivial | discriminate]. Qed.

Lemma contains_refl (s : string) : Py.contains s s.
Proof. exists "", "". symmetry. exact (append_nil_r s). Qed.

Lemma contains_start (sub post : string) : Py.contains (sub +:+ post) sub.
Proof. now exists "", post. Qed.

Lemma contains_skip (a t sub : string) :
  Py.contains t sub -> Py.contains (a +:+ t) sub.
Proof.
  intros (pre & post & ->). exists (a +:+ pre), post. now rewrite append_assoc.
Qed.

Lemma contains_left (t b sub : string) :
  Py.contains t sub -> Py.contains (t +:+ b) sub.
Proof.
  intros (pre & post & ->). exists pre, (post +:+ b). now rewrite !append_assoc.
Qed.

Lemma contains_trans (s t u : string) :
  Py.contains s t -> Py.contains t u -> Py.contains s u.
Proof.
  intros (pre & post & ->) Htu. now apply contains_skip, contains_left.
Qed.

Lemma contains_join sep parts p :
  In p parts -> Py.contains (Py.join sep parts) p.
Proof.
  induction parts as [|q [|q' rest] IH]; [intros [] | |].
  - intros [->|[]]. apply contains_refl.
  - intros [->|Hin].
    + apply contains_start.
    + change (Py.join sep (q :: q' :: rest))
        with (q +:+ sep +:+ Py.join sep (q' :: rest)).
      now apply contains_skip, contains_skip, IH.
Qed.

(** *** [strip] *)

Lemma rstrip_app (s t : string) :
  Py.rstrip t <> "" -> Py.rstrip (s +:+ t) = s +:+ Py.rstrip t.
Proof.
  intros Ht. induction s as [|c s IH]; [reflexivity|].
  change (match Py.rstrip (s +:+ t) with
          | EmptyString => if Py.isspace c then EmptyString else String c EmptyString
          | r => String c r
          end = String c (s +:+ Py.rstrip t)).
  rewrite IH.
  destruct (s +:+ Py.rstrip t) eqn:E; [|reflexivity].
  now apply append_nonempty in E.
Qed.

Lemma rstrip_app_nonempty (s t : string) :
  Py.rstrip t <> "" -> Py.rstrip (s +:+ t) <> "".
Proof. intros Ht. rewrite rstrip_app by exact Ht. now apply append_nonempty. Qed.

Lemma lstrip_nl (s : string) : Py.lstrip (Py.nl +:+ s) = Py.lstrip s.
Proof. reflexivity. Qed.

Lemma lstrip_title shift_number (rest : string) :
  Py.lstrip (title_line shift_number +:+ rest) = title_line shift_number +:+ rest.
Proof. reflexivity. Qed.

Lemma rstrip_footer : Py.rstrip (footer_line +:+ Py.nl +:+ closing_indent) = footer_line.
Proof. reflexivity. Qed.

Ltac tail_nonempty :=
  lazymatch goal with
  | |- Py.rstrip (footer_line +:+ _) <> "" => rewrite rstrip_footer; discriminate
  | |- Py.rstrip (_ +:+ _) <> "" => apply rstrip_app_nonempty; tail_nonempty
  end.

Lemma summary_message_text shift_number summary :
  summary_message shift_number summary =
  if 0 <? transaction_count summary
  then message_with_transactions shift_number summary
  else message_without_transactions shift_number.
Proof.
  unfold summary_message, Py.strip, message_with_transactions,
    message_without_transactions.
  destruct (0 <? transaction_count summary).
  - rewrite lstrip_nl, lstrip_title.
    rewrite !rstrip_app by tail_nonempty. now rewrite rstrip_footer.
  - rewrite lstrip_nl, lstrip_title.
    rewrite !rstrip_app by tail_nonempty. now rewrite rstrip_footer.
Qed.

Ltac find_part :=
  repeat first [ exact (contains_refl _) | apply contains_start | apply contains_skip ].

(** * Properties of the scheduler under run-time checks *)

(** ** What a computation raises *)

Lemma raises_only_ret {S A} P (a : A) : Dynamic.raises_only P (@ret S A a).
Proof. intros w e w' H. discriminate. Qed.

Lemma raises_only_raise {S A} (P : Exception -> Prop) e :
  P e -> Dynamic.raises_only P (@raise S A e).
Proof. intros He w e' w' [= <- _]. exact He. Qed.

Lemma raises_only_bind {S A B} P (m : M S A) (k : A -> M S B) :
  Dynamic.raises_only P m -> (forall a, Dynamic.raises_only P (k a)) ->
  Dynamic.raises_only P (x <- m ;; k x).
Proof.
  intros Hm Hk w e w'. unfold bind.
  destruct (m w) as [[a|e1] w1] eqn:E.
  - apply Hk.
  - intros [= <- <-]. exact (Hm _ _ _ E).
Qed.

Lemma raises_only_ret_bind {S A B} P (a : A) (k : A -> M S B) :
  Dynamic.raises_only P (k a) -> Dynamic.raises_only P (x <- ret a ;; k x).
Proof. intros H w e w' E. exact (H w e w' E). Qed.

Lemma raises_only_raise_bind {S A B} (P : Exception -> Prop) e (k : A -> M S B) :
  P e -> Dynamic.raises_only P (x <- raise e ;; k x).
Proof. intros He w e' w' [= <- _]. exact He. Qed.

Lemma raises_only_for_each {S A} P (l : list A) (body : A -> M S unit) :
  (forall x, Dynamic.raises_only P (body x)) -> Dynamic.raises_only P (for_each l body).
Proof.
  intros Hb. induction l as [|x l IH]; simpl.
  - apply raises_only_ret.
  - apply raises_only_bind; [apply Hb | intros _; apply IH].
Qed.

Lemma raises_only_comprehension {S A B} P (l : list A) (f : A -> M S B) :
  (forall x, Dynamic.raises_only P (f x)) -> Dynamic.raises_only P (comprehension l f).
Proof.
  intros Hf. induction l as [|x l IH]; simpl.
  - apply raises_only_ret.
  - apply raises_only_bind; [apply Hf | intros y].
    apply raises_only_bind; [apply IH | intros ys; apply raises_only_ret].
Qed.

(** A computation that returns raises nothing. *)
Lemma returns_raises_only {S A} P (m : M S A) : returns m -> Dynamic.raises_only P m.
Proof. intros Hm w e w' E. destruct (Hm w) as (a & w1 & E1). congruence. Qed.

(** A computation that raises nothing returns. *)
Lemma raises_nothing_returns {S A} (m : M S A) :
  Dynamic.raises_only (fun _ => False) m -> returns m.
Proof.
  intros Hm w. destruct (m w) as [[a|e] w1] eqn:E; [now exists a, w1|].
  destruct (Hm _ _ _ E).
Qed.

(** What passes an [except Exception] whose handler returns is no instance
    of [Exception]. *)
Lemma except_Exception_passes {S A} (body : M S A) (handler : Exception -> M S A) :
  (forall e, returns (handler e)) ->
  Dynamic.raises_only (fun e => Dynamic.is_Exception e = false)
    (Dynamic.except_Exception body handler).
Proof.
  intros Hh w e w'. unfold Dynamic.except_Exception.
  destruct (body w) as [[a|e1] w1]; [discriminate|].
  destruct (Dynamic.is_Exception e1) eqn:He.
  - intros E. destruct (Hh e1 w1) as (a & w2 & E2). congruence.
  - intros [= <- <-]. exact He.
Qed.

(** A body that raises instances of [Exception] only, under a handler that
    returns: the whole [try] returns. *)
Lemma returns_except_Exception {S A} (body : M S A) (handler : Exception -> M S A) :
  Dynamic.raises_only (fun e => Dynamic.is_Exception e = true) body ->
  (forall e, returns (handler e)) ->
  returns (Dynamic.except_Exception body handler).
Proof.
  intros Hb Hh w. unfold Dynamic.except_Exception.
  destruct (body w) as [[a|e] w1] eqn:E; [now exists a, w1|].
  rewrite (Hb _ _ _ E). apply Hh.
Qed.

Lemma raises_only_subscript {S A} (value : option A) key :
  Dynamic.raises_only (fun e => Dynamic.is_Exception e = true)
    (@Dynamic.subscript S A value key).
Proof.
  destruct value; [apply raises_only_ret | now apply raises_only_raise].
Qed.

Lemma raises_only_currency_line entry :
  Dynamic.raises_only (fun e => Dynamic.is_Exception e = true)
    (Dynamic.currency_line entry).
Proof.
  destruct entry as [currency data]. unfold Dynamic.currency_line.
  apply raises_only_bind; [apply raises_only_subscript | intros a].
  apply raises_only_bind; [apply raises_only_subscript | intros c].
  apply raises_only_ret.
Qed.

(** Formatting raises instances of [Exception] only. *)
Lemma raises_only_summary_message shift_number summary :
  Dynamic.raises_only (fun e => Dynamic.is_Exception e = true)
    (Dynamic.summary_message shift_number summary).
Proof.
  unfold Dynamic.summary_message.
  apply raises_only_bind; [apply raises_only_subscript | intros n].
  destruct (0 <? n); [|apply raises_only_ret].
  apply raises_only_bind; [apply raises_only_subscript | intros items].
  apply raises_only_bind;
    [apply raises_only_comprehension, raises_only_currency_line | intros lines].
  apply raises_only_bind; [apply raises_only_subscript | intros n'].
  apply raises_only_bind; [apply raises_only_subscript | intros total].
  apply raises_only_ret.
Qed.

Section DynamicSteps.

Context {Store Net : Type}.
Variable self : Dynamic.AutoCloseScheduler Store Net.
Variable format_exc : Exception -> string.
Variable stop_requested : nat -> bool.

Lemma raises_only_getitem d key :
  Dynamic.raises_only (fun e => Dynamic.is_Exception e = true)
    (@getitem Store Net d key).
Proof.
  unfold getitem. destruct (d !! key); [apply raises_only_ret | now apply raises_only_raise].
Qed.

Lemma raises_only_await {A} P (op : M (World Store Net) A) :
  Dynamic.raises_only P op -> Dynamic.raises_only P (await stop_requested op).
Proof.
  intros Hop w e w'. unfold await.
  destruct (op w) as [r w1] eqn:E. destruct (suspend stop_requested w1) as [u w2].
  intros [= -> <-]. exact (Hop _ _ _ E).
Qed.

Lemma raises_only_on_store {A} P (method : Store -> Outcome A * Store) :
  Dynamic.raises_only P method -> Dynamic.raises_only P (@Dynamic.on_store Store Net A method).
Proof.
  intros Hm w e w'. unfold Dynamic.on_store.
  destruct (method (store w)) as [r s] eqn:E. intros [= -> <-]. exact (Hm _ _ _ E).
Qed.

Lemma raises_only_on_net {A} P (method : Net -> Outcome A * Net) :
  Dynamic.raises_only P method -> Dynamic.raises_only P (@Dynamic.on_net Store Net A method).
Proof.
  intros Hm w e w'. unfold Dynamic.on_net.
  destruct (method (net w)) as [r s] eqn:E. intros [= -> <-]. exact (Hm _ _ _ E).
Qed.

Lemma raises_only_pure {A} P (m : M unit A) :
  Dynamic.raises_only P m -> Dynamic.raises_only P (@Dynamic.pure Store Net A m).
Proof.
  intros Hm w e w'. unfold Dynamic.pure.
  destruct (m tt) as [r []] eqn:E. simpl. intros [= -> <-]. exact (Hm _ _ _ E).
Qed.

Lemma returns_log_twice (line1 line2 : string) :
  returns (@force_log Store Net line1 ;; force_log line2).
Proof. apply returns_bind; [apply returns_force_log | intros _; apply returns_force_log]. Qed.

(** *** What leaves the coroutines is no instance of [Exception] *)

Lemma send_shift_summary_passes shift_info :
  Dynamic.raises_only (fun e => Dynamic.is_Exception e = false)
    (Dynamic._send_shift_summary self format_exc stop_requested shift_info).
Proof.
  apply raises_only_bind; [apply returns_raises_only, returns_emit | intros _].
  apply except_Exception_passes. intros e. apply returns_log_twice.
Qed.

Lemma check_auto_close_shifts_passes :
  Dynamic.raises_only (fun e => Dynamic.is_Exception e = false)
    (Dynamic.check_auto_close_shifts self format_exc stop_requested).
Proof.
  apply raises_only_bind; [apply returns_raises_only, returns_emit | intros _].
  apply raises_only_bind; [apply returns_raises_only, returns_force_log | intros _].
  apply except_Exception_passes. intros e. apply returns_log_twice.
Qed.

Lemma loop_body_passes :
  Dynamic.raises_only (fun e => Dynamic.is_Exception e = false)
    (Dynamic.loop_body self format_exc stop_requested).
Proof.
  apply except_Exception_passes. intros e.
  apply returns_bind; [apply returns_force_log | intros _; apply returns_asyncio_sleep].
Qed.

Lemma while_is_running_passes fuel (w : World Store Net) e w' :
  Dynamic.while_is_running self format_exc stop_requested fuel w = Some (Raised e, w') ->
  Dynamic.is_Exception e = false.
Proof.
  revert w. induction fuel as [|fuel IH]; intros w; [discriminate|].
  simpl. destruct (is_running w); [|discriminate].
  destruct (Dynamic.loop_body self format_exc stop_requested w) as [[[]|e1] w1] eqn:E.
  - apply IH.
  - intros [= <- <-]. exact (loop_body_passes _ _ _ E).
Qed.

(** *** With collaborators that raise instances of [Exception] only *)

Hypothesis Herrors : Dynamic.errors_only self.

Lemma raises_only_call_send_message chat_id message :
  Dynamic.raises_only (fun e => Dynamic.is_Exception e = true)
    (Dynamic.call_send_message self stop_requested chat_id message).
Proof using Herrors.
  destruct Herrors as (_ & _ & Hsend).
  unfold Dynamic.call_send_message, Dynamic.getattr_send_message.
  destruct (Dynamic.bot_service self) as [bot|] eqn:Hbot.
  - destruct (Dynamic.send_message bot) as [method|] eqn:Hm.
    + apply raises_only_ret_bind.
      apply raises_only_bind; [apply returns_raises_only, returns_emit | intros _].
      apply raises_only_await, raises_only_on_net. now apply (Hsend bot).
    + now apply raises_only_raise_bind.
  - now apply raises_only_raise_bind.
Qed.

Lemma send_shift_summary_returns_on_errors shift_info :
  returns (Dynamic._send_shift_summary self format_exc stop_requested shift_info).
Proof using Herrors.
  apply returns_bind; [apply returns_emit | intros _].
  apply returns_except_Exception; [|intros e; apply returns_log_twice].
  apply raises_only_bind; [apply raises_only_getitem | intros chat_id].
  apply raises_only_bind; [apply raises_only_getitem | intros shift_id].
  apply raises_only_bind; [apply raises_only_getitem | intros shift_number].
  apply raises_only_bind; [| intros summary].
  { apply raises_only_bind; [apply returns_raises_only, returns_emit | intros _].
    apply raises_only_await, raises_only_on_store. apply Herrors. }
  apply raises_only_bind;
    [apply raises_only_pure, raises_only_summary_message | intros message].
  apply raises_only_bind; [apply raises_only_call_send_message | intros success].
  destruct success; apply returns_raises_only, returns_force_log.
Qed.

Lemma check_auto_close_shifts_returns_on_errors :
  returns (Dynamic.check_auto_close_shifts self format_exc stop_requested).
Proof using Herrors.
  apply returns_bind; [apply returns_emit | intros _].
  apply returns_bind; [apply returns_force_log | intros _].
  apply returns_except_Exception; [|intros e; apply returns_log_twice].
  apply raises_only_bind; [| intros closed].
  { apply raises_only_bind; [apply returns_raises_only, returns_emit | intros _].
    apply raises_only_await, raises_only_on_store. apply Herrors. }
  destruct closed as [|shift closed]; [apply returns_raises_only, returns_force_log|].
  apply raises_only_bind;
    [apply raises_only_comprehension; intros s; apply raises_only_getitem | intros ids].
  apply raises_only_bind; [apply returns_raises_only, returns_force_log | intros _].
  apply raises_only_for_each. intros s. unfold Dynamic.notify_closed_shift.
  apply raises_only_bind; [apply raises_only_getitem | intros shift_id].
  apply raises_only_bind; [apply raises_only_getitem | intros chat_id].
  apply raises_only_bind; [apply returns_raises_only, returns_force_log | intros _].
  destruct (Dynamic.bot_service self).
  - apply returns_raises_only, send_shift_summary_returns_on_errors.
  - apply raises_only_ret.
Qed.

Lemma loop_body_returns_on_errors :
  returns (Dynamic.loop_body self format_exc stop_requested).
Proof using Herrors.
  apply returns_except_Exception.
  - apply returns_raises_only, returns_bind;
      [apply check_auto_close_shifts_returns_on_errors
      | intros _; apply returns_asyncio_sleep].
  - intros e.
    apply returns_bind; [apply returns_force_log | intros _; apply returns_asyncio_sleep].
Qed.

Lemma while_is_running_never_raises_on_errors fuel (w : World Store Net) e w' :
  Dynamic.while_is_running self format_exc stop_requested fuel w <> Some (Raised e, w').
Proof using Herrors.
  revert w. induction fuel as [|fuel IH]; intros w; [discriminate|].
  simpl. destruct (is_running w); [|discriminate].
  destruct (loop_body_returns_on_errors w) as ([] & w1 & ->). apply IH.
Qed.

End DynamicSteps.

(** C7, as amended: when the close operation, the summary fetch and the send
    raise instances of [Exception] only, no exception leaves the scheduler:
    the notification of any record returns, the check cycle returns, the
    turn of the loop returns, and neither the loop nor [start_scheduler]
    ends with a raised exception, for any number of turns.  An error of the
    formatting or of the lookup of [send_message] is an instance of
    [Exception] and is caught with them. *)
Theorem no_error_escapes {Store Net} (self : Dynamic.AutoCloseScheduler Store Net)
    (format_exc : Exception -> string) (stop_requested : nat -> bool) :
  Dynamic.errors_only self ->
  (forall shift (w : World Store Net),
     exists w', Dynamic._send_shift_summary self format_exc stop_requested shift w
                = (Returned tt, w')) /\
  (forall w : World Store Net,
     exists w', Dynamic.check_auto_close_shifts self format_exc stop_requested w
                = (Returned tt, w')) /\
  (forall w : World Store Net,
     exists w', Dynamic.loop_body self format_exc stop_requested w = (Returned tt, w')) /\
  (forall fuel (w : World Store Net) e w',
     Dynamic.while_is_running self format_exc stop_requested fuel w
     <> Some (Raised e, w')) /\
  (forall fuel (w : World Store Net) e w',
     Dynamic.start_scheduler self format_exc stop_requested fuel w
     <> Some (Raised e, w')).
Proof.
  intros Herrors. split; [|split; [|split; [|split]]].
  - intros shift w.
    destruct (send_shift_summary_returns_on_errors self format_exc stop_requested
                Herrors shift w) as ([] & w' & E). now exists w'.
  - intros w.
    destruct (check_auto_close_shifts_returns_on_errors self format_exc stop_requested
                Herrors w) as ([] & w' & E). now exists w'.
  - intros w.
    destruct (loop_body_returns_on_errors self format_exc stop_requested Herrors w)
      as ([] & w' & E). now exists w'.
  - intros fuel w e w'. now apply while_is_running_never_raises_on_errors.
  - intros fuel w e w'. unfold Dynamic.start_scheduler.
    rewrite run_bind. cbn [set_is_running]. rewrite run_force_log.
    now apply while_is_running_never_raises_on_errors.
Qed.

(** C7 as stated fails: a close operation that is cancelled at its await
    raises [CancelledError], which no [except Exception] catches; it leaves
    the check cycle, the turn of the loop and [start_scheduler], with the
    flag still set. *)
Lemma cancelled_close_leaves_the_scheduler :
  ~ Dynamic.no_exception_propagates DynamicDemo.cancelled_scheduler Demo.format_exc
      Demo.never /\
  Dynamic.loop_body DynamicDemo.cancelled_scheduler Demo.format_exc Demo.never
    (mkWorld [] [] true [] [] 0)
  = (Raised Dynamic.CancelledError,
     mkWorld [] [] true ["Starting auto-close shift check..."]
       [ev_check_auto_close_shifts; ev_check_and_auto_close_shifts] 1) /\
  Dynamic.start_scheduler DynamicDemo.cancelled_scheduler Demo.format_exc Demo.never 1
    (Demo.world [])
  = Some (Raised Dynamic.CancelledError,
          mkWorld [] [] true
            ["Auto-close scheduler started - will run every minute";
             "Starting auto-close shift check..."]
            [ev_check_auto_close_shifts; ev_check_and_auto_close_shifts] 1).
Proof.
  split; [|split; reflexivity].
  intros H. destruct (H (mkWorld [] [] true [] [] 0)) as (w' & E). discriminate E.
Qed.

(** ** The message under run-time checks *)

Example format_negative_zero : Dynamic.format_comma_2f Dynamic.negative_zero = "-0.00".
Proof. reflexivity. Qed.

Example format_small_negative :
  Dynamic.format_comma_2f (Dynamic.finite (-0.001)%Q) = "-0.00".
Proof. reflexivity. Qed.

Example format_not_finite :
  map Dynamic.format_comma_2f
    [Dynamic.infinity Dynamic.a_float false; Dynamic.infinity Dynamic.a_float true;
     Dynamic.nan Dynamic.a_float true; Dynamic.infinity Dynamic.a_Decimal true;
     Dynamic.nan Dynamic.a_Decimal false]
  = ["inf"; "-inf"; "nan"; "-Infinity"; "NaN"].
Proof. reflexivity. Qed.

Lemma join_line_feed lines : Py.join Py.nl lines = Dynamic.expected_lines lines.
Proof.
  induction lines as [|line [|line' rest] IH]; [reflexivity | reflexivity |].
  change (line +:+ Py.nl +:+ Py.join Py.nl (line' :: rest)
          = line +:+ Dynamic.line_feed +:+ Dynamic.expected_lines (line' :: rest)).
  now rewrite IH.
Qed.

Lemma contains_expected_lines lines line :
  In line lines -> Py.contains (Dynamic.expected_lines lines) line.
Proof. rewrite <- join_line_feed. apply contains_join. Qed.

(** The breakdown of a summary whose entries all have their amount and
    their count. *)
Lemma run_currency_lines items :
  forallb Dynamic.complete_entry items = true ->
  comprehension items Dynamic.currency_line tt
  = (Returned (map Dynamic.expected_entry_line items), tt).
Proof.
  induction items as [|[currency [[a|] [k|]]] items IH]; try discriminate.
  - reflexivity.
  - intros Hall. cbn [forallb Dynamic.complete_entry] in Hall. specialize (IH Hall).
    cbn [comprehension]. rewrite run_bind.
    assert (Hline : Dynamic.currency_line
                      (currency, Dynamic.mkCurrencyData (Some a) (Some k)) tt
                    = (Returned (Dynamic.expected_entry_line
                                   (currency, Dynamic.mkCurrencyData (Some a) (Some k))),
                       tt)).
    { unfold Dynamic.currency_line, Dynamic.expected_entry_line,
        Dynamic.expected_currency_line.
      cbn [Dynamic.amount Dynamic.count Dynamic.subscript fst snd from_option].
      rewrite !run_bind. cbn [ret].
      now destruct (existsb _ _). }
    rewrite Hline, run_bind, IH. reflexivity.
Qed.

Lemma lstrip_opening (rest : string) :
  Py.lstrip ("
🔒 **វេន #" +:+ rest) = "🔒 **វេន #" +:+ rest.
Proof. reflexivity. Qed.

Lemma rstrip_closing :
  Py.rstrip "

⚡ បិទដោយ: ការកំណត់ពេលវេលាស្វ័យប្រវត្តិ
                " = "

⚡ បិទដោយ: ការកំណត់ពេលវេលាស្វ័យប្រវត្តិ".
Proof. reflexivity. Qed.

Lemma rstrip_closing_without :
  Py.rstrip " បានបិទដោយស្វ័យប្រវត្តិ**

📊 **សរុបចំណូល:**
• មិនមានប្រតិបត្តិការ

⚡ បិទដោយ: ការកំណត់ពេលវេលាស្វ័យប្រវត្តិ
                " = " បានបិទដោយស្វ័យប្រវត្តិ**

📊 **សរុបចំណូល:**
• មិនមានប្រតិបត្តិការ

⚡ បិទដោយ: ការកំណត់ពេលវេលាស្វ័យប្រវត្តិ".
Proof. reflexivity. Qed.

Ltac closing_nonempty :=
  lazymatch goal with
  | |- Py.rstrip (_ +:+ _) <> "" => apply rstrip_app_nonempty; closing_nonempty
  | |- Py.rstrip _ <> "" =>
      first [rewrite rstrip_closing | rewrite rstrip_closing_without]; discriminate
  end.

(** The message of a summary with transactions, all of whose keys are there. *)
Lemma run_summary_message_with shift_number summary n items total :
  Dynamic.transaction_count summary = Some n -> 0 < n ->
  Dynamic.currencies summary = Some items ->
  Dynamic.total_amount summary = Some total ->
  forallb Dynamic.complete_entry items = true ->
  Dynamic.summary_message shift_number summary tt
  = (Returned
       (Dynamic.expected_with_transactions shift_number
          (map Dynamic.expected_entry_line items) (Py.str_int n)
          (Dynamic.format_comma_2f total)),
     tt).
Proof.
  intros Hn Hpos Hitems Htotal Hall. unfold Dynamic.summary_message.
  rewrite Hn, Hitems, Htotal. cbn [Dynamic.subscript].
  rewrite run_bind. cbn [ret]. apply Z.ltb_lt in Hpos. rewrite Hpos.
  rewrite run_bind. cbn [ret].
  rewrite run_bind, (run_currency_lines items Hall).
  repeat (rewrite run_bind; cbn [ret]). f_equal. f_equal.
  unfold Py.strip. rewrite lstrip_opening.
  rewrite !rstrip_app by closing_nonempty. rewrite rstrip_closing.
  rewrite join_line_feed.
  unfold Dynamic.expected_with_transactions, Dynamic.expected_title.
  rewrite !append_assoc. reflexivity.
Qed.

(** The message of a summary without transactions: only the count is read. *)
Lemma run_summary_message_without shift_number summary n :
  Dynamic.transaction_count summary = Some n -> n <= 0 ->
  Dynamic.summary_message shift_number summary tt
  = (Returned (Dynamic.expected_without_transactions shift_number), tt).
Proof.
  intros Hn Hnone. unfold Dynamic.summary_message.
  rewrite Hn. cbn [Dynamic.subscript].
  rewrite run_bind. cbn [ret]. apply Z.ltb_ge in Hnone. rewrite Hnone.
  cbn [ret]. f_equal. f_equal.
  unfold Py.strip. rewrite lstrip_opening.
  rewrite !rstrip_app by closing_nonempty. rewrite rstrip_closing_without.
  unfold Dynamic.expected_without_transactions, Dynamic.expected_title.
  rewrite !append_assoc. reflexivity.
Qed.

Lemma contains_start_two (a b rest : string) :
  Py.contains (a +:+ b +:+ rest) (a +:+ b).
Proof. rewrite <- append_assoc. apply contains_start. Qed.

Lemma expected_entry_line_complete currency a k :
  Dynamic.expected_entry_line (currency, Dynamic.mkCurrencyData (Some a) (Some k))
  = "• " +:+ currency +:+ Dynamic.format_comma_2f a
      +:+ " (" +:+ Py.str_int k +:+ " transactions)".
Proof. reflexivity. Qed.

(** C5: the message for a shift number and a summary that has its keys.
    With a positive transaction count it is the text with the breakdown:
    one line for each entry of the currencies, made of the currency, the
    amount and the count, the lines joined by line feeds in the order of
    the entries, then the total count and the total amount.  Otherwise it
    is the text with the no-transactions line, and only the count is read.
    Both hold the title with the shift number and the footer.  For a count
    of 3 with 45.5 in 2 transactions of "$" and 1000 in 1 of the riel, the
    message is the text written out below, with both currency lines and the
    total 3. *)
Theorem summary_message_format shift_number summary n :
  Dynamic.transaction_count summary = Some n ->
  (0 < n ->
   forall items total,
     Dynamic.currencies summary = Some items ->
     Dynamic.total_amount summary = Some total ->
     forallb Dynamic.complete_entry items = true ->
     exists message,
       Dynamic.summary_message shift_number summary tt = (Returned message, tt) /\
       message =
         Dynamic.expected_with_transactions shift_number
           (map Dynamic.expected_entry_line items) (Py.str_int n)
           (Dynamic.format_comma_2f total) /\
       (forall currency a k,
          In (currency, Dynamic.mkCurrencyData (Some a) (Some k)) items ->
          Py.contains message
            ("• " +:+ currency +:+ Dynamic.format_comma_2f a
               +:+ " (" +:+ Py.str_int k +:+ " transactions)")) /\
       Py.contains message
         (Dynamic.expected_lines (map Dynamic.expected_entry_line items)) /\
       Py.contains message ("• ចំនួនប្រតិបត្តិការសរុប: " +:+ Py.str_int n) /\
       Py.contains message ("• តម្លៃសរុប: " +:+ Dynamic.format_comma_2f total) /\
       Py.contains message
         ("🔒 **វេន #" +:+ Py.str_int shift_number +:+ " បានបិទដោយស្វ័យប្រវត្តិ**") /\
       Py.contains message "⚡ បិទដោយ: ការកំណត់ពេលវេលាស្វ័យប្រវត្តិ") /\
  (n <= 0 ->
   exists message,
     Dynamic.summary_message shift_number summary tt = (Returned message, tt) /\
     message = Dynamic.expected_without_transactions shift_number /\
     Py.contains message "• មិនមានប្រតិបត្តិការ" /\
     Py.contains message
       ("🔒 **វេន #" +:+ Py.str_int shift_number +:+ " បានបិទដោយស្វ័យប្រវត្តិ**") /\
     Py.contains message "⚡ បិទដោយ: ការកំណត់ពេលវេលាស្វ័យប្រវត្តិ") /\
  (n = 3 ->
   forall total,
     Dynamic.currencies summary
       = Some [("$", Dynamic.mkCurrencyData (Some (Dynamic.finite (45.5)%Q)) (Some 2));
               ("៛", Dynamic.mkCurrencyData (Some (Dynamic.finite 1000%Q)) (Some 1))] ->
     Dynamic.total_amount summary = Some total ->
     Dynamic.summary_message shift_number summary tt
     = (Returned
          ("🔒 **វេន #" +:+ Py.str_int shift_number +:+ " បានបិទដោយស្វ័យប្រវត្តិ**

📊 **សរុបចំណូល:**
• $45.50 (2 transactions)
• ៛1,000.00 (1 transactions)

📝 **ព័ត៌មានលម្អិត:**
• ចំនួនប្រតិបត្តិការសរុប: 3
• តម្លៃសរុប: " +:+ Dynamic.format_comma_2f total +:+ "

⚡ បិទដោយ: ការកំណត់ពេលវេលាស្វ័យប្រវត្តិ"),
        tt)).
Proof.
  intros Hn. split; [|split].
  - intros Hpos items total Hitems Htotal Hall.
    eexists. split; [exact (run_summary_message_with _ _ _ _ _ Hn Hpos Hitems Htotal Hall)|].
    split; [reflexivity|].
    assert (Hlines :
              Py.contains
                (Dynamic.expected_with_transactions shift_number
                   (map Dynamic.expected_entry_line items) (Py.str_int n)
                   (Dynamic.format_comma_2f total))
                (Dynamic.expected_lines (map Dynamic.expected_entry_line items))).
    { unfold Dynamic.expected_with_transactions. find_part. }
    split; [|split; [exact Hlines|]].
    + intros currency a k Hin.
      apply contains_trans with (1 := Hlines).
      apply contains_expected_lines, in_map_iff.
      exists (currency, Dynamic.mkCurrencyData (Some a) (Some k)).
      split; [reflexivity | exact Hin].
    + unfold Dynamic.expected_with_transactions, Dynamic.expected_title,
        Dynamic.expected_footer.
      repeat split.
      * do 10 apply contains_skip. apply contains_start_two.
      * do 13 apply contains_skip. apply contains_start_two.
      * apply contains_start.
      * find_part.
  - intros Hnone.
    eexists. split; [exact (run_summary_message_without _ _ _ Hn Hnone)|].
    split; [reflexivity|].
    unfold Dynamic.expected_without_transactions, Dynamic.expected_title,
      Dynamic.expected_footer.
    repeat split.
    + find_part.
    + apply contains_start.
    + find_part.
  - intros -> total Hitems Htotal.
    rewrite (run_summary_message_with _ _ _ _ _ Hn ltac:(lia) Hitems Htotal eq_refl).
    f_equal. f_equal.
    unfold Dynamic.expected_with_transactions, Dynamic.expected_title,
      Dynamic.expected_footer.
    rewrite !append_assoc. reflexivity.
Qed.

Lemma summary_message_format_witness :
  Dynamic.summary_message 7 DynamicDemo.summary tt
  = (Returned "🔒 **វេន #7 បានបិទដោយស្វ័យប្រវត្តិ**

📊 **សរុបចំណូល:**
• $45.50 (2 transactions)
• ៛1,000.00 (1 transactions)

📝 **ព័ត៌មានលម្អិត:**
• ចំនួនប្រតិបត្តិការសរុប: 3
• តម្លៃសរុប: 1,045.50

⚡ បិទដោយ: ការកំណត់ពេលវេលាស្វ័យប្រវត្តិ", tt).
Proof.
  destruct (summary_message_format 7 DynamicDemo.summary 3 eq_refl) as (_ & _ & H).
  exact (H eq_refl (Dynamic.finite (1045.5)%Q) eq_refl eq_refl).
Defined.

(** ** Relations the scheduler keeps, under run-time checks *)

#[global] Existing Instance Dynamic.frame_preorder.

Section DynamicFrames.

Context {Store Net : Type}.
Variable stop_requested : nat -> bool.

Global Instance emits_only_dynamic_frame (P : Event -> Prop) :
  P ev_stop_scheduler ->
  Dynamic.Frame (Store := Store) (Net := Net) stop_requested (emits_only P) P.
Proof.
  intros Hstop. split.
  - apply _.
  - intros e He w. exists [e]. split; [reflexivity | now constructor].
  - intros line w. exists []. simpl. now rewrite app_nil_r.
  - intros w. rewrite run_suspend. simpl. eexists. split; [reflexivity|].
    destruct (stop_requested (awaits w)); simpl; repeat constructor. exact Hstop.
  - intros A method w. exists []. unfold Dynamic.on_store.
    destruct (method _). simpl. now rewrite app_nil_r.
  - intros A method w. exists []. unfold Dynamic.on_net.
    destruct (method _). simpl. now rewrite app_nil_r.
Qed.

Global Instance log_grows_dynamic_frame :
  Dynamic.Frame (Store := Store) (Net := Net) stop_requested log_grows (fun _ => True).
Proof.
  split.
  - apply _.
  - intros e _ w. exists []. simpl. now rewrite app_nil_r.
  - intros line w. now exists [line].
  - intros w. rewrite run_suspend. simpl. now eexists.
  - intros A method w. exists []. unfold Dynamic.on_store.
    destruct (method _). simpl. now rewrite app_nil_r.
  - intros A method w. exists []. unfold Dynamic.on_net.
    destruct (method _). simpl. now rewrite app_nil_r.
Qed.

Global Instance follows_stops_dynamic_frame :
  Dynamic.Frame (Store := Store) (Net := Net) stop_requested
    (follows_stops stop_requested)
    (fun e => e <> ev_check_auto_close_shifts /\ e <> ev_stop_scheduler).
Proof.
  split.
  - apply _.
  - intros e [Hc Hs] w. unfold follows_stops. simpl. rewrite Nat.sub_diag. simpl.
    split; [lia|]. split; [now rewrite andb_true_r|].
    exists [e]. split; [reflexivity|].
    rewrite !list_elem_of_singleton. split; [congruence|].
    split; [congruence | discriminate].
  - intros line w. now apply follows_stops_still.
  - intros w. rewrite run_suspend. unfold follows_stops. simpl.
    replace (S (awaits w) - awaits w)%nat with 1%nat by lia.
    unfold undisturbed. simpl. rewrite andb_true_r.
    split; [lia|]. split; [reflexivity|].
    eexists. split; [reflexivity|].
    destruct (stop_requested (awaits w)); simpl.
    + rewrite !list_elem_of_singleton. split; [discriminate | tauto].
    + split; [apply not_elem_of_nil|]. split; [intros H; inversion H | discriminate].
  - intros A method w. unfold Dynamic.on_store.
    destruct (method _). now apply follows_stops_still.
  - intros A method w. unfold Dynamic.on_net.
    destruct (method _). now apply follows_stops_still.
Qed.

End DynamicFrames.

(** ** The steps of the scheduler keep a frame *)

Section DynamicKept.

Context {Store Net : Type}.
Variable self : Dynamic.AutoCloseScheduler Store Net.
Variable format_exc : Exception -> string.
Variable stop_requested : nat -> bool.
Context (R : relation (World Store Net)) (allowed : Event -> Prop).
Context `{!Dynamic.Frame stop_requested R allowed}.

Lemma respects_except_Exception {A} (body : M (World Store Net) A) handler :
  respects R body -> (forall e, respects R (handler e)) ->
  respects R (Dynamic.except_Exception body handler).
Proof.
  intros Hb Hh w. specialize (Hb w). unfold Dynamic.except_Exception.
  destruct (body w) as [[a|e] w1]; simpl in *; [assumption|].
  destruct (Dynamic.is_Exception e); [|assumption].
  etransitivity; [eassumption | apply Hh].
Qed.

Lemma kept_by_getitem d key : respects R (@getitem Store Net d key).
Proof.
  unfold getitem. destruct (d !! key); [apply respects_ret | apply respects_raise]; apply _.
Qed.

Lemma kept_by_await {A} (op : M (World Store Net) A) :
  respects R op -> respects R (await stop_requested op).
Proof.
  intros Hop w. unfold await. specialize (Hop w).
  destruct (op w) as [r w1]. pose proof (Dynamic.frame_suspend w1) as Hs.
  destruct (suspend stop_requested w1) as [u w2]. simpl in *.
  etransitivity; eassumption.
Qed.

Lemma kept_by_asyncio_sleep seconds :
  allowed (ev_sleep seconds) -> respects R (asyncio_sleep stop_requested seconds).
Proof.
  intros He. apply respects_bind; [apply _ | now apply Dynamic.frame_emit | intros _].
  apply kept_by_await, respects_ret, _.
Qed.

Lemma kept_by_pure {A} (m : M unit A) : respects R (@Dynamic.pure Store Net A m).
Proof. intros w. unfold Dynamic.pure. simpl. reflexivity. Qed.

Lemma kept_by_call_send_message chat_id message :
  allowed (ev_send_message chat_id message) ->
  respects R (Dynamic.call_send_message self stop_requested chat_id message).
Proof.
  intros He. unfold Dynamic.call_send_message.
  apply respects_bind; [apply _ | | intros method].
  - unfold Dynamic.getattr_send_message.
    destruct (Dynamic.bot_service self) as [bot|]; [|apply respects_raise, _].
    destruct (Dynamic.send_message bot); [apply respects_ret | apply respects_raise];
      apply _.
  - apply respects_bind; [apply _ | now apply Dynamic.frame_emit | intros _].
    apply kept_by_await, Dynamic.frame_on_net.
Qed.

Hypothesis allowed_fetch : forall i c, allowed (ev_get_shift_income_summary i c).
Hypothesis allowed_send : forall c m, allowed (ev_send_message c m).

Lemma kept_by_send_shift_summary_body shift_info :
  respects R (Dynamic.send_shift_summary_body self format_exc stop_requested shift_info).
Proof using Type*.
  unfold Dynamic.send_shift_summary_body.
  apply respects_except_Exception.
  - apply respects_bind; [apply _ | apply kept_by_getitem | intros chat_id].
    apply respects_bind; [apply _ | apply kept_by_getitem | intros shift_id].
    apply respects_bind; [apply _ | apply kept_by_getitem | intros shift_number].
    apply respects_bind; [apply _ | | intros summary].
    { apply respects_bind; [apply _ | now apply Dynamic.frame_emit | intros _].
      apply kept_by_await, Dynamic.frame_on_store. }
    apply respects_bind; [apply _ | apply kept_by_pure | intros message].
    apply respects_bind; [apply _ | now apply kept_by_call_send_message | intros success].
    destruct success; apply Dynamic.frame_log.
  - intros e.
    apply respects_bind;
      [apply _ | apply Dynamic.frame_log | intros _; apply Dynamic.frame_log].
Qed.

Hypothesis allowed_attempt : forall s, allowed (ev_send_shift_summary s).

Lemma kept_by_send_shift_summary shift_info :
  respects R (Dynamic._send_shift_summary self format_exc stop_requested shift_info).
Proof using Type*.
  apply respects_bind; [apply _ | now apply Dynamic.frame_emit | intros _].
  apply kept_by_send_shift_summary_body.
Qed.

Lemma kept_by_notify_closed_shift shift :
  respects R (Dynamic.notify_closed_shift self format_exc stop_requested shift).
Proof using Type*.
  unfold Dynamic.notify_closed_shift.
  apply respects_bind; [apply _ | apply kept_by_getitem | intros shift_id].
  apply respects_bind; [apply _ | apply kept_by_getitem | intros chat_id].
  apply respects_bind; [apply _ | apply Dynamic.frame_log | intros _].
  destruct (Dynamic.bot_service self);
    [apply kept_by_send_shift_summary | apply respects_ret, _].
Qed.

Hypothesis allowed_close : allowed ev_check_and_auto_close_shifts.

Lemma kept_by_check_auto_close_shifts_body :
  respects R (Dynamic.check_auto_close_shifts_body self format_exc stop_requested).
Proof using Type*.
  unfold Dynamic.check_auto_close_shifts_body.
  apply respects_bind; [apply _ | apply Dynamic.frame_log | intros _].
  apply respects_except_Exception.
  - apply respects_bind; [apply _ | | intros closed].
    + apply respects_bind; [apply _ | now apply Dynamic.frame_emit | intros _].
      apply kept_by_await, Dynamic.frame_on_store.
    + destruct closed as [|shift rest]; [apply Dynamic.frame_log|].
      apply respects_bind; [apply _ | | intros ids].
      * apply respects_comprehension; [apply _ | intros s; apply kept_by_getitem].
      * apply respects_bind; [apply _ | apply Dynamic.frame_log | intros _].
        apply respects_for_each; [apply _ | intros s; apply kept_by_notify_closed_shift].
  - intros e.
    apply respects_bind;
      [apply _ | apply Dynamic.frame_log | intros _; apply Dynamic.frame_log].
Qed.

End DynamicKept.

(** ** Exact runs under run-time checks *)

Section DynamicRuns.

Context {Store Net : Type}.
Variable self : Dynamic.AutoCloseScheduler Store Net.
Variable format_exc : Exception -> string.
Variable stop_requested : nat -> bool.

Ltac proj := cbn [store net is_running log events awaits fst snd].

Lemma run_except_Exception_bind {S A B} (m : M S A) (k : A -> M S B)
    (handler : Exception -> M S B) w :
  Dynamic.except_Exception (x <- m ;; k x) handler w =
  match m w with
  | (Returned a, w') => Dynamic.except_Exception (k a) handler w'
  | (Raised e, w') => if Dynamic.is_Exception e then handler e w' else (Raised e, w')
  end.
Proof. unfold Dynamic.except_Exception, bind. now destruct (m w) as [[a|e] w']. Qed.

Lemma run_dynamic_close (w : World Store Net) :
  Dynamic.call_check_and_auto_close_shifts self stop_requested w =
  let (r, s) :=
    Dynamic.check_and_auto_close_shifts (Dynamic.shift_service self) (store w) in
  let b := stop_requested (awaits w) in
  (r, mkWorld s (net w) (is_running w && negb b) (log w ++ stop_lines b)
              (events w ++ ev_check_and_auto_close_shifts :: stop_events b)
              (S (awaits w))).
Proof.
  unfold Dynamic.call_check_and_auto_close_shifts, await, Dynamic.on_store.
  rewrite run_bind, run_emit. proj.
  destruct (Dynamic.check_and_auto_close_shifts _ _) as [r s].
  rewrite run_suspend. proj. now rewrite <- app_assoc.
Qed.

Lemma run_dynamic_summary shift_id chat_id (w : World Store Net) :
  Dynamic.call_get_shift_income_summary self stop_requested shift_id chat_id w =
  let (r, s) :=
    Dynamic.get_shift_income_summary (Dynamic.shift_service self) shift_id chat_id
      (store w) in
  let b := stop_requested (awaits w) in
  (r, mkWorld s (net w) (is_running w && negb b) (log w ++ stop_lines b)
              (events w ++ ev_get_shift_income_summary shift_id chat_id
                 :: stop_events b)
              (S (awaits w))).
Proof.
  unfold Dynamic.call_get_shift_income_summary, await, Dynamic.on_store.
  rewrite run_bind, run_emit. proj.
  destruct (Dynamic.get_shift_income_summary _ _ _ _) as [r s].
  rewrite run_suspend. proj. now rewrite <- app_assoc.
Qed.

Lemma run_dynamic_send bot method chat_id message (w : World Store Net) :
  Dynamic.bot_service self = Some bot -> Dynamic.send_message bot = Some method ->
  Dynamic.call_send_message self stop_requested chat_id message w =
  let (r, n) := method chat_id message (net w) in
  let b := stop_requested (awaits w) in
  (r, mkWorld (store w) n (is_running w && negb b) (log w ++ stop_lines b)
              (events w ++ ev_send_message chat_id message :: stop_events b)
              (S (awaits w))).
Proof.
  intros Hbot Hm.
  unfold Dynamic.call_send_message, Dynamic.getattr_send_message, await, Dynamic.on_net.
  rewrite Hbot, Hm. rewrite run_bind. cbn [ret]. rewrite run_bind, run_emit. proj.
  destruct (method _ _ _) as [r n].
  rewrite run_suspend. proj. now rewrite <- app_assoc.
Qed.

(** The lookup of [send_message] on an object that has none: it raises, and
    nothing is called or awaited. *)
Lemma run_dynamic_send_missing bot chat_id message (w : World Store Net) :
  Dynamic.bot_service self = Some bot -> Dynamic.send_message bot = None ->
  Dynamic.call_send_message self stop_requested chat_id message w =
  (Raised (AttributeError ("'" +:+ Dynamic.class_name bot
                           +:+ "' object has no attribute 'send_message'")), w).
Proof.
  intros Hbot Hm. unfold Dynamic.call_send_message, Dynamic.getattr_send_message.
  now rewrite Hbot, Hm.
Qed.

Lemma run_dynamic_send_none chat_id message (w : World Store Net) :
  Dynamic.bot_service self = None ->
  Dynamic.call_send_message self stop_requested chat_id message w =
  (Raised (AttributeError "'NoneType' object has no attribute 'send_message'"), w).
Proof.
  intros Hbot. unfold Dynamic.call_send_message, Dynamic.getattr_send_message.
  now rewrite Hbot.
Qed.

Ltac trace_facts :=
  repeat match goal with
         | |- context [stop_events (stop_requested ?n)] =>
             destruct (stop_requested n)
         end;
  cbn [stop_events app attempts fetches sends closes cycles length fst];
  repeat split; repeat constructor; try easy.

(** The start of a notification of a well-formed record, up to the fetch. *)
Lemma run_dynamic_notification_start shift i c n (w : World Store Net) :
  shift !! "id" = Some i -> shift !! "chat_id" = Some c -> shift !! "number" = Some n ->
  Dynamic._send_shift_summary self format_exc stop_requested shift w =
  let b := stop_requested (awaits w) in
  let handler := fun e : Exception =>
    force_log ("Error sending shift summary for shift "
               +:+ Py.str_int i +:+ ": " +:+ exc_str e) ;;
    force_log ("Shift summary error traceback: " +:+ format_exc e) in
  match Dynamic.get_shift_income_summary (Dynamic.shift_service self) i c (store w) with
  | (Returned summary, s) =>
      Dynamic.except_Exception
        (message <- Dynamic.pure (Dynamic.summary_message n summary) ;;
         success <- Dynamic.call_send_message self stop_requested c message ;;
         if success : bool then
           force_log ("Sent shift summary for shift " +:+ Py.str_int i
                      +:+ " to chat " +:+ Py.str_int c)
         else
           force_log ("Failed to send shift summary for shift " +:+ Py.str_int i
                      +:+ " to chat " +:+ Py.str_int c))
        handler
        (mkWorld s (net w) (is_running w && negb b) (log w ++ stop_lines b)
           (events w ++ ev_send_shift_summary shift
              :: ev_get_shift_income_summary i c :: stop_events b)
           (S (awaits w)))
  | (Raised e, s) =>
      let w1 := mkWorld s (net w) (is_running w && negb b) (log w ++ stop_lines b)
                  (events w ++ ev_send_shift_summary shift
                     :: ev_get_shift_income_summary i c :: stop_events b)
                  (S (awaits w)) in
      if Dynamic.is_Exception e then handler e w1 else (Raised e, w1)
  end.
Proof.
  intros Hi Hc Hn.
  unfold Dynamic._send_shift_summary, Dynamic.send_shift_summary_body.
  rewrite run_bind, run_emit.
  rewrite run_except_Exception_bind, (run_getitem _ _ _ _ Hc).
  rewrite run_except_Exception_bind, (run_getitem _ _ _ _ Hi).
  rewrite run_except_Exception_bind, (run_getitem _ _ _ _ Hn).
  rewrite run_except_Exception_bind, run_dynamic_summary. proj.
  unfold get_or. rewrite Hi.
  destruct (Dynamic.get_shift_income_summary _ _ _ _) as [[summary|e] s];
    cbv zeta; now rewrite <- !app_assoc.
Qed.

End DynamicRuns.

(** ** One notification under run-time checks *)

Section DynamicNotifications.

Context {Store Net : Type}.
Variable self : Dynamic.AutoCloseScheduler Store Net.
Variable format_exc : Exception -> string.
Variable stop_requested : nat -> bool.

Ltac proj := cbn [store net is_running log events awaits fst snd].

Ltac trace_facts :=
  repeat match goal with
         | |- context [stop_events (stop_requested ?n)] =>
             destruct (stop_requested n)
         end;
  cbn [stop_events app attempts fetches sends closes cycles length fst];
  repeat split; repeat constructor; try easy.

(** The notification of a well-formed record, with collaborators that raise
    instances of [Exception] only: it returns, it logs the line that reports
    how it ended, and after the fetch its trace holds no attempt, no fetch
    and at most one send. *)
Lemma dynamic_send_shift_summary_run shift i c n (w : World Store Net) :
  Dynamic.errors_only self ->
  shift !! "id" = Some i -> shift !! "chat_id" = Some c -> shift !! "number" = Some n ->
  exists w' lines es,
    Dynamic._send_shift_summary self format_exc stop_requested shift w
      = (Returned tt, w') /\
    log w' = log w ++ lines /\
    In (report_line i c (Dynamic.notification self i c n w)) lines /\
    events w' =
      events w ++ ev_send_shift_summary shift :: ev_get_shift_income_summary i c :: es /\
    attempts es = [] /\ fetches es = [] /\ (length (sends es) <= 1)%nat /\
    closes es = 0%nat /\ cycles es = 0%nat.
Proof.
  intros (_ & Hfetch & Hsend) Hi Hc Hn.
  rewrite (run_dynamic_notification_start self format_exc stop_requested
             shift i c n w Hi Hc Hn).
  unfold Dynamic.notification. cbv zeta.
  pose (b1 := stop_requested (awaits w)). pose (b2 := stop_requested (S (awaits w))).
  destruct (Dynamic.get_shift_income_summary _ _ _ _) as [[summary|e] s] eqn:Efetch.
  - rewrite run_except_Exception_bind. unfold Dynamic.pure at 1. proj.
    destruct (Dynamic.summary_message n summary tt) as [[message|e] []] eqn:Eformat;
      proj.
    + rewrite run_except_Exception_bind.
      destruct (Dynamic.bot_service self) as [bot|] eqn:Hbot.
      * destruct (Dynamic.send_message bot) as [method|] eqn:Hm.
        -- rewrite (run_dynamic_send self stop_requested bot method c message _ Hbot Hm).
           proj.
           destruct (method c message (net w)) as [[[]|e] n'] eqn:Esend.
           ++ unfold Dynamic.except_Exception. rewrite run_force_log. proj.
              eexists _, (stop_lines b1 ++ stop_lines b2 ++ [_]),
                (stop_events b1 ++ ev_send_message c message :: stop_events b2).
              split; [reflexivity|]. proj. subst b1 b2.
              split; [now rewrite <- !app_assoc|].
              split; [rewrite !in_app_iff; right; right; now left|].
              split; [now rewrite <- !app_assoc|]. trace_facts.
           ++ unfold Dynamic.except_Exception. rewrite run_force_log. proj.
              eexists _, (stop_lines b1 ++ stop_lines b2 ++ [_]),
                (stop_events b1 ++ ev_send_message c message :: stop_events b2).
              split; [reflexivity|]. proj. subst b1 b2.
              split; [now rewrite <- !app_assoc|].
              split; [rewrite !in_app_iff; right; right; now left|].
              split; [now rewrite <- !app_assoc|]. trace_facts.
           ++ rewrite (Hsend bot method c message eq_refl Hm _ _ _ Esend).
              rewrite run_bind, !run_force_log. proj.
              eexists _, (stop_lines b1 ++ stop_lines b2 ++ [_; _]),
                (stop_events b1 ++ ev_send_message c message :: stop_events b2).
              split; [reflexivity|]. proj. subst b1 b2.
              split; [now rewrite <- !app_assoc|].
              split; [rewrite !in_app_iff; right; right; now left|].
              split; [now rewrite <- !app_assoc|]. trace_facts.
        -- rewrite (run_dynamic_send_missing self stop_requested bot c message _ Hbot Hm).
           change (Dynamic.is_Exception (AttributeError _)) with true. cbv iota.
           rewrite run_bind, !run_force_log. proj.
           eexists _, (stop_lines b1 ++ [_; _]), (stop_events b1).
           split; [reflexivity|]. proj. subst b1 b2.
           split; [now rewrite <- !app_assoc|].
           split; [rewrite !in_app_iff; right; now left|].
           split; [reflexivity|]. trace_facts.
      * rewrite (run_dynamic_send_none self stop_requested c message _ Hbot).
        change (Dynamic.is_Exception (AttributeError _)) with true. cbv iota.
        rewrite run_bind, !run_force_log. proj.
        eexists _, (stop_lines b1 ++ [_; _]), (stop_events b1).
        split; [reflexivity|]. proj. subst b1 b2.
        split; [now rewrite <- !app_assoc|].
        split; [rewrite !in_app_iff; right; now left|].
        split; [reflexivity|]. trace_facts.
    + rewrite (raises_only_summary_message n summary _ _ _ Eformat).
      rewrite run_bind, !run_force_log. proj.
      eexists _, (stop_lines b1 ++ [_; _]), (stop_events b1).
      split; [reflexivity|]. proj. subst b1 b2.
      split; [now rewrite <- !app_assoc|].
      split; [rewrite !in_app_iff; right; now left|].
      split; [reflexivity|]. trace_facts.
  - rewrite (Hfetch i c _ _ _ Efetch).
    rewrite run_bind, !run_force_log. proj.
    eexists _, (stop_lines b1 ++ [_; _]), (stop_events b1).
    split; [reflexivity|]. proj. subst b1 b2.
    split; [now rewrite <- !app_assoc|].
    split; [rewrite !in_app_iff; right; now left|].
    split; [reflexivity|]. trace_facts.
Qed.

End DynamicNotifications.

(** ** One cycle under run-time checks *)

Section DynamicCycles.

Context {Store Net : Type}.
Variable self : Dynamic.AutoCloseScheduler Store Net.
Variable format_exc : Exception -> string.
Variable stop_requested : nat -> bool.

Ltac proj := cbn [store net is_running log events awaits fst snd].

Lemma run_dynamic_notify_closed_shift shift (w : World Store Net) :
  is_closed_shift_record shift = true ->
  Dynamic.notify_closed_shift self format_exc stop_requested shift w =
  let w1 := mkWorld (store w) (net w) (is_running w)
                    (log w ++ [closure_line shift]) (events w) (awaits w) in
  match Dynamic.bot_service self with
  | Some _ => Dynamic._send_shift_summary self format_exc stop_requested shift w1
  | None => (Returned tt, w1)
  end.
Proof.
  intros Hrec.
  destruct (closed_shift_record_keys shift Hrec) as (i & c & n & Hi & Hc & Hn).
  unfold Dynamic.notify_closed_shift.
  rewrite (run_bind_returned _ _ _ _ _ (run_getitem _ _ _ _ Hi)).
  rewrite (run_bind_returned _ _ _ _ _ (run_getitem _ _ _ _ Hc)).
  rewrite run_bind, run_force_log. unfold closure_line. rewrite Hi, Hc.
  now destruct (Dynamic.bot_service self).
Qed.

(** The loop over the closed records, with a bot service and collaborators
    that raise instances of [Exception] only: every record is attempted, in
    order, whatever the fetches, the formatting and the sends do. *)
Lemma run_dynamic_notify_all bot shifts (w : World Store Net) :
  Dynamic.errors_only self ->
  Dynamic.bot_service self = Some bot ->
  Forall (fun shift => is_closed_shift_record shift = true) shifts ->
  exists w' es lines,
    for_each shifts (Dynamic.notify_closed_shift self format_exc stop_requested) w =
      (Returned tt, w') /\
    events w' = events w ++ es /\ log w' = log w ++ lines /\
    attempts es = shifts.
Proof.
  intros Herrors Hbot Hall. revert w.
  induction Hall as [|shift shifts Hrec _ IH]; intros w.
  - exists w, [], []. rewrite !app_nil_r. repeat split; reflexivity.
  - cbn [for_each]. rewrite run_bind, (run_dynamic_notify_closed_shift _ _ Hrec), Hbot.
    cbv beta iota zeta.
    destruct (closed_shift_record_keys shift Hrec) as (i & c & n & Hi & Hc & Hn).
    destruct (dynamic_send_shift_summary_run self format_exc stop_requested shift i c n
                (mkWorld (store w) (net w) (is_running w)
                         (log w ++ [closure_line shift]) (events w) (awaits w))
                Herrors Hi Hc Hn)
      as (w1 & lines1 & es1 & E1 & El1 & _ & Ee1 & Ha1 & _).
    rewrite E1. proj. simpl in El1, Ee1.
    destruct (IH w1) as (w' & es & lines & E & Ee & El & Ha).
    exists w', (ev_send_shift_summary shift
                  :: ev_get_shift_income_summary i c :: es1 ++ es),
      (closure_line shift :: lines1 ++ lines).
    split; [exact E|].
    split; [rewrite Ee, Ee1; now rewrite <- app_assoc|].
    split; [rewrite El, El1; now rewrite <- !app_assoc|].
    cbn [attempts]. now rewrite attempts_app, Ha1, Ha.
Qed.

(** A cycle whose close operation returns records: the world in which the
    loop over them starts. *)
Lemma run_dynamic_check_closed shifts s (w w' : World Store Net) :
  shifts <> [] ->
  Dynamic.check_and_auto_close_shifts (Dynamic.shift_service self) (store w)
    = (Returned shifts, s) ->
  Forall (fun shift => is_closed_shift_record shift = true) shifts ->
  let b := stop_requested (awaits w) in
  for_each shifts (Dynamic.notify_closed_shift self format_exc stop_requested)
    (mkWorld s (net w) (is_running w && negb b)
       (log w ++ ["Starting auto-close shift check..."] ++ stop_lines b
          ++ [closed_line shifts])
       (events w ++ [ev_check_auto_close_shifts; ev_check_and_auto_close_shifts]
          ++ stop_events b)
       (S (awaits w)))
    = (Returned tt, w') ->
  Dynamic.check_auto_close_shifts self format_exc stop_requested w = (Returned tt, w').
Proof.
  intros Hne Hclose Hall b Hloop.
  unfold Dynamic.check_auto_close_shifts, Dynamic.check_auto_close_shifts_body.
  rewrite run_bind, run_emit, run_bind, run_force_log, run_except_Exception_bind.
  rewrite run_dynamic_close. proj. rewrite Hclose.
  destruct shifts as [|shift shifts]; [congruence|].
  rewrite run_except_Exception_bind, (run_comprehension_ids _ _ Hall).
  rewrite run_except_Exception_bind, run_force_log. proj. fold b.
  unfold closed_line in Hloop. rewrite <- !app_assoc. simpl app.
  simpl app in Hloop. unfold Dynamic.except_Exception. now rewrite Hloop.
Qed.

(** A notification whose formatting raises: the error is reported, nothing
    is handed to [send_message], and the fetch is the only await. *)
Lemma run_dynamic_formatting_raises shift i c n (w : World Store Net) summary s e :
  shift !! "id" = Some i -> shift !! "chat_id" = Some c -> shift !! "number" = Some n ->
  Dynamic.get_shift_income_summary (Dynamic.shift_service self) i c (store w)
    = (Returned summary, s) ->
  Dynamic.summary_message n summary tt = (Raised e, tt) ->
  Dynamic._send_shift_summary self format_exc stop_requested shift w =
  let b := stop_requested (awaits w) in
  (Returned tt,
   mkWorld s (net w) (is_running w && negb b)
     (log w ++ stop_lines b
        ++ ["Error sending shift summary for shift " +:+ Py.str_int i
              +:+ ": " +:+ exc_str e;
            "Shift summary error traceback: " +:+ format_exc e])
     (events w ++ [ev_send_shift_summary shift; ev_get_shift_income_summary i c]
        ++ stop_events b)
     (S (awaits w))).
Proof.
  intros Hi Hc Hn Efetch Eformat.
  rewrite (run_dynamic_notification_start self format_exc stop_requested
             shift i c n w Hi Hc Hn), Efetch.
  cbv zeta. rewrite run_except_Exception_bind. unfold Dynamic.pure at 1.
  rewrite Eformat. proj.
  rewrite (raises_only_summary_message n summary _ _ _ Eformat).
  rewrite run_bind, !run_force_log. proj. now rewrite <- !app_assoc.
Qed.

(** C2: in a cycle of a scheduler with a bot service, whose collaborators
    raise instances of [Exception] only, take any record of the list the
    close operation returns.  Its notification returns whatever the summary
    fetch, the formatting and the send do; when the fetch raises, the
    formatting raises, the lookup of [send_message] or the send raises, or the
    send returns [False], the log gets the line that reports it, and that
    line holds the id of the shift.  The records before it have been
    attempted, and the records after it are attempted afterwards, in the
    same cycle, which returns. *)
Theorem failed_notification_is_isolated bot (w : World Store Net)
    pre shift post s i c n :
  Dynamic.errors_only self ->
  Dynamic.bot_service self = Some bot ->
  Dynamic.check_and_auto_close_shifts (Dynamic.shift_service self) (store w)
    = (Returned (pre ++ shift :: post), s) ->
  Forall (fun shift => is_closed_shift_record shift = true) (pre ++ shift :: post) ->
  shift !! "id" = Some i -> shift !! "chat_id" = Some c -> shift !! "number" = Some n ->
  exists w1 w2 w' before lines during after rest,
    Dynamic.check_auto_close_shifts self format_exc stop_requested w
      = (Returned tt, w') /\
    events w1 = events w ++ before /\ attempts before = pre /\
    Dynamic._send_shift_summary self format_exc stop_requested shift w1
      = (Returned tt, w2) /\
    events w2 = events w1 ++ ev_send_shift_summary shift :: during /\
    attempts during = [] /\
    log w2 = log w1 ++ lines /\
    In (report_line i c (Dynamic.notification self i c n w1)) lines /\
    Py.contains (report_line i c (Dynamic.notification self i c n w1)) (Py.str_int i) /\
    (forall e s1,
       Dynamic.get_shift_income_summary (Dynamic.shift_service self) i c (store w1)
         = (Raised e, s1) ->
       In ("Error sending shift summary for shift " +:+ Py.str_int i
           +:+ ": " +:+ exc_str e) lines) /\
    (forall summary s1 e,
       Dynamic.get_shift_income_summary (Dynamic.shift_service self) i c (store w1)
         = (Returned summary, s1) ->
       Dynamic.summary_message n summary tt = (Raised e, tt) ->
       In ("Error sending shift summary for shift " +:+ Py.str_int i
           +:+ ": " +:+ exc_str e) lines /\
       sends during = []) /\
    (forall summary s1 message method r net1,
       Dynamic.get_shift_income_summary (Dynamic.shift_service self) i c (store w1)
         = (Returned summary, s1) ->
       Dynamic.summary_message n summary tt = (Returned message, tt) ->
       Dynamic.send_message bot = Some method ->
       method c message (net w1) = (r, net1) ->
       match r with
       | Raised e =>
           In ("Error sending shift summary for shift " +:+ Py.str_int i
               +:+ ": " +:+ exc_str e) lines
       | Returned false =>
           In ("Failed to send shift summary for shift " +:+ Py.str_int i
               +:+ " to chat " +:+ Py.str_int c) lines
       | Returned true =>
           In ("Sent shift summary for shift " +:+ Py.str_int i
               +:+ " to chat " +:+ Py.str_int c) lines
       end) /\
    events w' = events w2 ++ after /\ attempts after = post /\
    log w' = log w2 ++ rest.
Proof.
  intros Herrors Hbot Hclose Hall Hi Hc Hn.
  pose proof Hall as Hall'. apply Forall_app in Hall' as [Hpre Hrest].
  apply Forall_cons in Hrest as [Hrec Hpost].
  set (b := stop_requested (awaits w)).
  destruct (run_dynamic_notify_all bot pre
              (mkWorld s (net w) (is_running w && negb b)
                 (log w ++ ["Starting auto-close shift check..."] ++ stop_lines b
                    ++ [closed_line (pre ++ shift :: post)])
                 (events w
                    ++ [ev_check_auto_close_shifts; ev_check_and_auto_close_shifts]
                    ++ stop_events b)
                 (S (awaits w))) Herrors Hbot Hpre)
    as (wa & esa & la & Ea & Eea & Ela & Haa).
  proj. simpl in Eea, Ela.
  pose (w1 := mkWorld (store wa) (net wa) (is_running wa)
                      (log wa ++ [closure_line shift]) (events wa) (awaits wa)).
  destruct (dynamic_send_shift_summary_run self format_exc stop_requested shift i c n
              w1 Herrors Hi Hc Hn)
    as (w2 & lines & es & E2 & El2 & Hin & Ee2 & Ha2 & _).
  destruct (run_dynamic_notify_all bot post w2 Herrors Hbot Hpost)
    as (w' & esp & lp & Ep & Eep & Elp & Hap).
  exists w1, w2, w',
    (([ev_check_auto_close_shifts; ev_check_and_auto_close_shifts]
        ++ stop_events b) ++ esa),
    lines, (ev_get_shift_income_summary i c :: es), esp, lp.
  split.
  { apply run_dynamic_check_closed with (shifts := pre ++ shift :: post) (s := s);
      [now destruct pre | exact Hclose | exact Hall |].
    fold b. rewrite run_for_each_app, (run_bind_returned _ _ _ _ _ Ea).
    cbn [for_each].
    rewrite run_bind, (run_dynamic_notify_closed_shift shift wa Hrec), Hbot.
    cbv beta iota zeta. fold w1. rewrite E2. exact Ep. }
  split; [subst w1; proj; now rewrite Eea, <- !app_assoc|].
  split.
  { rewrite attempts_app, Haa.
    assert (Hpre0 : attempts ([ev_check_auto_close_shifts;
                               ev_check_and_auto_close_shifts] ++ stop_events b) = [])
      by now destruct b.
    now rewrite Hpre0. }
  split; [exact E2|]. split; [exact Ee2|]. split; [exact Ha2|].
  split; [exact El2|]. split; [exact Hin|].
  split; [apply report_line_names_the_shift|].
  split.
  { intros e s1 Efetch. unfold Dynamic.notification in Hin.
    now rewrite Efetch in Hin. }
  split.
  { intros summary s1 e Efetch Eformat. split.
    - unfold Dynamic.notification in Hin. now rewrite Efetch, Eformat in Hin.
    - rewrite (run_dynamic_formatting_raises shift i c n w1 summary s1 e
                 Hi Hc Hn Efetch Eformat) in E2.
      cbv zeta in E2. injection E2 as <-.
      cbn [store net is_running log events awaits fst snd] in Ee2.
      apply app_inv_head in Ee2. simpl app in Ee2.
      injection Ee2 as <-. now destruct (stop_requested (awaits wa)). }
  split.
  { intros summary s1 message method r net1 Efetch Eformat Hm Esend.
    unfold Dynamic.notification in Hin.
    rewrite Efetch, Eformat, Hbot, Hm, Esend in Hin.
    destruct r as [[]|e]; exact Hin. }
  split; [exact Eep|]. split; [exact Hap|]. exact Elp.
Qed.

End DynamicCycles.

(** * The claims on the small deployment *)





Lemma nothing_closed_nothing_sent_witness :
  exists w' es lines,
    check_auto_close_shifts Demo.scheduler Demo.format_exc Demo.never (Demo.world [])
      = (Returned tt, w') /\
    events w' = [] ++ es /\ sends es = [] /\
    In "No shifts needed auto-closing" lines.
Proof.
  destruct (nothing_closed_nothing_sent Demo.scheduler Demo.format_exc Demo.never
              (Demo.world []) [])
    as (w' & es & lines & E & Ee & _ & _ & Hs & _ & Hin & _).
  - reflexivity.
  - exists w', es, lines. split; [exact E|]. split; [exact Ee|].
    split; [exact Hs | exact Hin].
Defined.

Lemma notification_leaves_the_store_witness :
  exists w',
    _send_shift_summary Demo.scheduler Demo.format_exc Demo.never (Demo.shift 2 20 8)
      (Demo.world []) = (Returned tt, w') /\
    store w' = [].
Proof.
  destruct (notification_leaves_the_store Demo.scheduler Demo.format_exc Demo.never
              (Demo.shift 2 20 8) (Demo.world []))
    as (w' & es & E & Hs & _).
  - intros shift_id chat_id s. simpl. now destruct (shift_id =? 1).
  - exists w'. split; [exact E | exact Hs].
Defined.

Lemma without_bot_no_attempt_witness :
  exists w' es,
    check_auto_close_shifts Demo.scheduler_without_bot Demo.format_exc Demo.never
      (Demo.world [Demo.shift 1 10 7]) = (Returned tt, w') /\
    events w' = [] ++ es /\ attempts es = [].
Proof.
  destruct (without_bot_no_attempt Demo.scheduler_without_bot Demo.format_exc
              Demo.never (Demo.world [Demo.shift 1 10 7]) (Demo.shift 1 10 7) [] [])
    as (w' & es & E & Ee & Ha & _).
  - reflexivity.
  - reflexivity.
  - repeat constructor.
  - exists w', es. split; [exact E|]. split; [exact Ee | exact Ha].
Defined.

(** The collaborators of the small deployment raise instances of
    [Exception] only. *)
Lemma demo_errors_only : Dynamic.errors_only DynamicDemo.scheduler.
Proof.
  split; [|split].
  - intros s e s' H. discriminate H.
  - intros i c s e s' H. simpl in H.
    destruct (i =? 1); [now injection H as <- _|].
    destruct (i =? 2); discriminate H.
  - intros bot method c m Hbot Hm s e s' H.
    injection Hbot as <-. injection Hm as <-. discriminate H.
Qed.

Lemma failed_notification_is_isolated_witness :
  exists w1 w2 w' lines during after,
    Dynamic.check_auto_close_shifts DynamicDemo.scheduler Demo.format_exc Demo.never
      (Demo.world [Demo.shift 1 10 7; Demo.shift 2 20 8; Demo.shift 3 30 9])
      = (Returned tt, w') /\
    Dynamic._send_shift_summary DynamicDemo.scheduler Demo.format_exc Demo.never
      (Demo.shift 2 20 8) w1 = (Returned tt, w2) /\
    events w2 = events w1 ++ ev_send_shift_summary (Demo.shift 2 20 8) :: during /\
    sends during = [] /\
    log w2 = log w1 ++ lines /\
    In "Error sending shift summary for shift 2: 'total_amount'" lines /\
    events w' = events w2 ++ after /\
    attempts after = [Demo.shift 3 30 9].
Proof.
  destruct (failed_notification_is_isolated DynamicDemo.scheduler Demo.format_exc
              Demo.never DynamicDemo.bot
              (Demo.world [Demo.shift 1 10 7; Demo.shift 2 20 8; Demo.shift 3 30 9])
              [Demo.shift 1 10 7] (Demo.shift 2 20 8) [Demo.shift 3 30 9] [] 2 20 8)
    as (w1 & w2 & w' & before & lines & during & after & rest
        & E & _ & _ & E2 & Ee2 & _ & El2 & _ & _ & _ & Hformat & _ & Eea & Haa & _).
  - exact demo_errors_only.
  - reflexivity.
  - reflexivity.
  - repeat constructor.
  - reflexivity.
  - reflexivity.
  - reflexivity.
  - destruct (Hformat DynamicDemo.summary_without_total (store w1)
                (KeyError "total_amount") eq_refl eq_refl) as (Hin & Hs).
    exists w1, w2, w', lines, during, after.
    split; [exact E|]. split; [exact E2|]. split; [exact Ee2|]. split; [exact Hs|].
    split; [exact El2|]. split; [exact Hin|]. split; [exact Eea | exact Haa].
Defined.

Lemma no_error_escapes_witness :
  exists w',
    Dynamic.loop_body DynamicDemo.scheduler Demo.format_exc Demo.never
      (mkWorld [Demo.shift 1 10 7; Demo.shift 2 20 8] [] true [] [] 0)
    = (Returned tt, w').
Proof.
  destruct (no_error_escapes DynamicDemo.scheduler Demo.format_exc Demo.never
              demo_errors_only) as (_ & _ & H & _).
  exact (H (mkWorld [Demo.shift 1 10 7; Demo.shift 2 20 8] [] true [] [] 0)).
Defined.

(** * Further properties of the scheduler *)

Lemma sleeps_app es1 es2 : sleeps (es1 ++ es2) = sleeps es1 ++ sleeps es2.
Proof.
  induction es1 as [|e es1 IH]; [reflexivity|].
  destruct e; simpl; now rewrite ?IH.
Qed.

Section OneNotification.

Context {Store Net : Type}.
Variable self : AutoCloseScheduler Store Net.
Variable format_exc : Exception -> string.
Variable stop_requested : nat -> bool.

Ltac proj := cbn [store net is_running log events awaits fst snd].

(** X1: the notification of a record whose summary is fetched and whose message
    the bot takes: the fetch is made once, with the id and the chat of the
    record; the message handed to [send_message], once, for that chat, is the
    summary message for the number of the record and the summary fetched; the
    log says sent or failed to send as the bot answered; the store and the
    network are what the fetch and the send left. *)
Theorem notification_delivers_the_summary bot shift i c n (w : World Store Net)
    summary s delivered net' :
  bot_service self = Some bot ->
  shift !! "id" = Some i -> shift !! "chat_id" = Some c -> shift !! "number" = Some n ->
  get_shift_income_summary (shift_service self) i c (store w) = (Returned summary, s) ->
  send_message bot c (summary_message n summary) (net w) = (Returned delivered, net') ->
  let b1 := stop_requested (awaits w) in
  let b2 := stop_requested (S (awaits w)) in
  _send_shift_summary self format_exc stop_requested shift w =
  (Returned tt,
   mkWorld s net' (is_running w && negb b1 && negb b2)
     (log w ++ stop_lines b1 ++ stop_lines b2
        ++ [(if delivered then "Sent shift summary for shift "
             else "Failed to send shift summary for shift ")
              +:+ Py.str_int i +:+ " to chat " +:+ Py.str_int c])
     (events w
        ++ [ev_send_shift_summary shift; ev_get_shift_income_summary i c]
        ++ stop_events b1
        ++ [ev_send_message c (summary_message n summary)]
        ++ stop_events b2)
     (S (S (awaits w)))).
Proof.
  intros Hbot Hi Hc Hn Hfetch Hsend b1 b2.
  unfold _send_shift_summary, send_shift_summary_body, try_except.
  rewrite run_bind, run_emit.
  rewrite (run_bind_returned _ _ _ _ _ (run_getitem _ _ _ _ Hc)).
  rewrite (run_bind_returned _ _ _ _ _ (run_getitem _ _ _ _ Hi)).
  rewrite (run_bind_returned _ _ _ _ _ (run_getitem _ _ _ _ Hn)).
  rewrite run_bind, run_call_get_shift_income_summary. proj. rewrite Hfetch.
  rewrite run_bind, (run_call_send_message _ _ _ _ _ _ Hbot). proj. rewrite Hsend.
  fold b1 b2. destruct delivered; rewrite run_force_log; proj;
    now rewrite <- !app_assoc.
Qed.


(** X3: the notification of a record that lacks one of the keys [chat_id], [id]
    and [number]: no summary is fetched and nothing is sent; the store, the
    network and the flag are as they were; the log gets the KeyError of the
    first key missing, with the id of the shift, or with "unknown" when the
    id is what is missing, then the traceback. *)
Theorem malformed_record_is_reported shift key (w : World Store Net) :
  first_missing_key shift = Some key ->
  _send_shift_summary self format_exc stop_requested shift w =
  (Returned tt,
   mkWorld (store w) (net w) (is_running w)
     (log w
        ++ ["Error sending shift summary for shift "
              +:+ match shift !! "id" with
                  | Some i => Py.str_int i
                  | None => "unknown"
                  end
              +:+ ": '" +:+ key +:+ "'";
            "Shift summary error traceback: " +:+ format_exc (KeyError key)])
     (events w ++ [ev_send_shift_summary shift])
     (awaits w)).
Proof.
  unfold first_missing_key. intros Hkey.
  unfold _send_shift_summary, send_shift_summary_body, try_except.
  rewrite run_bind, run_emit.
  destruct (shift !! "chat_id") as [c|] eqn:Hc.
  - rewrite (run_bind_returned _ _ _ _ _ (run_getitem _ _ _ _ Hc)).
    destruct (shift !! "id") as [i|] eqn:Hi.
    + rewrite (run_bind_returned _ _ _ _ _ (run_getitem _ _ _ _ Hi)).
      destruct (shift !! "number") as [n|] eqn:Hn; [discriminate|].
      injection Hkey as <-.
      unfold getitem at 1. rewrite Hn, run_bind. unfold raise at 1.
      rewrite run_bind, !run_force_log. proj.
      unfold get_or. rewrite Hi. now rewrite <- !app_assoc.
    + injection Hkey as <-.
      unfold getitem at 1. rewrite Hi, run_bind. unfold raise at 1.
      rewrite run_bind, !run_force_log. proj.
      unfold get_or. rewrite Hi. now rewrite <- !app_assoc.
  - injection Hkey as <-.
    unfold getitem at 1. rewrite Hc, run_bind. unfold raise at 1.
    rewrite run_bind, !run_force_log. proj.
    unfold get_or. now rewrite <- !app_assoc.
Qed.

End OneNotification.

Section MalformedRecords.

Context {Store Net : Type}.
Variable self : AutoCloseScheduler Store Net.
Variable format_exc : Exception -> string.
Variable stop_requested : nat -> bool.

Ltac proj := cbn [store net is_running log events awaits fst snd].


Lemma run_comprehension_missing_id pre bad post (w : World Store Net) :
  Forall (fun shift : ShiftInfo => is_Some (shift !! "id")) pre ->
  bad !! "id" = None ->
  comprehension (pre ++ bad :: post) (fun shift : ShiftInfo => getitem shift "id") w =
  (Raised (KeyError "id"), w).
Proof.
  intros Hpre Hbad. induction Hpre as [|shift shifts [i Hi] _ IH].
  - cbn [app comprehension]. rewrite run_bind. unfold getitem. now rewrite Hbad.
  - cbn [app comprehension].
    rewrite (run_bind_returned _ _ _ _ _ (run_getitem _ _ _ _ Hi)).
    now rewrite (run_bind_raised _ _ _ _ _ IH).
Qed.

(** The cycle up to the list the close operation returned, when the list is
    not empty: what remains is the count line and the loop over the list,
    with the handler of the cycle around them. *)
Lemma run_check_after_close shifts s (w : World Store Net) :
  shifts <> [] ->
  check_and_auto_close_shifts (shift_service self) (store w) = (Returned shifts, s) ->
  let b := stop_requested (awaits w) in
  check_auto_close_shifts self format_exc stop_requested w =
  try_except
    (ids <- comprehension shifts (fun shift : ShiftInfo => getitem shift "id") ;;
     force_log ("Auto-closed " +:+ Py.str_int (Z.of_nat (length shifts))
                +:+ " shifts: " +:+ Py.repr_int_list ids) ;;
     for_each shifts (notify_closed_shift self format_exc stop_requested))
    (fun e =>
       force_log ("Error in auto-close shift check: " +:+ exc_str e) ;;
       force_log ("Traceback: " +:+ format_exc e))
    (mkWorld s (net w) (is_running w && negb b)
       (log w ++ ["Starting auto-close shift check..."] ++ stop_lines b)
       (events w ++ [ev_check_auto_close_shifts; ev_check_and_auto_close_shifts]
          ++ stop_events b)
       (S (awaits w))).
Proof.
  intros Hne Hclose b.
  unfold check_auto_close_shifts, check_auto_close_shifts_body, try_except.
  rewrite run_bind, run_emit, run_bind, run_force_log, run_bind.
  rewrite run_call_check_and_auto_close_shifts. proj. rewrite Hclose. fold b.
  destruct shifts as [|shift shifts]; [congruence|].
  now rewrite <- !app_assoc.
Qed.

(** X4: when a record of the list the close operation returns has no [id], the
    cycle ends in its handler before the count line: no closure is logged,
    no notification is attempted for any record of the list, and the log
    gets the KeyError and the traceback.  The store is the one the close
    operation left. *)
Theorem record_without_id_stops_the_cycle pre bad post s (w : World Store Net) :
  check_and_auto_close_shifts (shift_service self) (store w)
    = (Returned (pre ++ bad :: post), s) ->
  Forall (fun shift : ShiftInfo => is_Some (shift !! "id")) pre ->
  bad !! "id" = None ->
  let b := stop_requested (awaits w) in
  check_auto_close_shifts self format_exc stop_requested w =
  (Returned tt,
   mkWorld s (net w) (is_running w && negb b)
     (log w ++ ["Starting auto-close shift check..."] ++ stop_lines b
        ++ ["Error in auto-close shift check: 'id'";
            "Traceback: " +:+ format_exc (KeyError "id")])
     (events w ++ [ev_check_auto_close_shifts; ev_check_and_auto_close_shifts]
        ++ stop_events b)
     (S (awaits w))).
Proof.
  intros Hclose Hpre Hbad b.
  rewrite (run_check_after_close (pre ++ bad :: post) s w); [|now destruct pre|exact Hclose].
  unfold try_except.
  rewrite (run_bind_raised _ _ _ _ _ (run_comprehension_missing_id _ _ _ _ Hpre Hbad)).
  rewrite run_bind, !run_force_log. proj. fold b. now rewrite <- !app_assoc.
Qed.


End MalformedRecords.

Section WholeCycle.

Context {Store Net : Type}.
Variable self : AutoCloseScheduler Store Net.
Variable format_exc : Exception -> string.
Variable stop_requested : nat -> bool.

Ltac proj := cbn [store net is_running log events awaits fst snd].



End WholeCycle.

(** ** The turns of the loop *)

Lemma quiet_counts es :
  Forall quiet es -> cycles es = 0%nat /\ closes es = 0%nat /\ sleeps es = [].
Proof.
  induction 1 as [|e es He _ IH]; [now repeat split|].
  destruct e; simpl in He |- *; now try contradiction.
Qed.

Lemma run_try_except_bind {S A B} (m : M S A) (k : A -> M S B)
    (handler : Exception -> M S B) w :
  try_except (x <- m ;; k x) handler w =
  match m w with
  | (Returned a, w') => try_except (k a) handler w'
  | (Raised e, w') => handler e w'
  end.
Proof. unfold try_except, bind. now destruct (m w) as [[a|e] w']. Qed.

Lemma undisturbed_false_inv stop_requested from n :
  undisturbed stop_requested from n = false ->
  exists t, (from <= t < from + n)%nat /\ stop_requested t = true.
Proof.
  revert from. induction n as [|n IH]; intros from; [discriminate|].
  unfold undisturbed. cbn [seq forallb]. rewrite andb_false_iff.
  intros [H|H].
  - exists from. split; [lia|]. now apply negb_false_iff.
  - destruct (IH (S from) H) as (t & Ht & Hs). exists t. split; [lia | exact Hs].
Qed.

Section Turns.

Context {Store Net : Type}.
Variable self : AutoCloseScheduler Store Net.
Variable format_exc : Exception -> string.
Variable stop_requested : nat -> bool.

Ltac proj := cbn [store net is_running log events awaits fst snd].

Local Instance quiet_frame : Frame self stop_requested (emits_only quiet) quiet.
Proof. apply emits_only_frame. exact I. Qed.

(** A check cycle starts once and calls the close operation once, whatever
    the close operation returns or raises, and it does not sleep. *)
Lemma check_auto_close_shifts_counts (w : World Store Net) :
  exists w' es,
    check_auto_close_shifts self format_exc stop_requested w = (Returned tt, w') /\
    events w' = events w ++ es /\
    cycles es = 1%nat /\ closes es = 1%nat /\ sleeps es = [].
Proof.
  destruct (check_auto_close_shifts_returns self format_exc stop_requested w)
    as ([] & w' & E).
  exists w'. revert E.
  unfold check_auto_close_shifts, check_auto_close_shifts_body.
  rewrite run_bind, run_emit, run_bind, run_force_log, run_try_except_bind.
  rewrite run_call_check_and_auto_close_shifts. proj.
  set (b := stop_requested (awaits w)).
  destruct (check_and_auto_close_shifts _ _) as [[closed|e] s]; cbv beta iota zeta.
  - match goal with
    | |- try_except ?body ?handler ?w3 = _ -> _ =>
        assert (Hq : respects (emits_only quiet) (try_except body handler))
    end.
    { apply respects_try_except; [apply _ | |].
      - destruct closed as [|shift closed]; [apply frame_log|].
        apply respects_bind; [apply _ | | intros ids].
        + apply respects_comprehension; [apply _ | intros shift'].
          apply (frame_getitem self stop_requested _ quiet).
        + apply respects_bind; [apply _ | apply frame_log | intros _].
          apply respects_for_each; [apply _ | intros shift'].
          apply (frame_notify_closed_shift self format_exc stop_requested _ quiet);
            intros; exact I.
      - intros e.
        apply respects_bind; [apply _ | apply frame_log | intros _; apply frame_log]. }
    intros E.
    match type of E with
    | try_except ?body ?handler ?w3 = _ => specialize (Hq w3)
    end.
    rewrite E in Hq. destruct Hq as (es & Ee & Hall). simpl in Ee.
    destruct (quiet_counts es Hall) as (Hy & Hc & Hs).
    exists (([ev_check_auto_close_shifts; ev_check_and_auto_close_shifts]
               ++ stop_events b) ++ es).
    split; [exact E|]. split; [now rewrite Ee, <- !app_assoc|].
    rewrite cycles_app, closes_app, sleeps_app, Hy, Hc, Hs.
    now destruct b.
  - rewrite run_bind, !run_force_log. proj. intros [= <-]. proj.
    exists ([ev_check_auto_close_shifts; ev_check_and_auto_close_shifts]
              ++ stop_events b).
    split; [reflexivity|]. split; [now rewrite <- !app_assoc|]. now destruct b.
Qed.

(** A turn of the loop: one cycle, one call of the close operation, one
    sleep, of 60 seconds. *)
Lemma loop_body_counts (w : World Store Net) :
  exists w' es,
    loop_body self format_exc stop_requested w = (Returned tt, w') /\
    events w' = events w ++ es /\
    cycles es = 1%nat /\ closes es = 1%nat /\ sleeps es = [60].
Proof.
  destruct (check_auto_close_shifts_counts w) as (w1 & es1 & E1 & Ee1 & Hy & Hc & Hs).
  unfold loop_body, loop_turn, try_except.
  rewrite (run_bind_returned _ _ _ _ _ E1), run_asyncio_sleep.
  eexists _, (es1 ++ ev_sleep 60 :: stop_events (stop_requested (awaits w1))).
  split; [reflexivity|]. proj. split; [now rewrite Ee1, <- app_assoc|].
  rewrite cycles_app, closes_app, sleeps_app, Hy, Hc, Hs.
  now destruct (stop_requested (awaits w1)).
Qed.

Lemma while_is_running_counts fuel (w : World Store Net) out w' :
  while_is_running self format_exc stop_requested fuel w = Some (out, w') ->
  exists new,
    events w' = events w ++ new /\
    closes new = cycles new /\
    sleeps new = repeat 60 (cycles new) /\
    (is_running w = true -> (1 <= cycles new)%nat).
Proof.
  revert w. induction fuel as [|fuel IH]; intros w; [discriminate|].
  destruct (is_running w) eqn:Hr.
  - destruct (loop_body_counts w) as (w1 & es & E & Ee & Hy & Hc & Hs).
    rewrite (while_is_running_step _ _ _ _ _ _ Hr E). intros Hw.
    destruct (IH w1 Hw) as (new & Ee' & Hc' & Hs' & _).
    exists (es ++ new). split; [now rewrite Ee', Ee, <- app_assoc|].
    rewrite cycles_app, closes_app, sleeps_app, Hy, Hc, Hs, Hc', Hs'.
    repeat split; lia.
  - simpl. rewrite Hr. intros [= <- <-]. exists []. rewrite app_nil_r.
    repeat split. discriminate.
Qed.

(** X7: whenever [start_scheduler] returns, its trace holds as many calls of the
    close operation as cycles and as many sleeps as cycles, every sleep is
    of 60 seconds, and at least one cycle has run. *)
Theorem every_cycle_closes_once_and_sleeps_once fuel (w : World Store Net) out w' :
  start_scheduler self format_exc stop_requested fuel w = Some (out, w') ->
  exists new,
    events w' = events w ++ new /\
    closes new = cycles new /\
    sleeps new = repeat 60 (cycles new) /\
    (1 <= cycles new)%nat.
Proof.
  intros Hstart.
  apply while_is_running_counts in Hstart as (new & Ee & Hc & Hs & Hone).
  exists new. split; [exact Ee|]. split; [exact Hc|]. split; [exact Hs|].
  now apply Hone.
Qed.

End Turns.

(** ** The loop under run-time checks *)

Section DynamicTurns.

Context {Store Net : Type}.
Variable self : Dynamic.AutoCloseScheduler Store Net.
Variable format_exc : Exception -> string.
Variable stop_requested : nat -> bool.

Ltac proj := cbn [store net is_running log events awaits fst snd].

(** One turn of the loop, however it ends: the flag follows the stop
    requests; a turn that returns has passed an await; what a turn raises
    is no instance of [Exception]. *)
Lemma dynamic_loop_body_run (w : World Store Net) out w' :
  Dynamic.loop_body self format_exc stop_requested w = (out, w') ->
  (awaits w <= awaits w')%nat /\
  is_running w' =
    is_running w && undisturbed stop_requested (awaits w) (awaits w' - awaits w) /\
  (out = Returned tt -> (awaits w < awaits w')%nat) /\
  (forall e, out = Raised e -> Dynamic.is_Exception e = false).
Proof.
  intros E.
  assert (Hpass : forall e, out = Raised e -> Dynamic.is_Exception e = false).
  { intros e ->. exact (loop_body_passes self format_exc stop_requested _ _ _ E). }
  pose proof (kept_by_check_auto_close_shifts_body self format_exc stop_requested
                (follows_stops stop_requested)
                (fun e => e <> ev_check_auto_close_shifts /\ e <> ev_stop_scheduler)
                ltac:(intros; split; discriminate) ltac:(intros; split; discriminate)
                ltac:(intros; split; discriminate) ltac:(split; discriminate)
                (emit ev_check_auto_close_shifts w).2) as F1.
  revert E. unfold Dynamic.loop_body.
  rewrite run_except_Exception_bind.
  assert (Hrun : Dynamic.check_auto_close_shifts self format_exc stop_requested w =
                 Dynamic.check_auto_close_shifts_body self format_exc stop_requested
                   (emit ev_check_auto_close_shifts w).2) by reflexivity.
  rewrite Hrun.
  destruct (Dynamic.check_auto_close_shifts_body self format_exc stop_requested
              (emit ev_check_auto_close_shifts w).2) as [[[]|e] w1].
  - unfold Dynamic.except_Exception. rewrite run_asyncio_sleep.
    pose proof (@kept_by_asyncio_sleep _ _ stop_requested
                  (follows_stops stop_requested) _
                  (follows_stops_dynamic_frame stop_requested)
                  60 ltac:(split; discriminate) w1) as F2.
    rewrite run_asyncio_sleep in F2. proj.
    intros [= <- <-].
    pose proof (transitivity F1 F2) as (La & Fr & _). simpl in La, Fr.
    destruct F1 as (L1 & _). simpl in L1. proj.
    split; [lia|]. split; [exact Fr|]. split; [intros _; lia | exact Hpass].
  - destruct (Dynamic.is_Exception e).
    + rewrite run_bind, run_force_log, run_asyncio_sleep. proj.
      pose proof (@Dynamic.frame_log _ _ stop_requested (follows_stops stop_requested) _
                    (follows_stops_dynamic_frame stop_requested)
                    ("Error in auto-close scheduler loop: " +:+ exc_str e) w1) as F2.
      pose proof (@kept_by_asyncio_sleep _ _ stop_requested
                    (follows_stops stop_requested) _
                    (follows_stops_dynamic_frame stop_requested)
                    60 ltac:(split; discriminate)
                    (force_log ("Error in auto-close scheduler loop: " +:+ exc_str e)
                       w1).2) as F3.
      rewrite run_asyncio_sleep in F3. rewrite run_force_log in F2, F3.
      proj. cbn [store net is_running log events awaits fst snd] in F2, F3.
      intros [= <- <-].
      pose proof (transitivity F1 (transitivity F2 F3)) as (La & Fr & _).
      simpl in La, Fr. destruct F1 as (L1 & _). simpl in L1. proj.
      split; [lia|]. split; [exact Fr|]. split; [intros _; lia | exact Hpass].
    + intros [= <- <-]. destruct F1 as (L1 & Fr & _). simpl in L1, Fr.
      split; [exact L1|]. split; [exact Fr|]. split; [discriminate | exact Hpass].
Qed.

Lemma dynamic_while_is_running_exit fuel (w : World Store Net) out w' :
  Dynamic.while_is_running self format_exc stop_requested fuel w = Some (out, w') ->
  (awaits w <= awaits w')%nat /\
  ((out = Returned tt /\ is_running w' = false /\
    (is_running w = true ->
     exists t, (awaits w <= t < awaits w')%nat /\ stop_requested t = true)) \/
   (exists e, out = Raised e /\ Dynamic.is_Exception e = false)).
Proof.
  revert w. induction fuel as [|fuel IH]; intros w; [discriminate|].
  simpl. destruct (is_running w) eqn:Hr.
  - destruct (Dynamic.loop_body self format_exc stop_requested w) as [o1 w1] eqn:E.
    destruct (dynamic_loop_body_run w o1 w1 E) as (La & Fr & Hlt & Hpass).
    destruct o1 as [[]|e].
    + intros Hw. destruct (IH w1 Hw) as (Lb & [(Hout & Hr' & Hstop)|Hsig]).
      * split; [lia|]. left. split; [exact Hout|]. split; [exact Hr'|]. intros _.
        rewrite Hr in Fr. simpl in Fr.
        destruct (is_running w1) eqn:Hr1.
        -- destruct (Hstop eq_refl) as (t & Ht & Hs). exists t. split; [lia | exact Hs].
        -- symmetry in Fr. apply undisturbed_false_inv in Fr as (t & Ht & Hs).
           exists t. split; [lia | exact Hs].
      * split; [lia|]. now right.
    + intros [= <- <-]. split; [exact La|]. right. exists e. split; [reflexivity|].
      now apply Hpass.
  - intros [= <- <-]. split; [lia|]. left.
    repeat split; [exact Hr | discriminate].
Qed.

(** X8: [start_scheduler] ends in one of two ways only.  It returns, and then
    the flag is cleared and another task called [stop_scheduler] at one of
    the awaits the loop passed; or it ends by raising, and then what it
    raises is no instance of [Exception]: a task that is cancelled ends this
    way with the flag still set.  With collaborators that raise instances
    of [Exception] only, it ends by returning. *)
Theorem loop_exits_only_on_stop fuel (w : World Store Net) out w' :
  Dynamic.start_scheduler self format_exc stop_requested fuel w = Some (out, w') ->
  ((out = Returned tt /\ is_running w' = false /\
    exists t, (awaits w <= t < awaits w')%nat /\ stop_requested t = true) \/
   (exists e, out = Raised e /\ Dynamic.is_Exception e = false)) /\
  (Dynamic.errors_only self -> out = Returned tt).
Proof.
  intros Hstart. split.
  - apply dynamic_while_is_running_exit in Hstart as (_ & [(Hout & Hr & Hstop)|Hsig]).
    + left. split; [exact Hout|]. split; [exact Hr|]. now apply Hstop.
    + now right.
  - intros Herrors. destruct out as [[]|e]; [reflexivity|].
    revert Hstart. unfold Dynamic.start_scheduler.
    rewrite run_bind. cbn [set_is_running]. rewrite run_force_log.
    intros Hstart.
    now apply while_is_running_never_raises_on_errors in Hstart.
Qed.

(** X24: a bot service without the attribute [send_message] delivers nothing.
    For a well-formed record whose summary is fetched and formatted, the
    lookup of line 116 raises AttributeError before anything is called: the
    trace holds no call of [send_message], the fetch is the only await, the
    network is as it was, and the log gets the error with the class of the
    bot service, then the traceback. *)
Theorem bot_class_delivers_nothing bot shift i c n (w : World Store Net)
    summary s message :
  Dynamic.bot_service self = Some bot ->
  Dynamic.send_message bot = None ->
  shift !! "id" = Some i -> shift !! "chat_id" = Some c -> shift !! "number" = Some n ->
  Dynamic.get_shift_income_summary (Dynamic.shift_service self) i c (store w)
    = (Returned summary, s) ->
  Dynamic.summary_message n summary tt = (Returned message, tt) ->
  Dynamic._send_shift_summary self format_exc stop_requested shift w =
  let b := stop_requested (awaits w) in
  let error :=
    AttributeError ("'" +:+ Dynamic.class_name bot
                    +:+ "' object has no attribute 'send_message'") in
  (Returned tt,
   mkWorld s (net w) (is_running w && negb b)
     (log w ++ stop_lines b
        ++ ["Error sending shift summary for shift " +:+ Py.str_int i
              +:+ ": '" +:+ Dynamic.class_name bot
              +:+ "' object has no attribute 'send_message'";
            "Shift summary error traceback: " +:+ format_exc error])
     (events w ++ [ev_send_shift_summary shift; ev_get_shift_income_summary i c]
        ++ stop_events b)
     (S (awaits w))).
Proof.
  intros Hbot Hm Hi Hc Hn Efetch Eformat.
  rewrite (run_dynamic_notification_start self format_exc stop_requested
             shift i c n w Hi Hc Hn), Efetch.
  cbv zeta. rewrite run_except_Exception_bind. unfold Dynamic.pure at 1.
  rewrite Eformat. proj.
  rewrite run_except_Exception_bind.
  rewrite (run_dynamic_send_missing self stop_requested bot c message _ Hbot Hm).
  change (Dynamic.is_Exception (AttributeError _)) with true. cbv iota.
  rewrite run_bind, !run_force_log. proj. now rewrite <- !app_assoc.
Qed.

End DynamicTurns.

(** * Properties of the business bot *)

(** ** Keyboards *)

Lemma foldl_snoc_map {A B} (f : A -> B) (l : list A) (acc : list B) :
  foldl (fun acc x => acc ++ [f x]) acc l = acc ++ map f l.
Proof.
  revert acc. induction l as [|x l IH]; intros acc; simpl.
  - now rewrite app_nil_r.
  - now rewrite IH, <- app_assoc.
Qed.

(** The inner loop: the buttons of the entries that are 2-tuples, in order. *)
Lemma button_row_spec (row : list BusinessBot.Entry)
    (acc : list BusinessBot.InlineKeyboardButton) :
  foldl
    (fun button_row button =>
       match button with
       | BusinessBot.a_tuple [text; callback_data] =>
           button_row ++ [BusinessBot.mkInlineKeyboardButton text callback_data]
       | _ => button_row
       end)
    acc row
  = acc ++ omap BusinessBot.button_of row.
Proof.
  revert acc. induction row as [|button row IH]; intros acc; simpl.
  - now rewrite app_nil_r.
  - rewrite IH. destruct button as [[|t [|c [|x items]]]|]; simpl;
      rewrite <- ?app_assoc; reflexivity.
Qed.

Lemma convert_buttons_spec row rows :
  BusinessBot._convert_buttons_to_keyboard (Some (row :: rows)) =
  Some (BusinessBot.mkInlineKeyboardMarkup
          (map (omap BusinessBot.button_of) (row :: rows))).
Proof.
  unfold BusinessBot._convert_buttons_to_keyboard.
  cbn [BusinessBot.falsy default].
  rewrite (foldl_snoc_map
             (fun row =>
                foldl
                  (fun button_row button =>
                     match button with
                     | BusinessBot.a_tuple [text; callback_data] =>
                         button_row
                           ++ [BusinessBot.mkInlineKeyboardButton text callback_data]
                     | _ => button_row
                     end)
                  [] row)).
  cbn [app]. do 2 f_equal. apply map_ext. intros r. now rewrite button_row_spec.
Qed.

Lemma as_tuple_button_of button b :
  BusinessBot.button_of button = Some b -> BusinessBot.as_tuple b = button.
Proof.
  destruct button as [[|t [|c [|x items]]]|]; simpl; intros [= <-]; reflexivity.
Qed.

Lemma omap_button_of_filter row :
  map BusinessBot.as_tuple (omap BusinessBot.button_of row)
  = List.filter BusinessBot.well_formed row.
Proof.
  induction row as [|button row IH]; [reflexivity|].
  destruct button as [[|t [|c [|x items]]]|];
    first [exact IH | exact (f_equal (cons _) IH)].
Qed.

(** X9: a list of rows whose entries are all 2-tuples is turned into a markup
    that holds the same rows of the same pairs, in the same order: reading
    the text and the callback data back from the buttons gives the list. *)
Theorem keyboard_round_trip rows :
  rows <> [] ->
  Forall (Forall (fun button => BusinessBot.well_formed button = true)) rows ->
  exists markup,
    BusinessBot._convert_buttons_to_keyboard (Some rows) = Some markup /\
    map (map BusinessBot.as_tuple) (BusinessBot.inline_keyboard markup) = rows.
Proof.
  intros Hne Hall. destruct rows as [|row rows]; [congruence|].
  eexists. split; [apply convert_buttons_spec|]. cbn [BusinessBot.inline_keyboard].
  rewrite map_map. clear Hne. induction Hall as [|r rest Hr _ IH]; [reflexivity|].
  cbn [map]. f_equal; [|exact IH].
  rewrite omap_button_of_filter. clear -Hr.
  induction Hr as [|button r Hb _ IH]; [reflexivity|].
  simpl. now rewrite Hb, IH.
Qed.

(** X10: for any rows: the markup has as many rows as the list, also when a row
    loses all its entries, and each row of the markup holds the entries of
    its row that are 2-tuples, in order; every other entry is dropped, and
    no error is raised. *)
Theorem keyboard_keeps_rows_drops_malformed rows :
  rows <> [] ->
  exists markup,
    BusinessBot._convert_buttons_to_keyboard (Some rows) = Some markup /\
    length (BusinessBot.inline_keyboard markup) = length rows /\
    Forall2
      (fun buttons row =>
         map BusinessBot.as_tuple buttons = List.filter BusinessBot.well_formed row)
      (BusinessBot.inline_keyboard markup) rows.
Proof.
  intros Hne. destruct rows as [|row rows]; [congruence|].
  eexists. split; [apply convert_buttons_spec|]. cbn [BusinessBot.inline_keyboard].
  split; [now rewrite length_map|].
  apply Forall2_fmap_l, Forall_Forall2_diag, Forall_forall.
  intros r _. apply omap_button_of_filter.
Qed.

(** X11: no markup is built exactly for no buttons: [None] and the empty list. A
    list of rows without a single well-formed entry still gives a markup. *)
Theorem no_keyboard_iff_no_buttons buttons :
  BusinessBot._convert_buttons_to_keyboard buttons = None <->
  buttons = None \/ buttons = Some [].
Proof.
  destruct buttons as [[|row rows]|].
  - split; [now right | reflexivity].
  - rewrite convert_buttons_spec. split; [discriminate | intros [|]; discriminate].
  - split; [now left | reflexivity].
Qed.

(** ** The handlers of the bot *)

Section BotRuns.

Import BusinessBot.

Context {Ext : Type}.
Variable telegram : Telegram Ext.
Variable runtime : RuntimeOp -> Ext -> Outcome unit * Ext.
Variable format_exc : Exception -> string.
Variable self : AutosumBusinessBot Ext.

Ltac bproj := cbn [ext app records calls fst snd].

Lemma run_logger_error line (w : BotWorld Ext) :
  logger_error line w =
  (Returned tt, mkBotWorld (ext w) (app w) (records w ++ [(ERROR, line)]) (calls w)).
Proof. reflexivity. Qed.

Lemma run_logger_info line (w : BotWorld Ext) :
  logger_info line w =
  (Returned tt, mkBotWorld (ext w) (app w) (records w ++ [(INFO, line)]) (calls w)).
Proof. reflexivity. Qed.

Lemma run_call {A} c (op : Ext -> Outcome A * Ext) (w : BotWorld Ext) r x :
  op (ext w) = (r, x) ->
  call c op w = (r, mkBotWorld x (app w) (records w) (calls w ++ [c])).
Proof. intros H. unfold call. now rewrite H. Qed.

(** The guard [if buttons] around the conversion changes nothing: the
    conversion itself gives no keyboard for no buttons. *)
Lemma keyboard_of_convert buttons :
  keyboard_of buttons = _convert_buttons_to_keyboard buttons.
Proof. now destruct buttons as [[|row rows]|]. Qed.

(** X12: [respond] sends the text to the message of the update, once, with the
    keyboard [_convert_buttons_to_keyboard] builds from the buttons, and its
    outcome is the outcome of [reply_text]; for an update without a message
    it raises AttributeError and nothing is sent. *)
Theorem respond_sends_the_converted_keyboard update text buttons (w : BotWorld Ext) :
  match message update with
  | Some m =>
      let keyboard := _convert_buttons_to_keyboard buttons in
      let (r, x) := reply_text telegram m text keyboard (ext w) in
      MockEvent_respond telegram update text buttons w =
      (r, mkBotWorld x (app w) (records w)
            (calls w ++ [call_reply_text m text keyboard]))
  | None =>
      MockEvent_respond telegram update text buttons w =
      (Raised (AttributeError "'NoneType' object has no attribute 'reply_text'"), w)
  end.
Proof.
  unfold MockEvent_respond. rewrite keyboard_of_convert.
  destruct (message update) as [m|]; [|reflexivity].
  cbn [attr]. rewrite run_bind. cbn [ret].
  destruct (reply_text telegram m text _ (ext w)) as [r x] eqn:E.
  now apply run_call.
Qed.

Lemma run_business_menu update c (w : BotWorld Ext) :
  effective_chat update = Some c ->
  business_menu telegram format_exc self update w =
  try_except
    (menu (event_handler self) (menu_event telegram update c) ;;
     ret BUSINESS_MENU_CODE)
    (fun e =>
       logger_error ("Error in business menu: " +:+ exc_str e) ;;
       logger_error ("Full traceback: " +:+ format_exc e) ;;
       m <- attr (message update) "reply_text" ;;
       call (call_reply_text m "❌ Error loading business menu. Please try again." None)
         (reply_text telegram m "❌ Error loading business menu. Please try again."
            None) ;;
       ret END)
    w.
Proof. intros Hc. unfold business_menu, MockEvent_init. now rewrite Hc. Qed.

End BotRuns.

Section BotMenu.

Import BusinessBot.

Context {Ext : Type}.
Variable telegram : Telegram Ext.
Variable format_exc : Exception -> string.
Variable self : AutosumBusinessBot Ext.

Ltac bproj := cbn [ext app records calls fst snd].



(** The states [business_menu] returns. *)
Lemma business_menu_codes update (w w' : BotWorld Ext) code :
  business_menu telegram format_exc self update w = (Returned code, w') ->
  code = BUSINESS_MENU_CODE \/ code = END.
Proof.
  destruct (effective_chat update) as [c|] eqn:Hc.
  - rewrite (run_business_menu telegram format_exc self update c w Hc).
    unfold try_except. rewrite run_bind.
    destruct (menu (event_handler self) (menu_event telegram update c) w)
      as [[[]|e] w1].
    + intros [= <- _]. now left.
    + rewrite run_bind, run_logger_error, run_bind, run_logger_error, run_bind.
      destruct (message update) as [m|]; [|discriminate].
      cbn [attr ret]. rewrite run_bind. unfold call. bproj.
      destruct (reply_text telegram m _ _ _) as [[[]|e2] x]; [|discriminate].
      intros [= <- _]. now right.
  - unfold business_menu, MockEvent_init. rewrite Hc. discriminate.
Qed.

Lemma run_handle_business_callback update q m d (w : BotWorld Ext) :
  callback_query update = Some q ->
  query_message q = Some m -> query_data q = Some d ->
  handle_business_callback telegram format_exc self update w =
  (call (call_answer q) (answer telegram q) ;;
   try_except
     (if String.eqb d "back_to_menu" then
        business_menu telegram format_exc self update ;;
        ret BUSINESS_MENU_CODE
      else
        handler_handle_business_callback (event_handler self)
          (callback_event telegram q m d) ;;
        ret BUSINESS_CALLBACK_CODE)
     (fun e =>
        logger_error ("Error handling business callback: " +:+ exc_str e) ;;
        call (call_edit_message_text q
                "❌ Error processing request. Please try again." None)
          (edit_message_text telegram q
             "❌ Error processing request. Please try again." None) ;;
        ret END)) w.
Proof.
  intros Hq Hm Hd. unfold handle_business_callback. rewrite Hq.
  cbn [attr]. rewrite run_bind. cbn [ret].
  unfold MockCallbackEvent_init, data_equals. rewrite Hm, Hd.
  cbn [attr]. rewrite !run_bind.
  now destruct (call _ _ w) as [[[]|e] w1].
Qed.

(** The states [handle_business_callback] returns. *)
Lemma handle_business_callback_codes update (w w' : BotWorld Ext) code :
  handle_business_callback telegram format_exc self update w = (Returned code, w') ->
  code = BUSINESS_MENU_CODE \/ code = BUSINESS_CALLBACK_CODE \/ code = END.
Proof.
  destruct (callback_query update) as [q|] eqn:Hq;
    [|unfold handle_business_callback; rewrite Hq; discriminate].
  destruct (query_message q) as [m|] eqn:Hm.
  2:{ unfold handle_business_callback. rewrite Hq.
      cbn [attr]. rewrite run_bind. cbn [ret].
      unfold MockCallbackEvent_init. rewrite Hm.
      cbn [attr]. rewrite !run_bind.
      destruct (call _ _ w) as [[[]|e] w1]; discriminate. }
  destruct (query_data q) as [d|] eqn:Hd.
  2:{ unfold handle_business_callback. rewrite Hq.
      cbn [attr]. rewrite run_bind. cbn [ret].
      unfold MockCallbackEvent_init. rewrite Hm, Hd.
      cbn [attr]. rewrite !run_bind.
      destruct (call _ _ w) as [[[]|e] w1]; discriminate. }
  rewrite (run_handle_business_callback update q m d w Hq Hm Hd).
  rewrite run_bind. destruct (call _ _ w) as [[[]|e0] w0]; [|discriminate].
  unfold try_except.
  destruct (String.eqb d "back_to_menu").
  - rewrite run_bind.
    destruct (business_menu telegram format_exc self update w0) as [[code0|e] w1].
    + intros [= <- _]. now left.
    + rewrite run_bind, run_logger_error, run_bind. unfold call.
      destruct (edit_message_text telegram q _ _ _) as [[[]|e2] x]; [|discriminate].
      intros [= <- _]. now right; right.
  - rewrite run_bind.
    destruct (handler_handle_business_callback (event_handler self) _ w0)
      as [[[]|e] w1].
    + intros [= <- _]. now right; left.
    + rewrite run_bind, run_logger_error, run_bind. unfold call.
      destruct (edit_message_text telegram q _ _ _) as [[[]|e2] x]; [|discriminate].
      intros [= <- _]. now right; right.
Qed.


(** X15: after [setup], every conversation registered in the application is
    closed under its callbacks: each callback of its entry points, states
    and fallbacks is one of the two methods of the bot, and whatever state
    it returns is END or a state the conversation has handlers for.  The
    conversation with the menu is among them. *)
Theorem conversation_is_closed (w w' : BotWorld Ext) :
  setup self w = (Returned tt, w') ->
  exists a,
    app w' = Some a /\
    In business_menu_handler (handlers a) /\
    forall h c update,
      In h (handlers a) -> In c (conversation_callbacks h) ->
      exists co,
        run_callback telegram format_exc self c update = Some co /\
        forall (w0 w1 : BotWorld Ext) code,
          co w0 = (Returned code, w1) ->
          code = END \/ In code (conversation_states h).
Proof.
  unfold setup. destruct (String.eqb _ _); [discriminate|].
  intros [= <-]. eexists. split; [reflexivity|]. cbn [handlers app].
  split; [simpl; tauto|].
  intros h c update Hh Hc. simpl in Hh.
  destruct Hh as [<-|[<-|[<-|[<-|[]]]]]; try now destruct Hc.
  simpl in Hc. destruct Hc as [<-|[<-|[<-|[<-|[]]]]]; cbn [run_callback].
  - eexists. split; [reflexivity|]. intros w0 w1 code Hrun.
    apply business_menu_codes in Hrun as [->| ->]; simpl; tauto.
  - eexists. split; [reflexivity|]. intros w0 w1 code Hrun.
    apply handle_business_callback_codes in Hrun as [->|[->| ->]]; simpl; tauto.
  - eexists. split; [reflexivity|]. intros w0 w1 code Hrun.
    apply handle_business_callback_codes in Hrun as [->|[->| ->]]; simpl; tauto.
  - eexists. split; [reflexivity|]. intros w0 w1 code Hrun.
    apply business_menu_codes in Hrun as [->| ->]; simpl; tauto.
Qed.

(** X16: a callback query with the data "back_to_menu" that is answered: when
    [business_menu] returns, whichever state it returns, also END after a
    failure it reported, [handle_business_callback] returns the menu state
    and leaves the world [business_menu] left. *)
Theorem back_to_menu_keeps_the_menu_state update q m (w w1 : BotWorld Ext) x0 code :
  callback_query update = Some q ->
  query_message q = Some m ->
  query_data q = Some "back_to_menu" ->
  answer telegram q (ext w) = (Returned tt, x0) ->
  business_menu telegram format_exc self update
    (mkBotWorld x0 (app w) (records w) (calls w ++ [call_answer q]))
    = (Returned code, w1) ->
  handle_business_callback telegram format_exc self update w =
  (Returned BUSINESS_MENU_CODE, w1).
Proof.
  intros Hq Hm Hd Hanswer Hmenu.
  rewrite (run_handle_business_callback update q m _ w Hq Hm Hd).
  rewrite run_bind. erewrite run_call by exact Hanswer.
  unfold try_except. cbn [String.eqb Ascii.eqb Bool.eqb].
  now rewrite (run_bind_returned _ _ _ _ _ Hmenu).
Qed.


End BotMenu.

(** ** The life of the bot *)

Section BotLife.

Import BusinessBot.

Context {Ext : Type}.
Variable runtime : RuntimeOp -> Ext -> Outcome unit * Ext.
Variable self : AutosumBusinessBot Ext.

Ltac bproj := cbn [ext app records calls fst snd].

Lemma run_setup (w : BotWorld Ext) :
  bot_token self <> "" ->
  setup self w =
  (Returned tt,
   mkBotWorld (ext w) (Some (fresh_application self))
     (records w ++ [(INFO, "AutosumBusinessBot setup completed")]) (calls w)).
Proof.
  intros Htoken. unfold setup. apply String.eqb_neq in Htoken. now rewrite Htoken.
Qed.

(** X18: with a token, [setup] leaves an application with the three command
    handlers, the conversation and the error handler, each once and in this
    order, whatever application the bot held before: running [setup] again
    registers nothing twice.  Nothing outside the bot is called. *)
Theorem setup_registers_the_handlers_once (w : BotWorld Ext) :
  bot_token self <> "" ->
  exists w1 w2,
    setup self w = (Returned tt, w1) /\
    setup self w1 = (Returned tt, w2) /\
    app w1 = Some (fresh_application self) /\
    app w2 = app w1 /\
    ext w2 = ext w /\ calls w2 = calls w.
Proof.
  intros Htoken. eexists _, _.
  split; [apply run_setup, Htoken|]. split; [apply run_setup, Htoken|].
  repeat split.
Qed.

(** X19: without a token [start_polling] fails before it builds or starts
    anything: the ValueError of [setup] is logged and raised again, the
    application is as it was and nothing outside the bot is called. *)
Theorem start_polling_reports_a_missing_token fuel (w : BotWorld Ext) :
  bot_token self = "" ->
  start_polling runtime self fuel w =
  Some (Raised (ValueError "Business bot token is required"),
        mkBotWorld (ext w) (app w)
          (records w
             ++ [(ERROR,
                  "Error starting AutosumBusinessBot: Business bot token is required")])
          (calls w)).
Proof.
  intros Htoken. unfold start_polling, start_polling_watched, startup, setup.
  now rewrite Htoken.
Qed.

Lemma run_sleep_forever turns (w : BotWorld Ext) :
  sleep_forever turns w =
  mkBotWorld (ext w) (app w) (records w) (calls w ++ repeat (call_sleep 3600) turns).
Proof.
  revert w. induction turns as [|turns IH]; intros w.
  - simpl. rewrite app_nil_r. now destruct w.
  - cbn [sleep_forever repeat]. rewrite IH. bproj. now rewrite <- app_assoc.
Qed.

Lemma run_startup (w : BotWorld Ext) x1 x2 x3 :
  bot_token self <> "" ->
  runtime op_initialize (ext w) = (Returned tt, x1) ->
  runtime op_start x1 = (Returned tt, x2) ->
  runtime op_updater_start_polling x2 = (Returned tt, x3) ->
  startup runtime self w =
  (Returned tt,
   mkBotWorld x3 (Some (fresh_application self))
     (records w
        ++ [(INFO, "AutosumBusinessBot setup completed");
            (INFO, "Starting AutosumBusinessBot polling...");
            (INFO, "AutosumBusinessBot is running and polling for updates...")])
     (calls w
        ++ [call_runtime op_initialize; call_runtime op_start;
            call_runtime op_updater_start_polling])).
Proof.
  intros Htoken H1 H2 H3. unfold startup, run.
  rewrite run_bind, (run_setup w Htoken), run_bind, run_logger_info.
  rewrite run_bind. erewrite run_call by (bproj; exact H1).
  rewrite run_bind. erewrite run_call by (bproj; exact H2).
  rewrite run_bind. erewrite run_call by (bproj; exact H3).
  rewrite run_logger_info. bproj. now rewrite <- !app_assoc.
Qed.

(** X20: when the bot has started and [updater.idle()] raises an instance of
    [Exception], [start_polling] does not end: after any number of turns it
    is still in its loop, and what it has done since the call of [idle] is
    to sleep 3600 seconds, once per turn.  When [updater.idle()] returns,
    [start_polling] returns. *)
Theorem start_polling_outlives_a_failing_idle (w : BotWorld Ext) x1 x2 x3 :
  bot_token self <> "" ->
  runtime op_initialize (ext w) = (Returned tt, x1) ->
  runtime op_start x1 = (Returned tt, x2) ->
  runtime op_updater_start_polling x2 = (Returned tt, x3) ->
  match runtime op_updater_idle x3 with
  | (Raised e, x4) =>
      Dynamic.is_Exception e = true ->
      forall turns,
        start_polling_watched runtime self turns w =
          still_sleeping
            (mkBotWorld x4 (Some (fresh_application self))
               (records w
                  ++ [(INFO, "AutosumBusinessBot setup completed");
                      (INFO, "Starting AutosumBusinessBot polling...");
                      (INFO, "AutosumBusinessBot is running and polling for updates...")])
               (calls w
                  ++ [call_runtime op_initialize; call_runtime op_start;
                      call_runtime op_updater_start_polling;
                      call_runtime op_updater_idle]
                  ++ repeat (call_sleep 3600) turns)) /\
        start_polling runtime self turns w = None
  | (Returned _, x4) =>
      forall fuel,
      exists w', start_polling runtime self fuel w = Some (Returned tt, w') /\
                 ext w' = x4
  end.
Proof.
  intros Htoken H1 H2 H3.
  destruct (runtime op_updater_idle x3) as [[[]|e] x4] eqn:H4;
    [|intros _]; intros fuel;
    unfold start_polling, start_polling_watched;
    rewrite (run_startup w x1 x2 x3 Htoken H1 H2 H3);
    unfold run; erewrite run_call by (bproj; exact H4).
  - now eexists.
  - rewrite run_sleep_forever. bproj. split; [|reflexivity].
    now rewrite <- !app_assoc.
Qed.


End BotLife.

(** * Properties of the feature flags *)

Section Packages.

Import FeatureFlagsUsage.

Lemma dict_get_set d k v k' :
  dict_get (dict_set d k v) k' =
  if String.eqb k k' then Some v else dict_get d k'.
Proof.
  induction d as [|[k0 v0] d IH]; simpl.
  - reflexivity.
  - destruct (String.eqb k0 k) eqn:E0; simpl.
    + apply String.eqb_eq in E0 as ->. now destruct (String.eqb k k').
    + destruct (String.eqb k0 k') eqn:E1; [|now rewrite IH].
      apply String.eqb_eq in E1 as ->. now rewrite String.eqb_sym, E0.
Qed.

Context {Ext : Type}.
Variable value : FeatureFlags -> string.
Variable update_feature_flags : Z -> Dict -> Ext -> Outcome unit * Ext.
Variable str_dict : Dict -> string.

(** X22: the packages are nested, whatever strings the flags stand for: the
    trial package enables no flag; every flag the standard package enables
    the business package enables; the trial and the standard package set
    the same flags, and the business package sets them too. *)
Theorem package_tiers_are_nested (flag : string) :
  let trial := features_of value "TRIAL" in
  let standard := features_of value "STANDARD" in
  let business := features_of value "BUSINESS" in
  dict_get trial flag <> Some true /\
  (dict_get standard flag = Some true -> dict_get business flag = Some true) /\
  (is_Some (dict_get trial flag) <-> is_Some (dict_get standard flag)) /\
  (is_Some (dict_get standard flag) -> is_Some (dict_get business flag)).
Proof.
  cbv zeta. unfold features_of, dict_literal.
  cbn [String.eqb Ascii.eqb Bool.eqb foldl fst snd].
  rewrite !dict_get_set. cbn [dict_get].
  repeat match goal with
         | |- context [String.eqb ?a flag] => destruct (String.eqb a flag)
         end;
    repeat split; try discriminate; try tauto; eauto;
    intros [? ?]; discriminate.
Qed.

(** X23: for a package type that is none of "TRIAL", "STANDARD" and "BUSINESS",
    in this spelling, no error is raised for the type: the service is still
    called, with an empty dict, and the line printed shows it. *)
Theorem unknown_package_sets_no_flag chat_id package_type (w : UsageWorld Ext) :
  package_type <> "TRIAL" -> package_type <> "STANDARD" ->
  package_type <> "BUSINESS" ->
  setup_package_features value update_feature_flags str_dict chat_id package_type w =
  match update_feature_flags chat_id [] (service_state w) with
  | (Returned _, x) =>
      (Returned tt,
       mkUsageWorld x
         (stdout w ++ ["Setup features for " +:+ package_type +:+ " package: "
                         +:+ str_dict []]))
  | (Raised e, x) => (Raised e, mkUsageWorld x (stdout w))
  end.
Proof.
  intros H1 H2 H3. unfold setup_package_features, features_of.
  apply String.eqb_neq in H1, H2, H3. rewrite H1, H2, H3.
  rewrite run_bind.
  now destruct (update_feature_flags chat_id [] (service_state w)) as [[[]|e] x].
Qed.

End Packages.

(** * The further properties on the small deployments *)

Lemma notification_delivers_the_summary_witness :
  exists w',
    _send_shift_summary Demo.scheduler Demo.format_exc Demo.never
      (Demo.shift 2 20 8) (Demo.world []) = (Returned tt, w') /\
    net w' = [(20, summary_message 8 Demo.summary)] /\
    log w' = ["Sent shift summary for shift 2 to chat 20"].
Proof.
  eexists. split.
  - apply (notification_delivers_the_summary Demo.scheduler Demo.format_exc
             Demo.never Demo.bot (Demo.shift 2 20 8) 2 20 8 (Demo.world [])
             Demo.summary [] true [(20, summary_message 8 Demo.summary)]);
      reflexivity.
  - split; reflexivity.
Defined.


Lemma malformed_record_is_reported_witness :
  exists w',
    _send_shift_summary Demo.scheduler Demo.format_exc Demo.never
      (<["id" := 3]> (<["chat_id" := 30]> ∅)) (Demo.world []) = (Returned tt, w') /\
    fetches (events w') = [] /\ sends (events w') = [].
Proof.
  eexists. split.
  - apply (malformed_record_is_reported Demo.scheduler Demo.format_exc Demo.never
             (<["id" := 3]> (<["chat_id" := 30]> ∅)) "number" (Demo.world [])).
    reflexivity.
  - split; reflexivity.
Defined.

Lemma record_without_id_stops_the_cycle_witness :
  exists w',
    check_auto_close_shifts Demo.scheduler Demo.format_exc Demo.never
      (Demo.world [Demo.shift 2 20 8; <["chat_id" := 30]> ∅]) = (Returned tt, w') /\
    attempts (events w') = [].
Proof.
  eexists. split.
  - apply (record_without_id_stops_the_cycle Demo.scheduler Demo.format_exc
             Demo.never [Demo.shift 2 20 8] (<["chat_id" := 30]> ∅) [] []
             (Demo.world [Demo.shift 2 20 8; <["chat_id" := 30]> ∅])).
    + reflexivity.
    + repeat constructor. now exists 2.
    + reflexivity.
  - reflexivity.
Defined.



Lemma every_cycle_closes_once_and_sleeps_once_witness :
  exists out w' new,
    start_scheduler Demo.scheduler Demo.format_exc (Demo.at_await 3) 5
      (Demo.world [Demo.shift 2 20 8]) = Some (out, w') /\
    events w' = [] ++ new /\
    closes new = cycles new /\ sleeps new = repeat 60 (cycles new).
Proof.
  destruct (start_scheduler Demo.scheduler Demo.format_exc (Demo.at_await 3) 5
              (Demo.world [Demo.shift 2 20 8])) as [[out w']|] eqn:E.
  - destruct (every_cycle_closes_once_and_sleeps_once Demo.scheduler Demo.format_exc
                (Demo.at_await 3) 5 (Demo.world [Demo.shift 2 20 8]) out w' E)
      as (new & Ee & Hc & Hs & _).
    exists out, w', new. split; [reflexivity|]. split; [exact Ee|].
    split; [exact Hc | exact Hs].
  - vm_compute in E. discriminate.
Defined.

Lemma keyboard_round_trip_witness :
  exists markup,
    BusinessBot._convert_buttons_to_keyboard
      (Some [[BusinessBot.a_tuple ["Yes"; "yes"]; BusinessBot.a_tuple ["No"; "no"]]])
      = Some markup /\
    map (map BusinessBot.as_tuple) (BusinessBot.inline_keyboard markup)
      = [[BusinessBot.a_tuple ["Yes"; "yes"]; BusinessBot.a_tuple ["No"; "no"]]].
Proof.
  apply (keyboard_round_trip
           [[BusinessBot.a_tuple ["Yes"; "yes"]; BusinessBot.a_tuple ["No"; "no"]]]).
  - discriminate.
  - repeat constructor.
Defined.

Lemma keyboard_keeps_rows_drops_malformed_witness :
  exists markup,
    BusinessBot._convert_buttons_to_keyboard
      (Some [[BusinessBot.not_a_tuple];
             [BusinessBot.a_tuple ["A"; "a"]; BusinessBot.a_tuple ["x"]]])
      = Some markup /\
    length (BusinessBot.inline_keyboard markup) = 2%nat.
Proof.
  destruct (keyboard_keeps_rows_drops_malformed
              [[BusinessBot.not_a_tuple];
               [BusinessBot.a_tuple ["A"; "a"]; BusinessBot.a_tuple ["x"]]])
    as (markup & E & Hl & _).
  - discriminate.
  - exists markup. split; [exact E | exact Hl].
Defined.

Lemma no_keyboard_iff_no_buttons_witness :
  BusinessBot._convert_buttons_to_keyboard (Some []) = None.
Proof. apply (no_keyboard_iff_no_buttons (Some [])). now right. Defined.



Lemma conversation_is_closed_witness :
  exists a,
    BusinessBot.app
      (BusinessBot.setup BotDemo.bot BotDemo.world).2 = Some a /\
    In BusinessBot.business_menu_handler (BusinessBot.handlers a).
Proof.
  destruct (conversation_is_closed BotDemo.telegram BotDemo.format_exc BotDemo.bot
              BotDemo.world (BusinessBot.setup BotDemo.bot BotDemo.world).2)
    as (a & Ha & Hin & _).
  - reflexivity.
  - exists a. split; [exact Ha | exact Hin].
Defined.

Lemma back_to_menu_keeps_the_menu_state_witness :
  exists w',
    BusinessBot.handle_business_callback BotDemo.telegram BotDemo.format_exc
      BotDemo.bot (BotDemo.callback_update "back_to_menu") BotDemo.world
    = (Returned BusinessBot.BUSINESS_MENU_CODE, w') /\
    BusinessBot.ext w' = [(5, "❌ Error loading business menu. Please try again.")].
Proof.
  eexists. split.
  - eapply (back_to_menu_keeps_the_menu_state BotDemo.telegram BotDemo.format_exc
              BotDemo.bot (BotDemo.callback_update "back_to_menu")
              (BusinessBot.mkCallbackQuery (Some (BusinessBot.mkMessage 5))
                 (Some "back_to_menu"))
              (BusinessBot.mkMessage 5) BotDemo.world) with (x0 := [])
      (code := BusinessBot.END);
      reflexivity.
  - reflexivity.
Defined.


Lemma setup_registers_the_handlers_once_witness :
  exists w1 w2,
    BusinessBot.setup BotDemo.bot BotDemo.world = (Returned tt, w1) /\
    BusinessBot.setup BotDemo.bot w1 = (Returned tt, w2) /\
    BusinessBot.app w2 = BusinessBot.app w1.
Proof.
  destruct (setup_registers_the_handlers_once BotDemo.bot BotDemo.world)
    as (w1 & w2 & E1 & E2 & _ & Ha & _).
  - discriminate.
  - exists w1, w2. split; [exact E1|]. split; [exact E2 | exact Ha].
Defined.

Lemma start_polling_reports_a_missing_token_witness :
  exists w',
    BusinessBot.start_polling BotDemo.runtime BotDemo.bot_without_token 3 BotDemo.world
    = Some (Raised (BusinessBot.ValueError "Business bot token is required"), w') /\
    BusinessBot.calls w' = [].
Proof.
  eexists. split.
  - apply (start_polling_reports_a_missing_token BotDemo.runtime
             BotDemo.bot_without_token 3 BotDemo.world).
    reflexivity.
  - reflexivity.
Defined.

Lemma package_tiers_are_nested_witness :
  FeatureFlagsUsage.dict_get
    (FeatureFlagsUsage.features_of FlagsDemo.value "BUSINESS")
    "transaction_annotation" = Some true.
Proof.
  apply (package_tiers_are_nested FlagsDemo.value "transaction_annotation").
  reflexivity.
Defined.

Lemma unknown_package_sets_no_flag_witness :
  exists w',
    FeatureFlagsUsage.setup_package_features FlagsDemo.value
      FlagsDemo.update_feature_flags FlagsDemo.str_dict 123456789 "trial"
      (FeatureFlagsUsage.mkUsageWorld [] [])
    = (Returned tt, w') /\
    FeatureFlagsUsage.service_state w' = [(123456789, [])].
Proof.
  eexists. split.
  - apply (unknown_package_sets_no_flag FlagsDemo.value
             FlagsDemo.update_feature_flags FlagsDemo.str_dict 123456789 "trial"
             (FeatureFlagsUsage.mkUsageWorld [] [])); discriminate.
  - reflexivity.
Defined.

Lemma loop_exits_only_on_stop_witness :
  (exists w',
     Dynamic.start_scheduler DynamicDemo.scheduler Demo.format_exc (Demo.at_await 3) 5
       (Demo.world [Demo.shift 3 30 9]) = Some (Returned tt, w') /\
     is_running w' = false) /\
  (exists e w',
     Dynamic.start_scheduler DynamicDemo.cancelled_scheduler Demo.format_exc Demo.never 5
       (Demo.world []) = Some (Raised e, w') /\
     Dynamic.is_Exception e = false /\ is_running w' = true).
Proof.
  split.
  - destruct (Dynamic.start_scheduler DynamicDemo.scheduler Demo.format_exc
                (Demo.at_await 3) 5 (Demo.world [Demo.shift 3 30 9]))
      as [[out w']|] eqn:E.
    + destruct (loop_exits_only_on_stop DynamicDemo.scheduler Demo.format_exc
                  (Demo.at_await 3) 5 (Demo.world [Demo.shift 3 30 9]) out w' E)
        as (Hways & Hout).
      specialize (Hout demo_errors_only). subst out.
      destruct Hways as [(_ & Hr & _)|(e & He & _)]; [|discriminate He].
      exists w'. split; [reflexivity | exact Hr].
    + vm_compute in E. discriminate E.
  - destruct (Dynamic.start_scheduler DynamicDemo.cancelled_scheduler Demo.format_exc
                Demo.never 5 (Demo.world [])) as [[out w']|] eqn:E.
    + destruct (loop_exits_only_on_stop DynamicDemo.cancelled_scheduler
                  Demo.format_exc Demo.never 5 (Demo.world []) out w' E)
        as ([(Hout & _)|(e & He & Hsig)] & _).
      * subst out. vm_compute in E. discriminate E.
      * subst out. exists e, w'. split; [reflexivity|]. split; [exact Hsig|].
        vm_compute in E. now injection E as _ <-.
    + vm_compute in E. discriminate E.
Defined.

Lemma bot_class_delivers_nothing_witness :
  exists w',
    Dynamic._send_shift_summary DynamicDemo.scheduler_with_the_class Demo.format_exc
      Demo.never (Demo.shift 3 30 9) (Demo.world []) = (Returned tt, w') /\
    net w' = [] /\
    sends (events w') = [] /\
    awaits w' = 1%nat /\
    In ("Error sending shift summary for shift 3: "
        +:+ "'AutosumBusinessBot' object has no attribute 'send_message'") (log w').
Proof.
  eexists. split.
  - eapply (bot_class_delivers_nothing DynamicDemo.scheduler_with_the_class
              Demo.format_exc Demo.never Dynamic.instance_of_the_class
              (Demo.shift 3 30 9) 3 30 9 (Demo.world []) DynamicDemo.summary []);
      reflexivity.
  - cbv zeta. repeat split. left. reflexivity.
Defined.

Lemma start_polling_outlives_a_failing_idle_witness :
  exists w,
    BusinessBot.start_polling_watched BotDemo.runtime BotDemo.bot 2 BotDemo.world
    = BusinessBot.still_sleeping w /\
    BusinessBot.calls w =
      [BusinessBot.call_runtime BusinessBot.op_initialize;
       BusinessBot.call_runtime BusinessBot.op_start;
       BusinessBot.call_runtime BusinessBot.op_updater_start_polling;
       BusinessBot.call_runtime BusinessBot.op_updater_idle;
       BusinessBot.call_sleep 3600; BusinessBot.call_sleep 3600] /\
    BusinessBot.start_polling BotDemo.runtime BotDemo.bot 2 BotDemo.world = None.
Proof.
  pose proof (start_polling_outlives_a_failing_idle BotDemo.runtime BotDemo.bot
                BotDemo.world [] [] [] ltac:(discriminate) eq_refl eq_refl eq_refl)
    as H.
  cbn [BotDemo.runtime] in H. destruct (H eq_refl 2%nat) as (Hw & Hnone).
  eexists. split; [exact Hw|]. split; [reflexivity | exact Hnone].
Defined.
